(** * R2R pull and sort: a shallow embedding of [r2r_sftp_pull.py] and
    [r2r_validate_sort.py], and the properties of the inventory, selection,
    validation and routing logic proved about it. *)

From Stdlib Require Import ZArith String Ascii List Bool Lia.
From stdpp Require Import base option list list_numbers strings gmap sorting.

Local Open Scope string_scope.
Local Open Scope Z_scope.
Local Open Scope list_scope.

(** ** Python values and primitives used by both scripts *)

Module Py.

(** The exception classes that can escape the modelled statements. *)
Inductive exn :=
| IndexError | ValueError | TypeError | AttributeError
| KeyError | FileNotFoundError | OSError | SqliteError | RequestException.

Global Instance exn_eq_dec : EqDecision exn.
Proof. solve_decision. Defined.

(** A computation either returns a value or raises. *)
Inductive result (A : Type) :=
| Ok (a : A)
| Raise (e : exn).
Global Arguments Ok {A} a.
Global Arguments Raise {A} e.

Definition bind {A B} (r : result A) (k : A -> result B) : result B :=
  match r with
  | Ok a => k a
  | Raise e => Raise e
  end.

(** What the scripts append to their module-level [errors] list: a
    message, an exception object, or the list of stderr lines. *)
Inductive err :=
| EMsg (s : string)
| EExn (e : exn)
| ELines (l : list string).

(** [subprocess.CompletedProcess] *)
Record process := {
  returncode : Z;
  stdout : string;
  stderr : string
}.

(** [c.isspace()] for a character below code point 256. *)
Definition is_space (c : ascii) : bool :=
  let n := N_of_ascii c in
  ((9 <=? n) && (n <=? 13) || (28 <=? n) && (n <=? 32)
   || (n =? 133) || (n =? 160))%N.

(** [s.split()] : maximal runs of non-whitespace. *)
Fixpoint split_ws (s : string) : list string :=
  match s with
  | "" => []
  | String c s' =>
      if is_space c then split_ws s'
      else match s' with
           | "" => [String c ""]
           | String c' _ =>
               if is_space c' then String c "" :: split_ws s'
               else match split_ws s' with
                    | w :: ws => String c w :: ws
                    | [] => [String c ""]
                    end
           end
  end.

(** [s.split(sep)] for a one-character separator. *)
Fixpoint split_on (sep : ascii) (s : string) : list string :=
  match s with
  | "" => [""]
  | String c s' =>
      if Ascii.eqb c sep then "" :: split_on sep s'
      else match split_on sep s' with
           | w :: ws => String c w :: ws
           | [] => [String c ""]
           end
  end.

(** [s.startswith(p)] *)
Fixpoint startswith (p s : string) : bool :=
  match p, s with
  | "", _ => true
  | String a p', String b s' => Ascii.eqb a b && startswith p' s'
  | String _ _, "" => false
  end.

(** [needle in hay] on strings. *)
Fixpoint contains (needle hay : string) : bool :=
  startswith needle hay
  || match hay with
     | "" => false
     | String _ hay' => contains needle hay'
     end.

(** [s.endswith(suf)] *)
Definition endswith (suf s : string) : bool :=
  let n := String.length s in
  let m := String.length suf in
  (m <=? n)%nat && String.eqb (substring (n - m) m s) suf.

Fixpoint lstrip (s : string) : string :=
  match s with
  | "" => ""
  | String c s' => if is_space c then lstrip s' else s
  end.

Fixpoint rstrip (s : string) : string :=
  match s with
  | "" => ""
  | String c s' =>
      match rstrip s' with
      | "" => if is_space c then "" else String c ""
      | r => String c r
      end
  end.

(** [s.strip()] *)
Definition strip (s : string) : string := rstrip (lstrip s).

(** [s[:-1]] on a string. *)
Fixpoint drop_last (s : string) : string :=
  match s with
  | "" => ""
  | String c s' => match s' with "" => "" | _ => String c (drop_last s') end
  end.

Definition digit_val (c : ascii) : option Z :=
  let n := N_of_ascii c in
  if ((48 <=? n) && (n <=? 57))%N then Some (Z.of_N n - 48) else None.

(** The digit part of a base-10 literal accepted by [int(str)]: digits
    separated by single underscores. *)
Fixpoint digits_go (acc : Z) (after_digit : bool) (s : string) : option Z :=
  match s with
  | "" => if after_digit then Some acc else None
  | String c s' =>
      match digit_val c with
      | Some d => digits_go (10 * acc + d) true s'
      | None =>
          if Ascii.eqb c "_" && after_digit then digits_go acc false s'
          else None
      end
  end.

(** [int(s)]: surrounding whitespace, an optional sign, then digits;
    anything else raises [ValueError]. *)
Definition int (s : string) : result Z :=
  let t := strip s in
  let body :=
    match t with
    | String "+" r => digits_go 0 false r
    | String "-" r => Z.opp <$> digits_go 0 false r
    | _ => digits_go 0 false t
    end in
  match body with
  | Some z => Ok z
  | None => Raise ValueError
  end.

(** [l[-1]] and [l[-2]] *)
Definition index_last {A} (l : list A) : result A :=
  match rev l with
  | x :: _ => Ok x
  | [] => Raise IndexError
  end.

Definition index_second_last {A} (l : list A) : result A :=
  match rev l with
  | _ :: x :: _ => Ok x
  | _ => Raise IndexError
  end.

(** [l[0]] *)
Definition index_first {A} (l : list A) : result A :=
  match l with
  | x :: _ => Ok x
  | [] => Raise IndexError
  end.

(** [l[i]] with Python's negative indices. *)
Definition index {A} (l : list A) (i : Z) : result A :=
  let n := Z.of_nat (List.length l) in
  let j := if i <? 0 then i + n else i in
  if (0 <=? j) && (j <? n) then
    match nth_error l (Z.to_nat j) with
    | Some x => Ok x
    | None => Raise IndexError
    end
  else Raise IndexError.

Fixpoint mapM {A B} (f : A -> result B) (l : list A) : result (list B) :=
  match l with
  | [] => Ok []
  | x :: l' =>
      match f x with
      | Raise e => Raise e
      | Ok y =>
          match mapM f l' with
          | Raise e => Raise e
          | Ok ys => Ok (y :: ys)
          end
      end
  end.

(** Where the last occurrence of [c] cuts [s]: the text before it and
    the text after it. *)
Fixpoint rsplit1 (c : ascii) (s : string) : option (string * string) :=
  match s with
  | "" => None
  | String a s' =>
      match rsplit1 c s' with
      | Some (h, t) => Some (String a h, t)
      | None => if Ascii.eqb a c then Some ("", s') else None
      end
  end.

Fixpoint all_char (c : ascii) (s : string) : bool :=
  match s with
  | "" => true
  | String a s' => Ascii.eqb a c && all_char c s'
  end.

Fixpoint rstrip_char (c : ascii) (s : string) : string :=
  match s with
  | "" => ""
  | String a s' =>
      match rstrip_char c s' with
      | "" => if Ascii.eqb a c then "" else String a ""
      | r => String a r
      end
  end.

(** [os.path.splitext] (POSIX) *)
Definition splitext (p : string) : string * string :=
  let '(dir, base) :=
    match rsplit1 "/" p with
    | Some (h, t) => (String.append h "/", t)
    | None => ("", p)
    end in
  match rsplit1 "." base with
  | Some (stem, ext) =>
      if all_char "." stem then (p, "")
      else (String.append dir stem, String "." ext)
  | None => (p, "")
  end.

(** [os.path.split] (POSIX) *)
Definition path_split (p : string) : string * string :=
  match rsplit1 "/" p with
  | None => ("", p)
  | Some (h, t) =>
      let head := String.append h "/" in
      (if all_char "/" head then head else rstrip_char "/" head, t)
  end.

(** [re.search('\d+', s)]: the first maximal run of digits, if any. *)
Fixpoint take_digits (s : string) : string :=
  match s with
  | "" => ""
  | String c s' =>
      match digit_val c with
      | Some _ => String c (take_digits s')
      | None => ""
      end
  end.

Fixpoint search_digits (s : string) : option string :=
  match s with
  | "" => None
  | String c s' =>
      match digit_val c with
      | Some _ => Some (take_digits s)
      | None => search_digits s'
      end
  end.

(** An insertion-ordered [dict]: assigning to a present key replaces the
    value in place, assigning to a new key appends. *)
Fixpoint dict_set {V} (k : string) (v : V) (d : list (string * V))
  : list (string * V) :=
  match d with
  | [] => [(k, v)]
  | (k', v') :: d' =>
      if String.eqb k k' then (k, v) :: d' else (k', v') :: dict_set k v d'
  end.

Fixpoint dict_get {V} (k : string) (d : list (string * V)) : option V :=
  match d with
  | [] => None
  | (k', v') :: d' => if String.eqb k k' then Some v' else dict_get k d'
  end.

End Py.

Import Py.

Notation "'let!' x ':=' r 'in' k" := (Py.bind r (fun x => k))
  (at level 10, x pattern, r at level 100, k at level 200, only parsing).


(** ** The inventory store (table [DATASETS]) *)

(** [DATA_TYPE] holds one of the three literals ['WCSD'], ['Multibeam'],
    ['Trackline'] assigned in [build_sqlite]. *)
Inductive data_type := WCSD | Multibeam | Trackline.

Global Instance data_type_eq_dec : EqDecision data_type.
Proof. solve_decision. Defined.

Definition data_type_str (d : data_type) : string :=
  match d with
  | WCSD => "WCSD"
  | Multibeam => "Multibeam"
  | Trackline => "Trackline"
  end.

(** [BEEN_PULLED]: ['N'] is [Pending], ['Y'] is [Pulled]. *)
Inductive pulled_status := Pending | Pulled.

Global Instance pulled_status_eq_dec : EqDecision pulled_status.
Proof. solve_decision. Defined.

Record PackageRecord := {
  FILESET_ID : string;
  CRUISE_ID : string;
  PLATFORM_NAME : string;
  INSTRUMENT_NAME : string;
  INSTRUMENT_TYPE : string;
  SIZE_BYTES : Z;
  HUMAN_READABLE : string;
  FILE_COUNT : Z;
  PACKAGE_PATH : string;
  DATE_DIR : string;
  DATA_TYPE : data_type;
  BEEN_PULLED : pulled_status
}.

(** The SQLite file: absent, present but unusable (every statement raises
    [sqlite3.Error]), or holding the rows of [DATASETS] in store order. *)
Inductive db_file :=
| DbMissing
| DbBroken
| DbRows (rows : list PackageRecord).

Definition database_connect (f : db_file) : result db_file :=
  match f with
  | DbMissing => Raise FileNotFoundError
  | _ => Ok f
  end.

Definition fetchall (db : db_file) : result (list PackageRecord) :=
  match db with
  | DbRows rows => Ok rows
  | _ => Raise SqliteError
  end.

Definition lower (c : ascii) : ascii :=
  let n := N_of_ascii c in
  if ((65 <=? n) && (n <=? 90))%N then ascii_of_N (n + 32) else c.

(** SQLite's [text LIKE pattern]: ASCII case-insensitive, [%] any run of
    characters, [_] any one character. *)
Fixpoint sql_like (pattern : string) : string -> bool :=
  match pattern with
  | "" => fun text => match text with "" => true | _ => false end
  | String c pattern' =>
      if Ascii.eqb c "%" then
        fix any (text : string) : bool :=
          sql_like pattern' text
          || match text with
             | "" => false
             | String _ text' => any text'
             end
      else if Ascii.eqb c "_" then
        fun text =>
          match text with
          | "" => false
          | String _ text' => sql_like pattern' text'
          end
      else
        fun text =>
          match text with
          | "" => false
          | String d text' =>
              Ascii.eqb (lower c) (lower d) && sql_like pattern' text'
          end
  end.

(** [update DATASETS set BEEN_PULLED = 'Y' where PACKAGE_PATH = :path] *)
Definition mark_pulled (path : string) (r : PackageRecord) : PackageRecord :=
  if String.eqb (PACKAGE_PATH r) path then
    {| FILESET_ID := FILESET_ID r; CRUISE_ID := CRUISE_ID r;
       PLATFORM_NAME := PLATFORM_NAME r; INSTRUMENT_NAME := INSTRUMENT_NAME r;
       INSTRUMENT_TYPE := INSTRUMENT_TYPE r; SIZE_BYTES := SIZE_BYTES r;
       HUMAN_READABLE := HUMAN_READABLE r; FILE_COUNT := FILE_COUNT r;
       PACKAGE_PATH := PACKAGE_PATH r; DATE_DIR := DATE_DIR r;
       DATA_TYPE := DATA_TYPE r; BEEN_PULLED := Pulled |}
  else r.

Definition update_been_pulled (path : string) (db : db_file) : result db_file :=
  match db with
  | DbRows rows => Ok (DbRows (mark_pulled path <$> rows))
  | _ => Raise SqliteError
  end.

(** ** Helpers shared by the two scripts *)

Section Shared.

(** The float arithmetic of [convert_size] on a positive size
    ([math.log], [math.pow], [round], the ["%s %s"] rendering and the
    lookup in [size_name]) is left to the caller. *)
Variable float_render : Z -> result string.

Definition convert_size (pkg_bytes : Z) : result string :=
  if pkg_bytes =? 0 then Ok "0B"
  else if pkg_bytes <? 0 then Raise ValueError
  else float_render pkg_bytes.

(** [run_subprocess]: [attempt n] is what the [n]-th call of
    [subprocess.run] returns. *)
Fixpoint run_subprocess_loop (attempt : Z -> process) (number_tries : Z)
    (try_count : Z) (remaining : nat) : process :=
  let try_count := try_count + 1 in
  let p := attempt try_count in
  if negb (returncode p =? 0)
     && negb (contains "file already exists" (stdout p)) then
    if number_tries <=? try_count then p
    else match remaining with
         | O => p
         | S remaining' =>
             run_subprocess_loop attempt number_tries try_count remaining'
         end
  else p.

Definition run_subprocess (attempt : Z -> process) (number_tries : Z)
  : process :=
  run_subprocess_loop attempt number_tries 0 (Z.to_nat number_tries).

End Shared.

(** ** [r2r_sftp_pull.py] *)

Module Pull.

Record candidate := {
  r2r_id : string;
  package_path : string
}.

(** What [connect_to_sftp] hands back: a list of names, the integer 0,
    or [None] when it falls off the end. *)
Inductive dates_value :=
| DatesList (l : list string)
| DatesZero
| DatesNone.

(** What [check_date_dirs] hands back: the inventory dict or the
    integer 0. *)
Inductive inventory_value :=
| InvDict (d : list (string * list candidate))
| InvZero.

(** What [landing_space_bytes] hands back: [False] or the pair
    [(free_space, flag)]. *)
Inductive space_value :=
| SpaceFalse
| SpaceTuple (free_space : Z) (flag : bool).

(** [fileset_metadata] as read from the metadata service. *)
Record metadata := {
  files : Z;
  total_bytes : Z;
  make_model_name : string;
  device_name : string;
  cruise_id : string;
  vessel_name : string
}.

Section Script.

Variable float_render : Z -> result string.
(** [platform.system()] *)
Variable platform_system : string.
(** [sftp ... ls -l path]: the completed process, on the production
    server ([true]) or the test server ([false]). *)
Variable sftp_ls : bool -> string -> process.
(** [sftp ... cd cd_path; get package landing_path] *)
Variable sftp_get : bool -> string -> string -> string -> result process.
(** [ls landing_path] run after fetching [package]. *)
Variable ls_landing : string -> string -> process.
(** [df path n]: what the [n]-th run of [df -B1 --output=avail path]
    returns. *)
Variable df : string -> Z -> process.
(** [datetime.strptime(date, "%Y-%m-%d")] as (year, month, day);
    [None] is [ValueError]. *)
Variable strptime : string -> option (Z * Z * Z).
(** [requests.get(url).json()['data'][0]] for a fileset id. *)
Variable fileset_api : string -> result metadata.
(** Whether the table's constraints reject inserting a row. *)
Variable insert_rejected : list PackageRecord -> PackageRecord -> bool.

Definition production : bool :=
  negb (String.eqb platform_system "Darwin")
  && negb (String.eqb platform_system "Windows").

(** *** landing_space_bytes *)

Definition landing_space_bytes (ncei_landing_space : string) (minimum : Z)
    (errors : list err) : space_value * list err :=
  let min_space := minimum * 1024 * 1024 * 1024 in
  let process := run_subprocess (df ncei_landing_space) 5 in
  if negb (returncode process =? 0) then (SpaceFalse, errors)
  else
    let raw_info := stdout process in
    let guarded :=
      let! digits :=
        match search_digits raw_info with
        | Some d => Ok d
        | None => Raise AttributeError
        end in
      let! space := int digits in
      let free_space := space - min_space in
      let! human_readable := convert_size float_render free_space in
      Ok (space, free_space) in
    match guarded with
    | Raise e => (SpaceFalse, errors ++ [EExn e])
    | Ok (space, free_space) =>
        if min_space <=? space then (SpaceTuple free_space true, errors)
        else (SpaceTuple free_space false, errors)
    end.

(** [space_check[i]] *)
Definition space_index0 (v : space_value) : result Z :=
  match v with
  | SpaceTuple free_space _ => Ok free_space
  | SpaceFalse => Raise TypeError
  end.

Definition space_index1 (v : space_value) : result bool :=
  match v with
  | SpaceTuple _ flag => Ok flag
  | SpaceFalse => Raise TypeError
  end.

(** *** connect_to_sftp *)

Fixpoint last_fields (lines : list string) : list string :=
  match lines with
  | [] => []
  | line :: rest =>
      match rev (split_ws line) with
      | date_str :: _ => date_str :: last_fields rest
      | [] => last_fields rest
      end
  end.

(** [l.remove(x)] *)
Fixpoint list_remove (x : string) (l : list string) : result (list string) :=
  match l with
  | [] => Raise ValueError
  | y :: l' =>
      if String.eqb y x then Ok l'
      else let! r := list_remove x l' in Ok (y :: r)
  end.

Definition connect_to_sftp (machine port sftp_server file_path : string)
    (errors : list err) : result dates_value * list err :=
  let process :=
    if negb (String.eqb machine "Darwin")
       && negb (String.eqb machine "Windows")
    then sftp_ls true file_path
    else sftp_ls false "/data" in
  if negb (returncode process =? 0) then
    if contains "matched no objects" (stderr process) then
      (Ok DatesZero, errors)
    else (Ok DatesNone, errors ++ [EMsg ("Error in  " +:+ sftp_server)])
  else
    let return_list := tail (split_on "010" (stdout process)) in
    let r2r_dates := last_fields return_list in
    (let! l := list_remove "README" r2r_dates in Ok (DatesList l), errors).

(** *** check_date_dirs *)

(** The body of the [try] for one listed line: [None] when the entry
    is passed over as a manifest. *)
Definition parse_entry (date_dir line : string) : result (option candidate) :=
  let! id_str := index_last (split_ws line) in
  if negb (contains ".md5" id_str) then
    let package_path := date_dir +:+ "/" +:+ id_str in
    let! r2r_id := index_second_last (split_on "_" id_str) in
    Ok (Some {| r2r_id := r2r_id; package_path := package_path |})
  else Ok None.

(** The loop over the lines of one directory listing. *)
Fixpoint parse_entries (date_dir : string) (lines : list string)
    (found : list candidate) (errors : list err)
  : list candidate * list err :=
  match lines with
  | [] => (found, errors)
  | line :: rest =>
      match parse_entry date_dir line with
      | Ok (Some c) => parse_entries date_dir rest (found ++ [c]) errors
      | Ok None => parse_entries date_dir rest found errors
      | Raise e => parse_entries date_dir rest found (errors ++ [EExn e])
      end
  end.

(** [db_date_list]: the distinct [DATE_DIR] values in row order. *)
Fixpoint distinct_dates (rows : list PackageRecord) (seen : list string)
  : list string :=
  match rows with
  | [] => seen
  | r :: rest =>
      if bool_decide (DATE_DIR r ∈ seen) then distinct_dates rest seen
      else distinct_dates rest (seen ++ [DATE_DIR r])
  end.

Definition after_cutoff (dt : Z * Z * Z) : bool :=
  let '(y, m, d) := dt in
  (2021 <? y) || (y =? 2021) && ((1 <? m) || (m =? 1) && (1 <? d)).

Definition date_dir_of (file_path date : string) : string :=
  if production then file_path +:+ "/" +:+ date else "/data/" +:+ date.

(** State of the loop over [date_list]. *)
Record discovery := {
  date_dir_inventory : list (string * list candidate);
  new_dir_count : Z;
  errors_of : list err;
  (** the directories a listing was requested for, in order *)
  listed : list string
}.

Fixpoint compare_dates (date_list : list string) (file_path : string)
    (db_date_list : list string) (st : discovery)
  : result (inventory_value * discovery) :=
  match date_list with
  | [] => Ok (InvDict (date_dir_inventory st), st)
  | date :: rest =>
      if bool_decide (date ∈ db_date_list) then
        compare_dates rest file_path db_date_list st
      else
        match strptime date with
        | None => Raise ValueError
        | Some dt =>
            if after_cutoff dt then
              let date_dir := date_dir_of file_path date in
              let process := sftp_ls production date_dir in
              let st :=
                {| date_dir_inventory := date_dir_inventory st;
                   new_dir_count := new_dir_count st;
                   errors_of := errors_of st;
                   listed := listed st ++ [date_dir] |} in
              if negb (returncode process =? 0) then
                if contains "matched no objects" (stderr process) then
                  Ok (InvZero, st)
                else
                  compare_dates rest file_path db_date_list
                    {| date_dir_inventory := date_dir_inventory st;
                       new_dir_count := new_dir_count st;
                       errors_of :=
                         errors_of st ++ [EMsg ("Error in  " +:+ file_path)];
                       listed := listed st |}
              else
                let return_list :=
                  removelast (tail (split_on "010" (stdout process))) in
                if (0 <? List.length return_list)%nat then
                  let '(found, errors) :=
                    parse_entries date_dir return_list [] (errors_of st) in
                  compare_dates rest file_path db_date_list
                    {| date_dir_inventory :=
                         dict_set date found (date_dir_inventory st);
                       new_dir_count := new_dir_count st + 1;
                       errors_of := errors;
                       listed := listed st |}
                else compare_dates rest file_path db_date_list st
            else compare_dates rest file_path db_date_list st
        end
  end.

Definition check_date_dirs (date_list : dates_value) (file_path : string)
    (db : db_file) (errors : list err)
  : result (inventory_value * discovery) :=
  let st0 :=
    {| date_dir_inventory := []; new_dir_count := 0;
       errors_of := errors; listed := [] |} in
  let! db := database_connect db in
  match fetchall db with
  | Raise e =>
      Ok (InvDict [],
          {| date_dir_inventory := []; new_dir_count := 0;
             errors_of := errors ++ [EExn e]; listed := [] |})
  | Ok details =>
      let db_date_list := distinct_dates details [] in
      match date_list with
      | DatesList l => compare_dates l file_path db_date_list st0
      | _ => Raise TypeError
      end
  end.

(** *** build_sqlite *)

Definition wcsd_str : list string :=
  ["[water column]"; "[Watercolumn]"; "[Water Column]"; "[watercolumn]"].

(** The [for string in wcsd_str] loop with its [break]. *)
Fixpoint wcsd_scan (strings : list string) (instrument : string)
    (current : data_type) : data_type :=
  match strings with
  | [] => current
  | string :: rest =>
      if contains string instrument then WCSD
      else wcsd_scan rest instrument current
  end.

(** "Different conditions to identify data types" *)
Definition classify (instrument_type instrument : string) : data_type :=
  if String.eqb instrument_type "Multibeam Sonar" then
    wcsd_scan wcsd_str instrument Multibeam
  else if String.eqb instrument_type "Splitbeam Sonar" then WCSD
  else Trackline.

(** The first [try] of the loop body: the row built for one dataset. *)
Definition enrich (date : string) (dataset : candidate)
  : result PackageRecord :=
  let fileset_id := r2r_id dataset in
  let server_path := package_path dataset in
  let! fileset_metadata := fileset_api fileset_id in
  let file_count := files fileset_metadata in
  let size_bytes := total_bytes fileset_metadata in
  let! human_readable := convert_size float_render size_bytes in
  let instrument := make_model_name fileset_metadata in
  let instrument_type := device_name fileset_metadata in
  Ok {| FILESET_ID := fileset_id;
        CRUISE_ID := cruise_id fileset_metadata;
        PLATFORM_NAME := vessel_name fileset_metadata;
        INSTRUMENT_NAME := instrument;
        INSTRUMENT_TYPE := instrument_type;
        SIZE_BYTES := size_bytes;
        HUMAN_READABLE := human_readable;
        FILE_COUNT := file_count;
        PACKAGE_PATH := server_path;
        DATE_DIR := date;
        DATA_TYPE := classify instrument_type instrument;
        BEEN_PULLED := Pending |}.

(** [insert into DATASETS ...], committed or rolled back. *)
Definition insert_row (row : PackageRecord) (db : db_file)
  : result db_file :=
  match db with
  | DbRows rows =>
      if insert_rejected rows row then Raise SqliteError
      else Ok (DbRows (rows ++ [row]))
  | _ => Raise SqliteError
  end.

Fixpoint build_datasets (date : string) (values_list : list candidate)
    (db : db_file) (errors : list err) : db_file * list err :=
  match values_list with
  | [] => (db, errors)
  | dataset :: rest =>
      match enrich date dataset with
      | Raise e => build_datasets date rest db (errors ++ [EExn e])
      | Ok row =>
          match insert_row row db with
          | Ok db' => build_datasets date rest db' errors
          | Raise e => build_datasets date rest db (errors ++ [EExn e])
          end
      end
  end.

Fixpoint build_dates (items : list (string * list candidate))
    (db : db_file) (errors : list err) : db_file * list err :=
  match items with
  | [] => (db, errors)
  | (date, values_list) :: rest =>
      let '(db', errors') := build_datasets date values_list db errors in
      build_dates rest db' errors'
  end.

Definition build_sqlite (inventory_dict : inventory_value) (db : db_file)
    (errors : list err) : result (db_file * list err) :=
  let! db := database_connect db in
  match inventory_dict with
  | InvDict d => Ok (build_dates d db errors)
  | InvZero => Raise AttributeError
  end.

(** *** get_data_type *)

Definition get_data_type (free_space : bool) (input : string)
    (errors : list err) : option string * list err :=
  if free_space then
    if String.eqb input "" then (Some "WCSD", errors)
    else
      match int input with
      | Raise e => (None, errors ++ [EExn e])
      | Ok choice =>
          if (choice =? 1) || (choice =? 0) then (Some "WCSD", errors)
          else if choice =? 2 then (Some "Multibeam", errors)
          else if choice =? 3 then (Some "Trackline", errors)
          else (None, errors)
      end
  else (None, errors).

(** *** query_sqlite *)

(** [SELECT * FROM DATASETS WHERE BEEN_PULLED = "N" AND DATA_TYPE LIKE
    :data]; a [None] parameter binds NULL, which matches no row. *)
Definition pending_like (data_type : option string) (r : PackageRecord)
  : bool :=
  bool_decide (BEEN_PULLED r = Pending)
  && match data_type with
     | Some d => sql_like d (data_type_str (DATA_TYPE r))
     | None => false
     end.

(** [[hr, path_to_files, size_bytes]] *)
Definition package_entry : Type := string * string * Z.

Definition package_id (entry : PackageRecord) : string :=
  CRUISE_ID entry +:+ " " +:+ INSTRUMENT_NAME entry.

(** One turn of the "BYTE Counter + comparison" loop. *)
Definition add_entry (free_space : Z)
    (st : Z * list (string * package_entry)) (entry : PackageRecord)
  : Z * list (string * package_entry) :=
  let '(byte_counter, package_dict) := st in
  if byte_counter <? free_space then
    (byte_counter + SIZE_BYTES entry,
     dict_set (package_id entry)
       (HUMAN_READABLE entry, PACKAGE_PATH entry, SIZE_BYTES entry)
       package_dict)
  else st.

Definition accumulate (free_space : Z) (results : list PackageRecord)
  : Z * list (string * package_entry) :=
  fold_left (add_entry free_space) results (0, []).

(** The numbers one comma-separated piece of the answer stands for. *)
Definition parse_choice (choice : string) : result (list Z) :=
  let choice_stripped := strip choice in
  if contains "-" choice then
    match split_on "-" choice_stripped with
    | [start; end_] =>
        let! start := int (strip start) in
        let! end_ := int (strip end_) in
        Ok (seqZ start (end_ + 1 - start))
    | _ => Raise ValueError
    end
  else
    let! n := int choice_stripped in Ok [n].

Fixpoint parse_choices (pieces : list string) (choice_numbers : gset Z)
  : result (gset Z) :=
  match pieces with
  | [] => Ok choice_numbers
  | choice :: rest =>
      let! numbers := parse_choice choice in
      parse_choices rest (choice_numbers ∪ list_to_set numbers)
  end.

Definition in_range (n : nat) (choice : Z) : bool :=
  (1 <=? choice) && (choice <=? Z.of_nat n).

Definition package_lookup (package_dict : list (string * package_entry))
    (pkg : string) : result package_entry :=
  match dict_get pkg package_dict with
  | Some e => Ok e
  | None => Raise KeyError
  end.

(** The branch taken when [package_dict] is not empty: [Ok None] is the
    early [return None]; otherwise the download list. *)
Definition choose (package_dict : list (string * package_entry))
    (choices : string) : result (option (list string)) :=
  let! choice_numbers := parse_choices (split_on "," choices) ∅ in
  let valid_choices :=
    List.filter (in_range (List.length package_dict))
      (elements choice_numbers) in
  if negb (List.length valid_choices =? size choice_numbers)%nat then
    Ok None
  else
    let! selected_packages :=
      mapM (fun choice => index (fst <$> package_dict) (choice - 1))
        (merge_sort Z.le valid_choices) in
    let! entries := mapM (package_lookup package_dict) selected_packages in
    let download_list := (fun e : package_entry => snd (fst e)) <$> entries in
    let total_data_size :=
      fold_left Z.add ((fun e : package_entry => snd e) <$> entries) 0 in
    let! total := convert_size float_render total_data_size in
    Ok (Some download_list).

Definition query_sqlite (db : db_file) (data_type : option string)
    (free_space : Z) (choices : string) : result (option (list string)) :=
  let! db := database_connect db in
  let! query_details := fetchall db in
  let results := List.filter (pending_like data_type) query_details in
  let package_dict := snd (accumulate free_space results) in
  if (0 <? List.length package_dict)%nat then
    let! chosen := choose package_dict choices in
    match chosen with
    | None => Ok None
    | Some download_list =>
        if (0 <? List.length download_list)%nat then Ok (Some download_list)
        else Ok None
    end
  else Ok None.

(** *** copy_packages *)

Fixpoint copy_paths (all_paths : list string) (landing_path : string)
    (db : db_file) (errors : list err) : db_file * list err :=
  match all_paths with
  | [] => (db, errors)
  | path :: rest =>
      let '(cd_path, package) := path_split path in
      match sftp_get production cd_path package landing_path with
      | Raise e => copy_paths rest landing_path db (errors ++ [EExn e])
      | Ok process =>
          let error := removelast (split_on "010" (stderr process)) in
          if negb (String.eqb (stderr process) "")
             && (1 <? List.length error)%nat then
            copy_paths rest landing_path db (errors ++ [ELines error])
          else if returncode process =? 0 then
            let landing_check := ls_landing landing_path package in
            let results := split_ws (drop_last (stdout landing_check)) in
            if bool_decide (package ∈ results) then
              match update_been_pulled path db with
              | Ok db' => copy_paths rest landing_path db' errors
              | Raise e =>
                  copy_paths rest landing_path db (errors ++ [EExn e])
              end
            else copy_paths rest landing_path db errors
          else copy_paths rest landing_path db errors
      end
  end.

Definition manifest_of (file : string) : string :=
  fst (splitext file) +:+ ".md5".

Definition copy_packages (dir_list : option (list string))
    (landing_path : string) (sqlite_file : db_file) (errors : list err)
  : result (db_file * list err) :=
  match dir_list with
  | None => Raise TypeError
  | Some dir_list =>
      let manifests := manifest_of <$> dir_list in
      let all_paths := dir_list ++ manifests in
      let! db := database_connect sqlite_file in
      Ok (copy_paths all_paths landing_path db errors)
  end.

(** *** The statements run at import time ("R2R Main Code") *)

Variable port_num r2r_server_path ngdc_files_path : string.

(** "Populating sqlite db" *)
Definition populate (sqlite_file : db_file) (errors : list err)
  : result (db_file * list err) :=
  let '(all_dates, errors) :=
    connect_to_sftp platform_system port_num r2r_server_path
      ngdc_files_path errors in
  let! all_dates := all_dates in
  let! discovered :=
    check_date_dirs all_dates ngdc_files_path sqlite_file errors in
  let '(new_inventory, st) := discovered in
  build_sqlite new_inventory sqlite_file (errors_of st).

(** "Prompts and space checks" up to the copy. *)
Definition pull (type_answer choices : string)
    (sqlite_file : db_file) (errors : list err)
  : result (db_file * list err) :=
  let '(space_check, errors) :=
    landing_space_bytes "<NCEI Landing Space>" 1024 errors in
  let! flag := space_index1 space_check in
  let '(data_type_input, errors) := get_data_type flag type_answer errors in
  let! free_space := space_index0 space_check in
  let! pulldown_list :=
    query_sqlite sqlite_file data_type_input free_space choices in
  copy_packages pulldown_list "<NCEI Landing Space>" sqlite_file errors.

Definition main_code (type_answer choices : string)
    (sqlite_file : db_file) : result (db_file * list err) :=
  let! populated := populate sqlite_file [] in
  let '(sqlite_file, errors) := populated in
  pull type_answer choices sqlite_file errors.

End Script.

End Pull.


(** ** [r2r_validate_sort.py] *)

Module Sort.

(** An entry of [DATA_TYPES]. *)
Record guidance := {
  untar : bool;
  landing_directory : string;
  space_check : string
}.

Definition entry (untar : bool) : guidance :=
  {| untar := untar;
     landing_directory := "<NCEI_LANDING_SPACE>";
     space_check := "<NCEI_LANDING_SPACE>" |}.

Definition DATA_TYPES : list (string * guidance) :=
  [("Multibeam Sonar", entry true);
   ("Gravimeter", entry false);
   ("Magnetometer", entry false);
   ("gnss", entry false);
   ("r2rnav", entry false);
   ("Subbottom", entry true);
   ("Singlebeam Sonar", entry true);
   ("Splitbeam Sonar", entry true);
   ("WCD Multibeam", entry true)].

(** The argument lists handed to [run_subprocess]. *)
Inductive command :=
| Df (path : string)
| Md5sum (path : string)
| Mkdir (dir : string)
| Tar (dir path : string)
| Rm (path : string)
| Rsync (path dir : string).

(** What the script can change: the inventory file it is pointed at, the
    module-level [errors] list, and the commands it has run so far. *)
Record world := {
  db : db_file;
  errors : list err;
  commands : list command
}.

Definition record_error (e : err) (w : world) : world :=
  {| db := db w; errors := errors w ++ [e]; commands := commands w |}.

Definition record_command (c : command) (w : world) : world :=
  {| db := db w; errors := errors w; commands := commands w ++ [c] |}.

(** What [landing_space_bytes] hands back: [False] or the triple
    [(free_space, flag, human_readable)]. *)
Inductive space_value :=
| SpaceFalse
| SpaceTuple (free_space : Z) (flag : bool) (human_readable : string).

Section Script.

Variable float_render : Z -> result string.
(** [run c n]: what the [n]-th [subprocess.run] of [c] returns. *)
Variable run : command -> Z -> process.
(** [os.listdir]; [None] lists the working directory. *)
Variable listdir : option string -> result (list string).
(** Reading the gzip file into the tar file and removing it. *)
Variable gunzip : string -> result unit.
(** [os.path.isfile] *)
Variable isfile : string -> bool.
(** [open(path).read()] *)
Variable read_text : string -> result string.
(** [input(prompt)] for the two prompts of [get_path]. *)
Variable answer1 answer2 : result string.

Definition call (c : command) (w : world) : process * world :=
  (run_subprocess (run c) 5, record_command c w).

(** *** get_path *)

Definition get_path (w : world) : result (option string * world) :=
  match answer1 with
  | Raise ValueError => Ok (None, record_error (EExn ValueError) w)
  | Raise e => Raise e
  | Ok choice =>
      if String.eqb choice "y" then Ok (Some "<NCEI_LANDING_SPACE>", w)
      else if String.eqb choice "n" then
        match answer2 with
        | Raise ValueError => Ok (None, record_error (EExn ValueError) w)
        | Raise e => Raise e
        | Ok choice2 => Ok (Some choice2, w)
        end
      else Ok (None, w)
  end.

(** *** landing_space_bytes *)

Definition landing_space_bytes (landing_space : string) (minimum : Z)
    (w : world) : space_value * world :=
  let min_space := minimum * 1024 * 1024 * 1024 in
  let '(process, w) := call (Df landing_space) w in
  if negb (returncode process =? 0) then (SpaceFalse, w)
  else
    let raw_info := stdout process in
    let guarded :=
      let! digits :=
        match search_digits raw_info with
        | Some d => Ok d
        | None => Raise AttributeError
        end in
      let! space := int digits in
      let free_space := space - min_space in
      let! human_readable := convert_size float_render free_space in
      Ok (space, free_space, human_readable) in
    match guarded with
    | Raise e => (SpaceFalse, record_error (EExn e) w)
    | Ok (space, free_space, human_readable) =>
        if min_space <=? space then
          (SpaceTuple free_space true human_readable, w)
        else (SpaceTuple free_space false human_readable, w)
    end.

(** [enough_space[1]] and [enough_space[2]] *)
Definition space_index1 (v : space_value) : result bool :=
  match v with
  | SpaceTuple _ flag _ => Ok flag
  | SpaceFalse => Raise TypeError
  end.

Definition space_index2 (v : space_value) : result string :=
  match v with
  | SpaceTuple _ _ human_readable => Ok human_readable
  | SpaceFalse => Raise TypeError
  end.

(** *** ungzip_tar *)

Definition ungzip_tar (gzip_landing_path : string) : result string :=
  let tar_landing_path :=
    drop_last (drop_last (drop_last gzip_landing_path)) in
  let! _ := gunzip gzip_landing_path in
  Ok tar_landing_path.

(** *** validate_tarballs *)

(** [os.path.join(a, b)] (POSIX); a [None] first argument raises. *)
Definition path_join (a : option string) (b : string) : result string :=
  match a with
  | None => Raise TypeError
  | Some a =>
      if startswith "/" b then Ok b
      else if String.eqb a "" || endswith "/" a then Ok (a +:+ b)
      else Ok (a +:+ "/" +:+ b)
  end.

(** The checksum part of the loop body, for the tar path reached. *)
Definition verify_checksum (tarball_path : string) (w : world)
  : result world :=
  let checksum_path := tarball_path +:+ ".md5" in
  if isfile checksum_path then
    let! content := read_text checksum_path in
    let! checksum := index_first (split_ws content) in
    let w :=
      if negb (String.length checksum =? 32)%nat
      then record_error (EMsg "Fail") w else w in
    let '(md5sum, w) := call (Md5sum tarball_path) w in
    if negb (String.eqb (stderr md5sum) "") then
      Ok (record_error (EMsg "Fail") w)
    else
      let! computed_checksum := index_first (split_ws (stdout md5sum)) in
      if String.eqb checksum computed_checksum then Ok w
      else Ok (record_error (EMsg "Fail") w)
  else Ok (record_error (EMsg "Fail") w).

(** The body of the loop for one tarball. *)
Definition validate_one (tarball_path : string) (w : world)
  : result world :=
  let! tarball_path :=
    if endswith ".gz" tarball_path then ungzip_tar tarball_path
    else Ok tarball_path in
  verify_checksum tarball_path w.

Fixpoint validate_each (tarball_paths : list string) (w : world)
  : result world :=
  match tarball_paths with
  | [] => Ok w
  | tarball_path :: rest =>
      let! w := validate_one tarball_path w in
      validate_each rest w
  end.

Definition validate_tarballs (landing_path : option string) (w : world)
  : result (bool * world) :=
  let! names := listdir landing_path in
  let! tarball_paths :=
    mapM (path_join landing_path)
      (List.filter (fun x => endswith ".tar" x || endswith ".gz" x) names) in
  let! w := validate_each tarball_paths w in
  if (0 <? List.length (errors w))%nat then Ok (false, w)
  else Ok (true, w).

(** *** sort_landing_zone *)

Definition lookup_guidance (key : string) : option guidance :=
  dict_get key DATA_TYPES.

(** "Figure out which guidance using sqlite data types" *)
Definition find_guidance (data_group : data_type)
    (data_type instrument_name : string) : option guidance :=
  match data_group with
  | WCSD =>
      if String.eqb data_type "Splitbeam Sonar"
      then lookup_guidance "Splitbeam Sonar"
      else lookup_guidance "WCD Multibeam"
  | Multibeam => lookup_guidance "Multibeam Sonar"
  | Trackline =>
      if String.eqb data_type "Gravimeter" then lookup_guidance "Gravimeter"
      else if String.eqb data_type "Magnetometer"
      then lookup_guidance "Magnetometer"
      else if String.eqb data_type "Singlebeam Sonar" then
        if contains "[includes subbottom]" instrument_name
        then lookup_guidance "Subbottom"
        else lookup_guidance "Singlebeam Sonar"
      else None
  end.

(** [survey, r2r_id, _ = tarball.split('_')] *)
Definition unpack3 (parts : list string) : result (string * string) :=
  match parts with
  | [survey; r2r_id; _] => Ok (survey, r2r_id)
  | _ => Raise ValueError
  end.

(** The body of the loop for one tarball; [continue] and falling off
    the end of the body both return the world reached. *)
Definition sort_one (landing_path : option string) (tarball : string)
    (w : world) : result world :=
  let! tarball_absolute_path := path_join landing_path tarball in
  let! ids := unpack3 (split_on "_" tarball) in
  let '(survey, r2r_id) := ids in
  let! query_details := fetchall (db w) in
  let results :=
    List.filter (fun r => sql_like r2r_id (FILESET_ID r)) query_details in
  let! first := index_first results in
  let data_group := DATA_TYPE first in
  let data_type := INSTRUMENT_TYPE first in
  let instrument_name := INSTRUMENT_NAME first in
  match find_guidance data_group data_type instrument_name with
  | None => Ok w
  | Some guidance =>
      (* the templates of [DATA_TYPES] have no replacement field, so
         [format(ship=.., survey=..)] returns them as they are *)
      let tarball_landing_directory := landing_directory guidance in
      let made :=
        match data_group with
        | WCSD => (true, w)
        | _ =>
            let '(mkdir, w) := call (Mkdir tarball_landing_directory) w in
            if returncode mkdir =? 0 then (true, w)
            else (false,
                  record_error
                    (EMsg "Could not make new folder: ['mkdir', '-p', '<NCEI_LANDING_SPACE>']")
                    w)
        end in
      let '(ok, w) := made in
      if negb ok then Ok w
      else if untar guidance then
        let '(enough_space, w) :=
          landing_space_bytes (space_check guidance) 1024 w in
        let! flag := space_index1 enough_space in
        if flag then
          let '(tar, w) :=
            call (Tar tarball_landing_directory tarball_absolute_path) w in
          if 0 <? returncode tar then Ok w
          else
            let '(rm, w) := call (Rm tarball_absolute_path) w in
            let '(rm_md5, w) :=
              call (Rm (tarball_absolute_path +:+ ".md5")) w in
            Ok w
        else Ok w
      else
        let '(enough_space, w) :=
          landing_space_bytes tarball_landing_directory 1024 w in
        let! human_readable := space_index2 enough_space in
        let! flag := space_index1 enough_space in
        if flag then
          let '(rsync, w) :=
            call (Rsync tarball_absolute_path tarball_landing_directory) w in
          if returncode rsync =? 0 then
            let '(rm, w) := call (Rm tarball_absolute_path) w in
            Ok w
          else Ok w
        else Ok w
  end.

Fixpoint sort_each (landing_path : option string) (tarballs : list string)
    (w : world) : result world :=
  match tarballs with
  | [] => Ok w
  | tarball :: rest =>
      let! w := sort_one landing_path tarball w in
      sort_each landing_path rest w
  end.

(** [sqlite_file] is the world's [db]. *)
Definition sort_landing_zone (landing_path : option string)
    (valid : bool) (w : world) : result world :=
  let! connected := database_connect (db w) in
  if valid then
    let! names := listdir landing_path in
    let tarballs :=
      List.filter (fun x => endswith ".tar" x || endswith "tar.gz" x)
        names in
    sort_each landing_path tarballs w
  else Ok w.

(** *** main *)

(** [listdir] is not indexed by time: the sort pass is handed the listing
    validation saw. The two listings of a run agree whenever validation
    has unzipped nothing. *)
Definition main (w : world) : result world :=
  let! got := get_path w in
  let '(landing_path, w) := got in
  let! validated := validate_tarballs landing_path w in
  let '(is_valid, w) := validated in
  sort_landing_zone landing_path is_valid w.

End Script.

End Sort.

(** * Vocabulary of the statements *)

(** [n] occurs in [h] as a contiguous piece. *)
Definition substring_of (n h : string) : Prop :=
  exists pre post, h = pre +:+ n +:+ post.

(** The instrument name carries one of the four water-column markers. *)
Definition water_column_marked (instrument_name : string) : Prop :=
  substring_of "[water column]" instrument_name
  \/ substring_of "[Watercolumn]" instrument_name
  \/ substring_of "[Water Column]" instrument_name
  \/ substring_of "[watercolumn]" instrument_name.

Definition total_size (l : list PackageRecord) : Z :=
  fold_right (fun r acc => SIZE_BYTES r + acc) 0 l.

(** The records for which the planner's loop takes its branch, given the
    byte counter [c] it starts from. *)
Fixpoint included_from (B c : Z) (results : list PackageRecord)
  : list PackageRecord :=
  match results with
  | [] => []
  | e :: rest =>
      if c <? B then e :: included_from B (c + SIZE_BYTES e) rest
      else included_from B c rest
  end.

Definition included (B : Z) (results : list PackageRecord)
  : list PackageRecord :=
  included_from B 0 results.

(** What the planner stores in [package_dict] for one record. *)
Definition store_entry (d : list (string * Pull.package_entry))
    (e : PackageRecord) : list (string * Pull.package_entry) :=
  dict_set (Pull.package_id e)
    (HUMAN_READABLE e, PACKAGE_PATH e, SIZE_BYTES e) d.

(** The candidate a listing line yields, and the error it leaves when
    its name cannot be taken apart. *)
Definition candidate_of (date_dir line : string) : option Pull.candidate :=
  match Pull.parse_entry date_dir line with
  | Ok (Some c) => Some c
  | _ => None
  end.

Definition entry_error (date_dir line : string) : option err :=
  match Pull.parse_entry date_dir line with
  | Raise e => Some (EExn e)
  | Ok _ => None
  end.

(** ** Vocabulary of the validation and routing statements *)

(** The tar path an archive is checked under. *)
Definition canonical_tar (tarball_path : string) : string :=
  if endswith ".gz" tarball_path
  then drop_last (drop_last (drop_last tarball_path))
  else tarball_path.

(** The first token of a text, as [text.split()[0]] reads it. *)
Definition first_token (text : string) : result string :=
  index_first (split_ws text).

Section ArchiveOutcomes.

Variable run : Sort.command -> Z -> process.
Variable gunzip : string -> result unit.
Variable isfile : string -> bool.
Variable read_text : string -> result string.

Definition md5sum_of (tar : string) : process :=
  run_subprocess (run (Sort.Md5sum tar)) 5.

Definition manifest_missing (tar : string) : Prop :=
  isfile (tar +:+ ".md5") = false.

Definition token_malformed (tar : string) : Prop :=
  isfile (tar +:+ ".md5") = true
  /\ exists content checksum,
       read_text (tar +:+ ".md5") = Ok content
       /\ first_token content = Ok checksum
       /\ String.length checksum <> 32%nat.

Definition checksum_mismatch (tar : string) : Prop :=
  isfile (tar +:+ ".md5") = true
  /\ exists content checksum computed,
       read_text (tar +:+ ".md5") = Ok content
       /\ first_token content = Ok checksum
       /\ stderr (md5sum_of tar) = ""
       /\ first_token (stdout (md5sum_of tar)) = Ok computed
       /\ checksum <> computed.

Definition archive_fails (tar : string) : Prop :=
  manifest_missing tar \/ token_malformed tar \/ checksum_mismatch tar.

(** A co-located manifest with a 32-character token equal to the computed
    checksum. *)
Definition archive_passes (tar : string) : Prop :=
  isfile (tar +:+ ".md5") = true
  /\ exists content checksum,
       read_text (tar +:+ ".md5") = Ok content
       /\ first_token content = Ok checksum
       /\ String.length checksum = 32%nat
       /\ stderr (md5sum_of tar) = ""
       /\ first_token (stdout (md5sum_of tar)) = Ok checksum.

(** Every step of the check can be carried out: the archive unzips, a
    manifest that is present holds a token, and an [md5sum] that wrote
    nothing to stderr printed a token. *)
Definition archive_readable (tarball_path : string) : Prop :=
  (endswith ".gz" tarball_path = true -> gunzip tarball_path = Ok tt)
  /\ let tar := canonical_tar tarball_path in
     (isfile (tar +:+ ".md5") = true ->
      exists content checksum,
        read_text (tar +:+ ".md5") = Ok content
        /\ first_token content = Ok checksum
        /\ (stderr (md5sum_of tar) = "" ->
            exists computed,
              first_token (stdout (md5sum_of tar)) = Ok computed)).

End ArchiveOutcomes.

Definition is_archive_name (x : string) : bool :=
  endswith ".tar" x || endswith ".gz" x.

(** The archives an extraction or a synchronisation was started for. *)
Definition routed (w : Sort.world) : list string :=
  omap (fun c =>
          match c with
          | Sort.Tar _ path => Some path
          | Sort.Rsync path _ => Some path
          | _ => None
          end) (Sort.commands w).

(** [w'] differs from [w] by more recorded errors and checksum commands
    only. *)
Definition only_checked (w w' : Sort.world) : Prop :=
  Sort.db w' = Sort.db w
  /\ routed w' = routed w
  /\ exists more, Sort.errors w' = Sort.errors w ++ more.

(** ** Sample data for the worked cases *)

Definition proc (rc : Z) (out err : string) : process :=
  {| returncode := rc; stdout := out; stderr := err |}.

(** The value of a run of decimal digits. *)
Fixpoint digits_value (acc : Z) (s : string) : option Z :=
  match s with
  | "" => Some acc
  | String c s' =>
      match digit_val c with
      | Some d => digits_value (10 * acc + d) s'
      | None => None
      end
  end.

Definition days_in_month (year month : Z) : Z :=
  if month =? 2 then
    if ((year mod 4 =? 0) && negb (year mod 100 =? 0)) || (year mod 400 =? 0)
    then 29 else 28
  else if (month =? 4) || (month =? 6) || (month =? 9) || (month =? 11)
  then 30
  else 31.

(** [datetime.strptime(s, "%Y-%m-%d")] as (year, month, day): a year of
    four digits, a month and a day of one or two digits (the day may also
    be a space and one digit), naming a day of the calendar. *)
Definition iso_date (s : string) : option (Z * Z * Z) :=
  match split_on "-" s with
  | [y; m; d] =>
      let d :=
        match d with
        | String " " (String c "") => String c ""
        | _ => d
        end in
      let short (t : string) :=
        ((1 <=? String.length t) && (String.length t <=? 2))%nat in
      if (String.length y =? 4)%nat && short m && short d then
        match digits_value 0 y, digits_value 0 m, digits_value 0 d with
        | Some year, Some month, Some day =>
            if (1 <=? year) && (1 <=? month) && (month <=? 12)
               && (1 <=? day) && (day <=? days_in_month year month)
            then Some (year, month, day)
            else None
        | _, _, _ => None
        end
      else None
  | _ => None
  end.

Definition newline : string := String "010" "".

(** A remote whose listing of the first date directory fails with
    "matched no objects" on stderr, and whose second date directory holds
    one package and its manifest. *)
Definition remote_first_unmatched (production : bool) (path : string)
  : process :=
  if String.eqb path "/ngdc/2022-05-01" then
    proc 1 ""
      ("File /ngdc/2022-05-01 not found: matched no objects" +:+ newline)
  else if String.eqb path "/ngdc/2022-05-02" then
    proc 0
      ("sftp> ls -l /ngdc/2022-05-02" +:+ newline
       +:+ "-rw-r--r-- 1 r2r r2r 10 May 2 2022 KM1910_13579_01.tar" +:+ newline
       +:+ "-rw-r--r-- 1 r2r r2r 10 May 2 2022 KM1910_13579_01.tar.md5"
       +:+ newline)
      ""
  else if String.eqb path "/ngdc" then
    proc 0
      ("sftp> ls -l /ngdc" +:+ newline
       +:+ "drwxr-xr-x 2 r2r r2r 4096 May 1 2022 2022-05-01" +:+ newline
       +:+ "drwxr-xr-x 2 r2r r2r 4096 May 2 2022 2022-05-02" +:+ newline
       +:+ "-rw-r--r-- 1 r2r r2r 120 May 2 2022 README" +:+ newline)
      ""
  else proc 1 "" "".

(** The same remote, except that the first directory fails for another
    reason. *)
Definition remote_first_refused (production : bool) (path : string)
  : process :=
  if String.eqb path "/ngdc/2022-05-01" then
    proc 1 "" ("Connection closed" +:+ newline)
  else remote_first_unmatched production path.

Definition no_render (n : Z) : result string := Ok "".

(** A probe that reports 1000 available bytes. *)
Definition sample_df (path : string) (n : Z) : process :=
  proc 0 ("Avail" +:+ newline +:+ "1000" +:+ newline) "".

Definition sample_metadata (fileset_id : string) : result Pull.metadata :=
  Ok {| Pull.files := 1; Pull.total_bytes := 0;
        Pull.make_model_name := "EM122"; Pull.device_name := "Multibeam Sonar";
        Pull.cruise_id := "KM1910"; Pull.vessel_name := "Kilo Moana" |}.

Definition failing_metadata (fileset_id : string) : result Pull.metadata :=
  Raise RequestException.

Definition accept_all (rows : list PackageRecord) (row : PackageRecord)
  : bool := false.

Definition sample_sum : string := "0123456789abcdef0123456789abcdef".

Definition sample_names : list string :=
  ["AR01_11111_a.tar"; "AR01_11111_a.tar.md5";
   "AR02_22222_b.tar"; "AR02_22222_b.tar.md5";
   "AR03_33333_c.tar"; "AR03_33333_c.tar.md5"].

Definition sample_listdir (landing_path : option string)
  : result (list string) := Ok sample_names.

Definition sample_gunzip (path : string) : result unit := Ok tt.

Definition sample_isfile (path : string) : bool := true.

Definition sample_read (path : string) : result string :=
  Ok (sample_sum +:+ "  archive" +:+ newline).

(** Every command succeeds; [md5sum] prints the manifest's checksum. *)
Definition run_all_match (c : Sort.command) (n : Z) : process :=
  match c with
  | Sort.Md5sum path => proc 0 (sample_sum +:+ "  " +:+ path +:+ newline) ""
  | Sort.Df _ => proc 0 ("Avail" +:+ newline +:+ "5000000000000" +:+ newline) ""
  | _ => proc 0 "" ""
  end.

(** The same, except that the second archive's checksum differs. *)
Definition run_second_differs (c : Sort.command) (n : Z) : process :=
  match c with
  | Sort.Md5sum path =>
      if contains "22222" path then
        proc 0 ("ffffffffffffffffffffffffffffffff  " +:+ path +:+ newline) ""
      else run_all_match c n
  | _ => run_all_match c n
  end.

Definition sample_row (fileset_id cruise path : string) : PackageRecord :=
  {| FILESET_ID := fileset_id; CRUISE_ID := cruise;
     PLATFORM_NAME := "Armstrong"; INSTRUMENT_NAME := "EM122";
     INSTRUMENT_TYPE := "Multibeam Sonar"; SIZE_BYTES := 4000000000;
     HUMAN_READABLE := "3.73 GB"; FILE_COUNT := 1; PACKAGE_PATH := path;
     DATE_DIR := "2022-05-02"; DATA_TYPE := Multibeam;
     BEEN_PULLED := Pending |}.

Definition sample_rows : list PackageRecord :=
  [sample_row "11111" "AR01" "/ngdc/2022-05-02/AR01_11111_a.tar";
   sample_row "22222" "AR02" "/ngdc/2022-05-02/AR02_22222_b.tar";
   sample_row "33333" "AR03" "/ngdc/2022-05-02/AR03_33333_c.tar"].

Definition sample_world : Sort.world :=
  {| Sort.db := DbRows sample_rows; Sort.errors := []; Sort.commands := [] |}.

Definition sample_tars : list string :=
  ["<NCEI_LANDING_SPACE>/AR01_11111_a.tar";
   "<NCEI_LANDING_SPACE>/AR02_22222_b.tar";
   "<NCEI_LANDING_SPACE>/AR03_33333_c.tar"].

(** A fetch that succeeds quietly, and a landing directory that then
    lists the fetched file. *)
Definition sample_get (production : bool)
    (cd_path package landing_path : string) : result process :=
  Ok (proc 0 ("Fetching " +:+ package) "").

Definition sample_ls_landing (landing_path package : string) : process :=
  proc 0 (package +:+ newline) "".

(** [w] after the commands [cs] have been run. *)
Definition with_commands (cs : list Sort.command) (w : Sort.world)
  : Sort.world :=
  {| Sort.db := Sort.db w; Sort.errors := Sort.errors w;
     Sort.commands := Sort.commands w ++ cs |}.

(** The commands of a successful extraction of [tar]. *)
Definition route_commands (tar : string) : list Sort.command :=
  [Sort.Mkdir "<NCEI_LANDING_SPACE>"; Sort.Df "<NCEI_LANDING_SPACE>";
   Sort.Tar "<NCEI_LANDING_SPACE>" tar; Sort.Rm tar;
   Sort.Rm (tar +:+ ".md5")].

(** The sample world once its three archives have been checked, and once
    they have been checked and extracted. *)
Definition sample_checked (w : Sort.world) : Sort.world :=
  with_commands (Sort.Md5sum <$> sample_tars) w.

Definition sample_sorted : Sort.world :=
  with_commands (concat (route_commands <$> sample_tars))
    (sample_checked sample_world).

(** [r] with [BEEN_PULLED] set to ['Y']. *)
Definition set_pulled (r : PackageRecord) : PackageRecord :=
  mark_pulled (PACKAGE_PATH r) r.

(** Whether [copy_packages] reaches its update for [path]: the fetch
    returned, wrote at most one full line to stderr, exited with 0, and the
    landing listing then names the package. *)
Definition landed (platform_system : string)
    (sftp_get : bool -> string -> string -> string -> result process)
    (ls_landing : string -> string -> process)
    (landing_path path : string) : bool :=
  let '(cd_path, package) := path_split path in
  match sftp_get (Pull.production platform_system) cd_path package
          landing_path with
  | Raise _ => false
  | Ok process =>
      negb (negb (String.eqb (stderr process) "")
            && (1 <? List.length (removelast (split_on "010" (stderr process))))%nat)
      && (returncode process =? 0)
      && bool_decide
           (package ∈ split_ws (drop_last (stdout (ls_landing landing_path package))))
  end.

(** A row once the paths in [paths] have been handled by the transfer
    step. *)
Definition after_copy (platform_system : string)
    (sftp_get : bool -> string -> string -> string -> result process)
    (ls_landing : string -> string -> process)
    (landing_path : string) (paths : list string)
    (r : PackageRecord) : PackageRecord :=
  if existsb
       (fun p => landed platform_system sftp_get ls_landing landing_path p
                 && String.eqb (PACKAGE_PATH r) p)
       paths
  then set_pulled r else r.

(** What one comma-separated piece of the answer stands for: a single
    index, or the numbers of an inclusive dash-range. *)
Inductive piece_reads : string -> list Z -> Prop :=
| reads_index piece n :
    contains "-" piece = false ->
    int (strip piece) = Ok n ->
    piece_reads piece [n]
| reads_range piece first_text last_text first last :
    contains "-" piece = true ->
    split_on "-" (strip piece) = [first_text; last_text] ->
    int (strip first_text) = Ok first ->
    int (strip last_text) = Ok last ->
    piece_reads piece (seqZ first (last + 1 - first)).

(** A piece that cannot be read, or that names an index outside
    [1 .. n]. *)
Definition piece_bad (n : nat) (piece : string) : Prop :=
  (forall numbers, ~ piece_reads piece numbers)
  \/ (exists numbers i,
        piece_reads piece numbers /\ i ∈ numbers
        /\ ~ (1 <= i <= Z.of_nat n)).

(** The candidates found in the listing of the directory of [date]. *)
Definition listing_candidates (platform_system : string)
    (sftp_ls : bool -> string -> process) (file_path date : string)
  : list Pull.candidate :=
  let date_dir := Pull.date_dir_of platform_system file_path date in
  omap (candidate_of date_dir)
    (removelast
       (tail (split_on "010"
                (stdout (sftp_ls (Pull.production platform_system) date_dir))))).

(** All candidates of an inventory. *)
Definition candidates_of (d : list (string * list Pull.candidate))
  : list Pull.candidate :=
  concat (snd <$> d).

(** Some row of the store was discovered under [date]. *)
Definition date_known (rows : list PackageRecord) (date : string) : Prop :=
  exists r, r ∈ rows /\ DATE_DIR r = date.

(** ** Vocabulary of the further properties *)

(** What [run_subprocess] treats as a failed attempt. *)
Definition attempt_failed (p : process) : bool :=
  negb (returncode p =? 0)
  && negb (contains "file already exists" (stdout p)).

(** The instrument types the routing table has a rule for. *)
Definition routable_types : list string :=
  ["Multibeam Sonar"; "Splitbeam Sonar"; "Gravimeter"; "Magnetometer";
   "Singlebeam Sonar"].

(** A table that refuses a row whose [PACKAGE_PATH] it already holds. *)
Definition reject_known_path (rows : list PackageRecord)
    (row : PackageRecord) : bool :=
  bool_decide (PACKAGE_PATH row ∈ PACKAGE_PATH <$> rows).

(** What [build_sqlite] writes for the candidate [c] found under [date]. *)
Definition enriched_from (date : string) (c : Pull.candidate)
    (r : PackageRecord) : Prop :=
  FILESET_ID r = Pull.r2r_id c
  /\ PACKAGE_PATH r = Pull.package_path c
  /\ DATE_DIR r = date
  /\ DATA_TYPE r = Pull.classify (INSTRUMENT_TYPE r) (INSTRUMENT_NAME r)
  /\ BEEN_PULLED r = Pending.

Definition sample_candidate : Pull.candidate :=
  {| Pull.r2r_id := "13579";
     Pull.package_path := "/ngdc/2022-05-02/KM1910_13579_01.tar" |}.

(** The row [build_sqlite] writes for [sample_candidate] from
    [sample_metadata]. *)
Definition sample_enriched : PackageRecord :=
  {| FILESET_ID := "13579"; CRUISE_ID := "KM1910";
     PLATFORM_NAME := "Kilo Moana"; INSTRUMENT_NAME := "EM122";
     INSTRUMENT_TYPE := "Multibeam Sonar"; SIZE_BYTES := 0;
     HUMAN_READABLE := "0B"; FILE_COUNT := 1;
     PACKAGE_PATH := "/ngdc/2022-05-02/KM1910_13579_01.tar";
     DATE_DIR := "2022-05-02"; DATA_TYPE := Multibeam;
     BEEN_PULLED := Pending |}.

(** The listing [connect_to_sftp] asks for, and the names it reads off
    it. *)
Definition top_listing (platform_system : string)
    (sftp_ls : bool -> string -> process) (file_path : string) : process :=
  if Pull.production platform_system then sftp_ls true file_path
  else sftp_ls false "/data".

Definition listed_names (p : process) : list string :=
  Pull.last_fields (tail (split_on "010" (stdout p))).

(** The date parses and lies after the cutoff. *)
Definition worth_listing (strptime : string -> option (Z * Z * Z))
    (date : string) : Prop :=
  exists dt, strptime date = Some dt /\ Pull.after_cutoff dt = true.

(** The listing of the date's directory "matched no objects". *)
Definition unmatched (platform_system : string)
    (sftp_ls : bool -> string -> process) (file_path date : string) : Prop :=
  let process :=
    sftp_ls (Pull.production platform_system)
      (Pull.date_dir_of platform_system file_path date) in
  returncode process <> 0
  /\ contains "matched no objects" (stderr process) = true.

(** A probe that reports 2 TiB available. *)
Definition roomy_df (path : string) (n : Z) : process :=
  proc 0 ("Avail" +:+ newline +:+ "2199023255552" +:+ newline) "".

(** The data type a valid answer to the type prompt stands for. *)
Definition answer_names (input : string) (t : data_type) : Prop :=
  match t with
  | WCSD => input = "" \/ int input = Ok 1 \/ int input = Ok 0
  | Multibeam => int input = Ok 2
  | Trackline => int input = Ok 3
  end.

(** The completed process a command of the sort script ends with. *)
Definition outcome (run : Sort.command -> Z -> process) (c : Sort.command)
  : process :=
  run_subprocess (run c) 5.

(** A removal of [p] is earned by the commands run [before] it: a copy of
    [p] that exited with 0, or an extraction, of [p] or of the archive
    whose manifest [p] is, that did not exit with a positive code. *)
Definition earned (run : Sort.command -> Z -> process)
    (before : list Sort.command) (p : string) : Prop :=
  (exists dir,
     Sort.Rsync p dir ∈ before
     /\ returncode (outcome run (Sort.Rsync p dir)) = 0)
  \/ (exists dir tar,
        (p = tar \/ p = tar +:+ ".md5")
        /\ Sort.Tar dir tar ∈ before
        /\ returncode (outcome run (Sort.Tar dir tar)) <= 0).

(** Walking through [cs] after [before]: every removal is earned by what
    ran before it. *)
Fixpoint removals_earned (run : Sort.command -> Z -> process)
    (before cs : list Sort.command) : Prop :=
  match cs with
  | [] => True
  | c :: rest =>
      match c with
      | Sort.Rm p => earned run before p
      | _ => True
      end
      /\ removals_earned run (before ++ [c]) rest
  end.

(** The space probe of the sort script refuses [path]: it hands back the
    bare [False]. *)
Definition space_refused (float_render : Z -> result string)
    (run : Sort.command -> Z -> process) (path : string) : Prop :=
  forall w,
    fst (Sort.landing_space_bytes float_render run path 1024 w)
    = Sort.SpaceFalse.

(** The directory every entry of [DATA_TYPES] lands in and probes. *)
Definition landing_zone : string := "<NCEI_LANDING_SPACE>".

(** The command sequences one turn of the sort loop can run for the
    archive at [tar]. *)
Definition turn_commands (run : Sort.command -> Z -> process)
    (tar : string) (added : list Sort.command) : Prop :=
  exists made,
    (made = [] \/ made = [Sort.Mkdir landing_zone])
    /\ (added = made
        \/ (added = made ++ [Sort.Df landing_zone;
                             Sort.Tar landing_zone tar]
            /\ 0 < returncode (outcome run (Sort.Tar landing_zone tar)))
        \/ (added = made ++ [Sort.Df landing_zone;
                             Sort.Tar landing_zone tar;
                             Sort.Rm tar; Sort.Rm (tar +:+ ".md5")]
            /\ returncode (outcome run (Sort.Tar landing_zone tar)) <= 0)
        \/ (added = made ++ [Sort.Df landing_zone;
                             Sort.Rsync tar landing_zone]
            /\ returncode (outcome run (Sort.Rsync tar landing_zone)) <> 0)
        \/ (added = made ++ [Sort.Df landing_zone;
                             Sort.Rsync tar landing_zone; Sort.Rm tar]
            /\ returncode (outcome run (Sort.Rsync tar landing_zone)) = 0)).

(** What holds of every entry of the inventory, and of every directory a
    listing was requested for, given the dates [all] handed to the
    function and the dates [known] to the store. *)
Definition entry_ok (platform_system : string)
    (sftp_ls : bool -> string -> process)
    (strptime : string -> option (Z * Z * Z)) (file_path : string)
    (all known : list string) (kv : string * list Pull.candidate) : Prop :=
  fst kv ∈ all /\ (fst kv ∉ known)
  /\ worth_listing strptime (fst kv)
  /\ snd kv = listing_candidates platform_system sftp_ls file_path (fst kv).

Definition listing_ok (platform_system : string)
    (strptime : string -> option (Z * Z * Z)) (file_path : string)
    (all known : list string) (x : string) : Prop :=
  exists date,
    date ∈ all /\ (date ∉ known) /\ worth_listing strptime date
    /\ x = Pull.date_dir_of platform_system file_path date.

(** An archive path whose check goes through: it unzips when it is
    compressed, and the tar file reached passes. *)
Definition archive_unzips_and_passes
    (run : Sort.command -> Z -> process) (gunzip : string -> result unit)
    (isfile : string -> bool) (read_text : string -> result string)
    (tarball_path : string) : Prop :=
  (endswith ".gz" tarball_path = true -> gunzip tarball_path = Ok tt)
  /\ archive_passes run isfile read_text (canonical_tar tarball_path).

(** The checksum command validation runs for an archive path. *)
Definition checksum_of (tarball_path : string) : Sort.command :=
  Sort.Md5sum (canonical_tar tarball_path).

(** The package shown at position [i] (counted from 1) of the displayed
    list has path [path]. *)
Definition shown_at (package_dict : list (string * Pull.package_entry))
    (i : Z) (path : string) : Prop :=
  1 <= i
  /\ exists pkg hr size,
       nth_error package_dict (Z.to_nat (i - 1)) = Some (pkg, (hr, path, size)).

(** How a listed line reads, from its text alone. The entry name is the
    last whitespace-delimited field. A line without a field, and a name
    that holds neither ".md5" nor an underscore, cannot be taken apart and
    raise [IndexError]; a name that holds ".md5" is passed over; any other
    name yields a candidate whose fileset id is the second-to-last
    underscore-delimited segment. *)
Inductive line_reads (date_dir line : string)
  : result (option Pull.candidate) -> Prop :=
| reads_blank :
    split_ws line = [] ->
    line_reads date_dir line (Raise IndexError)
| reads_manifest pre name :
    split_ws line = pre ++ [name] ->
    substring_of ".md5" name ->
    line_reads date_dir line (Ok None)
| reads_unsplit pre name :
    split_ws line = pre ++ [name] ->
    ~ substring_of ".md5" name ->
    ~ substring_of "_" name ->
    line_reads date_dir line (Raise IndexError)
| reads_package pre name segs seg last :
    split_ws line = pre ++ [name] ->
    ~ substring_of ".md5" name ->
    split_on "_" name = segs ++ [seg; last] ->
    line_reads date_dir line
      (Ok (Some {| Pull.r2r_id := seg;
                   Pull.package_path := date_dir +:+ "/" +:+ name |})).

(** What a line's outcome adds to the candidates and to [errors]. *)
Definition package_of (outcome : result (option Pull.candidate))
  : option Pull.candidate :=
  match outcome with
  | Ok (Some c) => Some c
  | _ => None
  end.

Definition failure_of (outcome : result (option Pull.candidate))
  : option err :=
  match outcome with
  | Raise e => Some (EExn e)
  | Ok _ => None
  end.

(** ** Sample data: a blank manifest, colliding package ids, a missing
    remote path *)

(** The manifests of the sample batch, except that the third one is an
    empty file. *)
Definition read_third_blank (path : string) : result string :=
  if contains "33333" path then Ok "" else sample_read path.

(** The same, except that the third manifest holds a three-character
    token. *)
Definition read_third_short (path : string) : result string :=
  if contains "33333" path then Ok ("abc" +:+ newline) else sample_read path.

(** A pending Multibeam record of the given size. *)
Definition sized_row (fileset_id cruise path human_readable : string)
    (size : Z) : PackageRecord :=
  {| FILESET_ID := fileset_id; CRUISE_ID := cruise;
     PLATFORM_NAME := "Armstrong"; INSTRUMENT_NAME := "EM122";
     INSTRUMENT_TYPE := "Multibeam Sonar"; SIZE_BYTES := size;
     HUMAN_READABLE := human_readable; FILE_COUNT := 1; PACKAGE_PATH := path;
     DATE_DIR := "2022-05-02"; DATA_TYPE := Multibeam;
     BEEN_PULLED := Pending |}.

(** Three pending records, the first and the third being two filesets
    of one cruise and instrument. *)
Definition colliding_rows : list PackageRecord :=
  [sized_row "11111" "AR01" "/ngdc/2022-05-02/AR01_11111_01.tar" "1.0 B" 1;
   sized_row "22222" "AR02" "/ngdc/2022-05-02/AR02_22222_01.tar" "1.0 B" 1;
   sized_row "33333" "AR01" "/ngdc/2022-05-02/AR01_33333_01.tar" "100.0 B"
     100].

(** The sum of the sizes shown in a displayed list. *)
Definition offer_size (d : list (string * Pull.package_entry)) : Z :=
  fold_right (fun kv acc => snd (snd kv) + acc) 0 d.

(** What the sftp client, reading its commands from standard input,
    answers to [ls -l path] when [path] matches nothing: it echoes the
    command, complains on stderr and exits with 0. *)
Definition double_quote : string := String (ascii_of_nat 34) "".

Definition not_found_reply (path : string) : process :=
  proc 0 ("sftp> ls -l " +:+ path +:+ newline)
    ("Can't ls: " +:+ double_quote +:+ path +:+ double_quote
     +:+ " not found" +:+ newline).

(** A remote whose top-level path matches nothing. *)
Definition remote_root_missing (production : bool) (path : string)
  : process :=
  not_found_reply path.

(** The sample remote, except that its first date directory matches
    nothing. *)
Definition remote_first_missing (production : bool) (path : string)
  : process :=
  if String.eqb path "/ngdc/2022-05-01" then not_found_reply path
  else remote_first_unmatched production path.

(** The line of the displayed list a record gives rise to: its key
    ["CRUISE_ID INSTRUMENT_NAME"] and the triple stored under it. *)
Definition offered (e : PackageRecord) : string * Pull.package_entry :=
  (CRUISE_ID e +:+ " " +:+ INSTRUMENT_NAME e,
   (HUMAN_READABLE e, PACKAGE_PATH e, SIZE_BYTES e)).

(** The listing of the date's directory exits with 0 and lists nothing,
    which is how the sftp client answers for a path that matches
    nothing. *)
Definition lists_nothing (platform_system : string)
    (sftp_ls : bool -> string -> process) (file_path date : string) : Prop :=
  let process :=
    sftp_ls (Pull.production platform_system)
      (Pull.date_dir_of platform_system file_path date) in
  returncode process = 0
  /\ removelast (tail (split_on "010" (stdout process))) = [].

(** Two states of the discovery loop, and two outcomes of it, that differ
    at most in the directories a listing was requested for. *)
Definition alike (st1 st2 : Pull.discovery) : Prop :=
  Pull.date_dir_inventory st1 = Pull.date_dir_inventory st2
  /\ Pull.new_dir_count st1 = Pull.new_dir_count st2
  /\ Pull.errors_of st1 = Pull.errors_of st2.

Definition same_finding
    (r1 r2 : result (Pull.inventory_value * Pull.discovery)) : Prop :=
  match r1, r2 with
  | Ok (v1, st1), Ok (v2, st2) => v1 = v2 /\ alike st1 st2
  | Raise e1, Raise e2 => e1 = e2
  | _, _ => False
  end.

(** * Properties *)

(** ** Strings *)

Lemma startswith_spec p s :
  startswith p s = true <-> exists post, s = p +:+ post.
Proof.
  revert s. induction p as [|a p IH]; intros s; simpl.
  - split; [intros _; by exists s | done].
  - destruct s as [|b s].
    + split; [done | intros [post H]; discriminate H].
    + rewrite andb_true_iff, IH. split.
      * intros [Hab [post ->]]. apply Ascii.eqb_eq in Hab as ->. by exists post.
      * intros [post H]. injection H as -> ->.
        split; [apply Ascii.eqb_refl | by exists post].
Qed.

Lemma contains_spec n h : contains n h = true <-> substring_of n h.
Proof.
  unfold substring_of. induction h as [|c h IH]; simpl.
  - rewrite orb_false_r, startswith_spec. split.
    + intros [post H]. by exists "", post.
    + intros (pre & post & H). destruct pre as [|a pre]; [|discriminate H].
      by exists post.
  - rewrite orb_true_iff, startswith_spec, IH. split.
    + intros [[post H] | (pre & post & H)].
      * by exists "", post.
      * exists (String c pre), post. simpl. by rewrite H.
    + intros (pre & post & H). destruct pre as [|a pre].
      * left. by exists post.
      * right. injection H as -> H. by exists pre, post.
Qed.

Lemma contains_false n h : contains n h = false -> ~ substring_of n h.
Proof. intros H Hs. apply contains_spec in Hs. congruence. Qed.

(** [split_on] cuts a text at every separator and nowhere else: gluing
    the pieces with the separator gives the text back, and no piece holds
    a separator. *)
Lemma split_on_cons sep s : exists w ws, split_on sep s = w :: ws.
Proof.
  destruct s as [|c s]; simpl; [eauto|].
  destruct (Ascii.eqb c sep); [eauto|].
  destruct (split_on sep s); eauto.
Qed.

Lemma split_on_glue sep s :
  String.concat (String sep "") (split_on sep s) = s.
Proof.
  induction s as [|c s IH]; simpl; [done|].
  destruct (split_on_cons sep s) as (w & ws & Hs). rewrite Hs in *.
  destruct (Ascii.eqb c sep) eqn:Hc.
  - apply Ascii.eqb_eq in Hc as ->. simpl in *. by rewrite IH.
  - simpl in *. destruct ws; simpl in *; by rewrite <- IH.
Qed.

Lemma contains_char_cons sep c w :
  Ascii.eqb c sep = false ->
  contains (String sep "") (String c w) = contains (String sep "") w.
Proof.
  intros H. change (contains (String sep "") (String c w))
    with (Ascii.eqb sep c && true || contains (String sep "") w).
  by rewrite Ascii.eqb_sym, H.
Qed.

Lemma split_on_pieces sep s :
  Forall (fun piece => contains (String sep "") piece = false)
    (split_on sep s).
Proof.
  induction s as [|c s IH]; simpl; [by repeat constructor|].
  destruct (Ascii.eqb c sep) eqn:Hc; [by constructor|].
  destruct (split_on sep s) as [|w ws].
  - repeat constructor. by rewrite contains_char_cons.
  - inversion IH as [|? ? Hw Hws]; subst. constructor; [|done].
    by rewrite contains_char_cons.
Qed.

(** ** Classification *)

Section Classification.

Lemma wcsd_scan_marked instrument :
  water_column_marked instrument ->
  Pull.wcsd_scan Pull.wcsd_str instrument Multibeam = WCSD.
Proof.
  unfold water_column_marked. rewrite <- !contains_spec. simpl.
  intros H.
  repeat match goal with
         | |- context [if contains ?m instrument then _ else _] =>
             destruct (contains m instrument) eqn:?; [reflexivity|]
         end.
  destruct H as [H | [H | [H | H]]]; discriminate H.
Qed.

Lemma wcsd_scan_unmarked instrument :
  ~ water_column_marked instrument ->
  Pull.wcsd_scan Pull.wcsd_str instrument Multibeam = Multibeam.
Proof.
  unfold water_column_marked. rewrite <- !contains_spec. simpl.
  intros H.
  repeat match goal with
         | |- context [if contains ?m instrument then _ else _] =>
             destruct (contains m instrument) eqn:?; [exfalso; tauto|]
         end.
  reflexivity.
Qed.

(** C4. The data type is a function of [instrument_type] and
    [instrument_name] alone: "Multibeam Sonar" gives [Multibeam], unless
    the name contains "[water column]", "[Watercolumn]", "[Water Column]"
    or "[watercolumn]", which gives [WCSD]; "Splitbeam Sonar" gives
    [WCSD]; every other instrument type gives [Trackline]. *)
Theorem classify_rule (instrument_type instrument_name : string) :
  (instrument_type = "Multibeam Sonar" ->
   water_column_marked instrument_name ->
   Pull.classify instrument_type instrument_name = WCSD)
  /\ (instrument_type = "Multibeam Sonar" ->
      ~ water_column_marked instrument_name ->
      Pull.classify instrument_type instrument_name = Multibeam)
  /\ (instrument_type = "Splitbeam Sonar" ->
      Pull.classify instrument_type instrument_name = WCSD)
  /\ (instrument_type <> "Multibeam Sonar" ->
      instrument_type <> "Splitbeam Sonar" ->
      Pull.classify instrument_type instrument_name = Trackline).
Proof.
  unfold Pull.classify. repeat split.
  - intros -> H. simpl. by apply wcsd_scan_marked.
  - intros -> H. simpl. by apply wcsd_scan_unmarked.
  - by intros ->.
  - intros H1 H2.
    apply String.eqb_neq in H1 as ->. by apply String.eqb_neq in H2 as ->.
Qed.

Lemma classify_rule_witness :
  Pull.classify "Multibeam Sonar" "EM122 [Water Column]" = WCSD
  /\ Pull.classify "Multibeam Sonar" "EM122" = Multibeam
  /\ Pull.classify "Splitbeam Sonar" "EK60" = WCSD
  /\ Pull.classify "Gravimeter" "BGM-3" = Trackline.
Proof.
  split; [|split; [|split]].
  - apply (proj1 (classify_rule "Multibeam Sonar" "EM122 [Water Column]"));
      [reflexivity|].
    right; right; left. by exists "EM122 ", "".
  - apply (proj1 (proj2 (classify_rule "Multibeam Sonar" "EM122")));
      [reflexivity|].
    intros [H | [H | [H | H]]]; revert H; by apply contains_false.
  - by apply (proj1 (proj2 (proj2 (classify_rule "Splitbeam Sonar" "EK60")))).
  - by apply (proj2 (proj2 (proj2 (classify_rule "Gravimeter" "BGM-3")))).
Defined.

End Classification.

(** ** Selection planner *)

Section Planner.

Lemma total_size_app l1 l2 :
  total_size (l1 ++ l2) = total_size l1 + total_size l2.
Proof. induction l1 as [|r l1 IH]; simpl; [done | rewrite IH; lia]. Qed.

Lemma accumulate_from B results c d :
  fold_left (Pull.add_entry B) results (c, d)
  = (c + total_size (included_from B c results),
     fold_left store_entry (included_from B c results) d).
Proof.
  revert c d. induction results as [|e rest IH]; intros c d; simpl.
  - f_equal. lia.
  - destruct (c <? B) eqn:Hc; simpl.
    + rewrite IH. f_equal. lia.
    + apply IH.
Qed.

Lemma included_from_app B c l1 l2 :
  included_from B c (l1 ++ l2)
  = included_from B c l1
    ++ included_from B (c + total_size (included_from B c l1)) l2.
Proof.
  revert c. induction l1 as [|e l1 IH]; intros c; simpl.
  - by rewrite Z.add_0_r.
  - destruct (c <? B); simpl.
    + rewrite IH, Z.add_assoc. reflexivity.
    + apply IH.
Qed.

Lemma all_but_last_under B results c :
  included_from B c results <> [] ->
  c + total_size (removelast (included_from B c results)) < B.
Proof.
  revert c. induction results as [|e rest IH]; intros c; simpl; [done|].
  destruct (c <? B) eqn:Hc; [|apply IH].
  intros _. destruct (included_from B (c + SIZE_BYTES e) rest) eqn:Hinc.
  - simpl. apply Z.ltb_lt in Hc. lia.
  - rewrite <- Hinc.
    assert (included_from B (c + SIZE_BYTES e) rest <> []) as Hne
      by (rewrite Hinc; done).
    specialize (IH _ Hne).
    replace (removelast (e :: included_from B (c + SIZE_BYTES e) rest))
      with (e :: removelast (included_from B (c + SIZE_BYTES e) rest)).
    + simpl. lia.
    + rewrite Hinc. reflexivity.
Qed.

End Planner.

(** ** Discovery: the entries of one directory *)

Section Entries.

Lemma index_last_spec {A} (l : list A) (x : A) :
  index_last l = Ok x <-> exists pre, l = pre ++ [x].
Proof.
  unfold index_last. split.
  - destruct (rev l) as [|y r] eqn:Hr; [done|].
    intros [= ->]. exists (rev r).
    by rewrite <- (rev_involutive l), Hr.
  - intros [pre ->]. by rewrite rev_app_distr.
Qed.

Lemma index_second_last_spec {A} (l : list A) (x : A) :
  index_second_last l = Ok x <-> exists segs last, l = segs ++ [x; last].
Proof.
  unfold index_second_last. split.
  - destruct (rev l) as [|y [|z r]] eqn:Hr; [done..|].
    intros [= ->]. exists (rev r), y.
    rewrite <- (rev_involutive l), Hr. simpl. by rewrite <- app_assoc.
  - intros (segs & last & ->). by rewrite rev_app_distr.
Qed.

Lemma parse_entries_all date_dir lines found errors :
  Pull.parse_entries date_dir lines found errors
  = (found ++ omap (candidate_of date_dir) lines,
     errors ++ omap (entry_error date_dir) lines).
Proof.
  revert found errors.
  induction lines as [|line rest IH]; intros found errors; simpl.
  - by rewrite !app_nil_r.
  - unfold candidate_of, entry_error.
    destruct (Pull.parse_entry date_dir line) as [[c|]|e]; rewrite IH.
    + by rewrite <- app_assoc.
    + done.
    + by rewrite <- app_assoc.
Qed.

Lemma split_on_single sep s :
  contains (String sep "") s = false -> split_on sep s = [s].
Proof.
  induction s as [|c s IH]; [done|].
  change (contains (String sep "") (String c s))
    with (Ascii.eqb sep c && true || contains (String sep "") s).
  rewrite andb_true_r. intros [Hc Hs]%orb_false_iff.
  cbn [split_on]. rewrite Ascii.eqb_sym, Hc. by rewrite (IH Hs).
Qed.

Lemma split_on_several sep s :
  contains (String sep "") s = true ->
  exists segs seg last, split_on sep s = segs ++ [seg; last].
Proof.
  intros Hs. pose proof (split_on_glue sep s) as Hglue.
  pose proof (split_on_pieces sep s) as Hpieces.
  destruct (rev (split_on sep s)) as [|last [|seg r]] eqn:Hrev.
  - destruct (split_on_cons sep s) as (w & ws & Hw). rewrite Hw in Hrev.
    apply (f_equal (@List.length string)) in Hrev.
    rewrite length_rev in Hrev. done.
  - apply (f_equal (@rev string)) in Hrev. rewrite rev_involutive in Hrev.
    simpl in Hrev. rewrite Hrev in Hglue, Hpieces. simpl in Hglue.
    subst last. apply Forall_inv in Hpieces. congruence.
  - exists (rev r), seg, last.
    rewrite <- (rev_involutive (split_on sep s)), Hrev. simpl.
    by rewrite <- app_assoc.
Qed.

Lemma parse_entry_reads date_dir line :
  line_reads date_dir line (Pull.parse_entry date_dir line).
Proof.
  unfold Pull.parse_entry.
  destruct (index_last (split_ws line)) as [name|e] eqn:Hname.
  - apply index_last_spec in Hname as [pre Hpre]. cbn [Py.bind].
    destruct (contains ".md5" name) eqn:Hmd5; cbn [negb].
    { eapply reads_manifest; [done | by apply contains_spec]. }
    apply contains_false in Hmd5.
    destruct (contains "_" name) eqn:Hus.
    + destruct (split_on_several "_" name Hus) as (segs & seg & last & Hsegs).
      rewrite (proj2 (index_second_last_spec _ seg)) by eauto.
      cbn [Py.bind]. by eapply reads_package.
    + rewrite (split_on_single "_" name Hus). cbn.
      eapply reads_unsplit; [done | done | by apply contains_false].
  - unfold index_last in Hname.
    destruct (rev (split_ws line)) as [|x r] eqn:Hrev; [|done].
    injection Hname as <-. cbn [Py.bind]. apply reads_blank.
    apply (f_equal (@rev string)) in Hrev. by rewrite rev_involutive in Hrev.
Qed.

Lemma line_reads_unique date_dir line outcome :
  line_reads date_dir line outcome ->
  Pull.parse_entry date_dir line = outcome.
Proof.
  unfold Pull.parse_entry.
  intros [Hblank | pre name Hline Hmd5 | pre name Hline Hmd5 Hus
          | pre name segs seg last Hline Hmd5 Hsegs].
  - by rewrite Hblank.
  - rewrite (proj2 (index_last_spec _ name)) by eauto. cbn [Py.bind].
    apply contains_spec in Hmd5. by rewrite Hmd5.
  - rewrite (proj2 (index_last_spec _ name)) by eauto. cbn [Py.bind].
    destruct (contains ".md5" name) eqn:Hc; [by apply contains_spec in Hc|].
    cbn [negb]. rewrite split_on_single; [done|].
    destruct (contains "_" name) eqn:Hu; [by apply contains_spec in Hu|done].
  - rewrite (proj2 (index_last_spec _ name)) by eauto. cbn [Py.bind].
    destruct (contains ".md5" name) eqn:Hc; [by apply contains_spec in Hc|].
    cbn [negb].
    by rewrite (proj2 (index_second_last_spec _ seg)) by eauto.
Qed.

(** C5 (as amended). How a listed line is handled is decided by its text
    alone. With [name] its last whitespace-delimited field, the line
    becomes a candidate exactly when [name] does not contain ".md5"
    anywhere and has at least two underscore-delimited segments; the
    candidate's fileset id is the second-to-last segment. A line whose
    name contains ".md5" is passed over. A malformed line (no field at
    all, or a name without ".md5" and without an underscore) raises
    [IndexError] inside the loop. Every line of the directory is examined
    in order: the candidates of all lines are collected, and each
    malformed line leaves its exception in [errors] without stopping the
    lines after it. *)
Theorem entries_rule (date_dir : string) (lines : list string)
    (found : list Pull.candidate) (errors : list err) :
  (forall line outcome,
      Pull.parse_entry date_dir line = outcome <->
      line_reads date_dir line outcome)
  /\ (forall line c,
        Pull.parse_entry date_dir line = Ok (Some c) <->
        exists pre name segs seg last,
          split_ws line = pre ++ [name]
          /\ ~ substring_of ".md5" name
          /\ split_on "_" name = segs ++ [seg; last]
          /\ c = {| Pull.r2r_id := seg;
                    Pull.package_path := date_dir +:+ "/" +:+ name |})
  /\ (forall line e,
        Pull.parse_entry date_dir line = Raise e <->
        e = IndexError
        /\ (split_ws line = []
            \/ exists pre name,
                 split_ws line = pre ++ [name]
                 /\ ~ substring_of ".md5" name
                 /\ ~ substring_of "_" name))
  /\ exists outcomes,
       Forall2 (line_reads date_dir) lines outcomes
       /\ Pull.parse_entries date_dir lines found errors
          = (found ++ omap package_of outcomes,
             errors ++ omap failure_of outcomes).
Proof.
  assert (forall line outcome,
            Pull.parse_entry date_dir line = outcome <->
            line_reads date_dir line outcome) as Hreads.
  { intros line outcome. split.
    - intros <-. apply parse_entry_reads.
    - apply line_reads_unique. }
  split; [exact Hreads|]. split; [|split].
  - intros line c. rewrite Hreads. split.
    + intros H. inversion H as [| | |pre name segs seg last Hline Hmd5 Hsegs].
      by exists pre, name, segs, seg, last.
    + intros (pre & name & segs & seg & last & Hline & Hmd5 & Hsegs & ->).
      by eapply reads_package.
  - intros line e. rewrite Hreads. split.
    + intros H. inversion H as [Hblank| |pre name Hline Hmd5 Hus|];
        (split; [done|]); [by left | right; by exists pre, name].
    + intros [-> [Hblank | (pre & name & Hline & Hmd5 & Hus)]].
      * by apply reads_blank.
      * by eapply reads_unsplit.
  - exists (Pull.parse_entry date_dir <$> lines). split.
    + apply Forall2_fmap_r, Forall_Forall2_diag, Forall_forall.
      intros line _. apply parse_entry_reads.
    + rewrite parse_entries_all. f_equal; f_equal.
      * induction lines as [|line rest IH]; [done|].
        rewrite fmap_cons. cbn [omap list_omap]. rewrite <- IH.
        unfold candidate_of, package_of.
        by destruct (Pull.parse_entry date_dir line) as [[c|]|e].
      * induction lines as [|line rest IH]; [done|].
        rewrite fmap_cons. cbn [omap list_omap]. rewrite <- IH.
        unfold entry_error, failure_of.
        by destruct (Pull.parse_entry date_dir line) as [[c|]|e].
Qed.

(** C5 as stated fails: an entry that does not end in ".md5" but carries
    ".md5" inside its name is not a candidate. *)
Lemma manifest_test_is_not_a_suffix_test :
  endswith ".md5" "KM1910_13579_01.md5.tar" = false
  /\ Pull.parse_entry "/ngdc/2022-05-02"
       "-rw-r--r-- 1 r2r r2r 10 May 2 2022 KM1910_13579_01.md5.tar"
     = Ok None
  /\ Pull.parse_entries "/ngdc/2022-05-02"
       ["-rw-r--r-- 1 r2r r2r 10 May 2 2022 KM1910_13579_01.md5.tar"] [] []
     = ([], []).
Proof. repeat split. Qed.

End Entries.

(** ** Discovery: a directory that matches nothing *)

Section Unmatched.

(** The branch for a listing that fails with "matched no objects" on
    stderr. With two new date directories of which the first answers so,
    [check_date_dirs] hands back the integer 0 after listing the
    first one only: the second directory, which holds a package, is never
    listed, and the caller's [build_sqlite] then raises, so "Populating
    sqlite db" ends with [AttributeError]. When the first listing fails for
    any other reason the loop goes on, the second directory's package is
    found and its record is stored. *)
Theorem unmatched_listing_ends_discovery :
  Pull.check_date_dirs "Linux" remote_first_unmatched iso_date
    (Pull.DatesList ["2022-05-01"; "2022-05-02"]) "/ngdc" (DbRows []) []
  = Ok (Pull.InvZero,
        {| Pull.date_dir_inventory := []; Pull.new_dir_count := 0;
           Pull.errors_of := []; Pull.listed := ["/ngdc/2022-05-01"] |})
  /\ Pull.build_sqlite no_render sample_metadata accept_all
       Pull.InvZero (DbRows []) []
     = Raise AttributeError
  /\ Pull.populate no_render "Linux" remote_first_unmatched iso_date
       sample_metadata accept_all "22" "r2r@sftp" "/ngdc" (DbRows []) []
     = Raise AttributeError
  /\ (exists row,
        Pull.populate no_render "Linux" remote_first_refused iso_date
          sample_metadata accept_all "22" "r2r@sftp" "/ngdc" (DbRows []) []
        = Ok (DbRows [row], [EMsg "Error in  /ngdc"])
        /\ PACKAGE_PATH row = "/ngdc/2022-05-02/KM1910_13579_01.tar")
  /\ Pull.check_date_dirs "Linux" remote_first_refused iso_date
       (Pull.DatesList ["2022-05-01"; "2022-05-02"]) "/ngdc" (DbRows []) []
     = Ok (Pull.InvDict
             [("2022-05-02",
               [{| Pull.r2r_id := "13579";
                   Pull.package_path :=
                     "/ngdc/2022-05-02/KM1910_13579_01.tar" |}])],
           {| Pull.date_dir_inventory :=
                [("2022-05-02",
                  [{| Pull.r2r_id := "13579";
                      Pull.package_path :=
                        "/ngdc/2022-05-02/KM1910_13579_01.tar" |}])];
              Pull.new_dir_count := 1;
              Pull.errors_of := [EMsg "Error in  /ngdc"];
              Pull.listed := ["/ngdc/2022-05-01"; "/ngdc/2022-05-02"] |}).
Proof.
  split; [reflexivity|]. split; [reflexivity|]. split; [reflexivity|].
  split; [|reflexivity].
  eexists. split; reflexivity.
Qed.

(** The same in general: once a new directory's listing "matched no
    objects", nothing after it in [date_list] matters. *)
Lemma unmatched_listing_returns_zero platform_system sftp_ls strptime
    date rest file_path db_date_list st dt :
  date ∉ db_date_list ->
  strptime date = Some dt ->
  Pull.after_cutoff dt = true ->
  let process :=
    sftp_ls (Pull.production platform_system)
      (Pull.date_dir_of platform_system file_path date) in
  returncode process <> 0 ->
  contains "matched no objects" (stderr process) = true ->
  exists st',
    Pull.compare_dates platform_system sftp_ls strptime (date :: rest)
      file_path db_date_list st
    = Ok (Pull.InvZero, st').
Proof.
  intros Hnew Hdt Hcut process Hrc Hmsg. simpl.
  rewrite bool_decide_eq_false_2 by done. rewrite Hdt, Hcut.
  fold process. apply Z.eqb_neq in Hrc. rewrite Hrc. simpl.
  rewrite Hmsg. eauto.
Qed.

End Unmatched.

(** ** Free-space probe of the pull script *)

Section Cushion.

Variable float_render : Z -> result string.
Variable df : string -> Z -> process.

Lemma convert_size_negative n :
  n < 0 -> convert_size float_render n = Raise ValueError.
Proof.
  intros H. unfold convert_size.
  rewrite (proj2 (Z.eqb_neq n 0)) by lia.
  by rewrite (proj2 (Z.ltb_lt n 0)).
Qed.

Lemma no_short_tuple ncei_landing_space minimum errors free_space :
  fst (Pull.landing_space_bytes float_render df ncei_landing_space
         minimum errors)
  <> Pull.SpaceTuple free_space false.
Proof.
  unfold Pull.landing_space_bytes. cbv zeta.
  destruct (negb _); [done|].
  destruct (search_digits _) as [digits|]; [|done]. simpl.
  destruct (int digits) as [space|]; [|done]. simpl.
  destruct (minimum * 1024 * 1024 * 1024 <=? space) eqn:Hle.
  - destruct (convert_size _ _); simpl; [rewrite Hle|]; done.
  - rewrite convert_size_negative; [done|].
    apply Z.leb_gt in Hle. lia.
Qed.

(** C10. When the probe reports fewer available bytes than the cushion,
    [landing_space_bytes] hands back the bare [False]: the [ValueError]
    raised while rendering the negative difference is caught and recorded.
    Indexing that result, as the script does with [space_check[1]], raises
    [TypeError]; and no probe at all makes the function hand back a pair
    whose flag is [False]. *)
Theorem below_cushion_returns_false (ncei_landing_space : string)
    (minimum : Z) (errors : list err) (digits : string) (space : Z) :
  let process := run_subprocess (df ncei_landing_space) 5 in
  search_digits (stdout process) = Some digits ->
  int digits = Ok space ->
  space < minimum * 1024 * 1024 * 1024 ->
  fst (Pull.landing_space_bytes float_render df ncei_landing_space
         minimum errors)
  = Pull.SpaceFalse
  /\ (returncode process = 0 ->
      Pull.landing_space_bytes float_render df ncei_landing_space
        minimum errors
      = (Pull.SpaceFalse, errors ++ [EExn ValueError]))
  /\ Pull.space_index1
       (fst (Pull.landing_space_bytes float_render df ncei_landing_space
               minimum errors))
     = Raise TypeError
  /\ (ncei_landing_space = "<NCEI Landing Space>" -> minimum = 1024 ->
      forall platform_system sftp_get ls_landing type_answer choices
             sqlite_file,
        Pull.pull float_render platform_system sftp_get ls_landing df
          type_answer choices sqlite_file errors
        = Raise TypeError)
  /\ (forall path minimum' errors' free_space,
        fst (Pull.landing_space_bytes float_render df path minimum' errors')
        <> Pull.SpaceTuple free_space false).
Proof.
  intros process Hdigits Hint Hlow.
  assert (Pull.landing_space_bytes float_render df ncei_landing_space
            minimum errors
          = (Pull.SpaceFalse,
             if returncode process =? 0
             then errors ++ [EExn ValueError] else errors)) as Hres.
  { unfold Pull.landing_space_bytes. cbv zeta. fold process.
    destruct (returncode process =? 0); [|done]. simpl.
    rewrite Hdigits. simpl. rewrite Hint. simpl.
    rewrite convert_size_negative by lia. done. }
  split; [by rewrite Hres|].
  split; [intros Hrc; by rewrite Hres, Hrc|].
  split; [by rewrite Hres|].
  split; [|intros; apply no_short_tuple].
  intros -> -> platform_system sftp_get ls_landing type_answer choices
    sqlite_file.
  unfold Pull.pull. by rewrite Hres.
Qed.

End Cushion.

Lemma below_cushion_returns_false_witness :
  Pull.landing_space_bytes no_render sample_df "<NCEI Landing Space>" 1024 []
  = (Pull.SpaceFalse, [EExn ValueError]).
Proof.
  apply (proj1 (proj2
    (below_cushion_returns_false no_render sample_df "<NCEI Landing Space>"
       1024 [] "1000" 1000 eq_refl eq_refl eq_refl))).
  reflexivity.
Defined.

(** ** Validation engine *)

Section Validation.

Variable float_render : Z -> result string.
Variable run : Sort.command -> Z -> process.
Variable listdir : option string -> result (list string).
Variable gunzip : string -> result unit.
Variable isfile : string -> bool.
Variable read_text : string -> result string.
Variable answer1 answer2 : result string.

Local Abbreviation verify_checksum := (Sort.verify_checksum run isfile read_text).
Local Abbreviation validate_one := (Sort.validate_one run gunzip isfile read_text).
Local Abbreviation validate_each := (Sort.validate_each run gunzip isfile read_text).
Local Abbreviation validate_tarballs :=
  (Sort.validate_tarballs run listdir gunzip isfile read_text).
Local Abbreviation sort_landing_zone := (Sort.sort_landing_zone float_render run listdir).
Local Abbreviation main :=
  (Sort.main float_render run listdir gunzip isfile read_text answer1 answer2).

Lemma only_checked_refl w : only_checked w w.
Proof. repeat split. exists []. by rewrite app_nil_r. Qed.

Lemma only_checked_trans w1 w2 w3 :
  only_checked w1 w2 -> only_checked w2 w3 -> only_checked w1 w3.
Proof.
  intros (Hd1 & Hr1 & m1 & He1) (Hd2 & Hr2 & m2 & He2).
  repeat split; [congruence..|].
  exists (m1 ++ m2). by rewrite He2, He1, app_assoc.
Qed.

Lemma only_checked_error e w : only_checked w (Sort.record_error e w).
Proof. repeat split. by exists [e]. Qed.

Lemma only_checked_md5sum tar w :
  only_checked w (Sort.record_command (Sort.Md5sum tar) w).
Proof.
  repeat split.
  - unfold routed. simpl. by rewrite omap_app, app_nil_r.
  - exists []. by rewrite app_nil_r.
Qed.

Create HintDb checked.

Local Hint Resolve only_checked_refl only_checked_error only_checked_md5sum
  : checked.

Lemma verify_checksum_only tar w w' :
  verify_checksum tar w = Ok w' -> only_checked w w'.
Proof.
  unfold Sort.verify_checksum, Sort.call.
  destruct (isfile _); [|intros [= <-]; auto with checked].
  destruct (read_text _) as [content|]; [simpl|done].
  destruct (index_first (split_ws content)) as [checksum|]; [simpl|done].
  set (w1 := if negb _ then _ else w).
  assert (only_checked w w1) as H1 by (subst w1; destruct (negb _); auto with checked).
  assert (only_checked w (Sort.record_command (Sort.Md5sum tar) w1)) as H2
    by (eapply only_checked_trans; eauto with checked).
  destruct (negb (String.eqb _ "")).
  { intros [= <-]. eapply only_checked_trans; eauto with checked. }
  destruct (index_first _) as [computed|]; [simpl|done].
  destruct (String.eqb checksum computed); intros [= <-]; [done|].
  eapply only_checked_trans; eauto with checked.
Qed.

Lemma canonical_reached tarball_path tar :
  (if endswith ".gz" tarball_path then Sort.ungzip_tar gunzip tarball_path
   else Ok tarball_path) = Ok tar ->
  tar = canonical_tar tarball_path.
Proof.
  unfold canonical_tar, Sort.ungzip_tar.
  destruct (endswith ".gz" tarball_path); [|by intros [= <-]].
  destruct (gunzip tarball_path); simpl; [by intros [= <-] | done].
Qed.

Lemma validate_one_only tarball_path w w' :
  validate_one tarball_path w = Ok w' -> only_checked w w'.
Proof.
  unfold Sort.validate_one.
  destruct (if endswith ".gz" tarball_path then _ else _); [simpl|done].
  apply verify_checksum_only.
Qed.

Lemma validate_each_only tarball_paths w w' :
  validate_each tarball_paths w = Ok w' -> only_checked w w'.
Proof.
  revert w. induction tarball_paths as [|tp rest IH]; intros w; simpl.
  - intros [= <-]. apply only_checked_refl.
  - destruct (validate_one tp w) as [w1|] eqn:H1; [simpl|done].
    intros H. eapply only_checked_trans; [by eapply validate_one_only|auto].
Qed.

(** A failing archive leaves at least one entry in [errors]. *)
Lemma verify_checksum_fails tar w w' :
  verify_checksum tar w = Ok w' ->
  archive_fails run isfile read_text tar ->
  Sort.errors w' <> [].
Proof.
  intros Hrun Hfail.
  assert (forall w1 : Sort.world,
             only_checked (Sort.record_error (EMsg "Fail") w1) w' ->
             Sort.errors w' <> []) as Hkeep.
  { intros w1 (_ & _ & more & ->). simpl. by destruct (Sort.errors w1). }
  revert Hrun. unfold Sort.verify_checksum, Sort.call.
  destruct Hfail as [Hmiss | [Hbad | Hdiff]].
  - unfold manifest_missing in Hmiss. rewrite Hmiss. intros [= <-].
    apply (Hkeep w), only_checked_refl.
  - destruct Hbad as (Hfile & content & checksum & Hread & Htok & Hlen).
    unfold first_token in Htok. rewrite Hfile, Hread. simpl. rewrite Htok. simpl.
    rewrite (proj2 (Nat.eqb_neq _ _) Hlen). simpl.
    intros Hrest. apply (Hkeep w).
    eapply only_checked_trans; [apply (only_checked_md5sum tar)|].
    revert Hrest. destruct (negb (String.eqb _ "")).
    { intros [= <-]. apply only_checked_error. }
    destruct (index_first (split_ws (stdout _))) as [computed|]; [simpl|done].
    destruct (String.eqb checksum computed); intros [= <-];
      auto with checked.
  - destruct Hdiff as (Hfile & content & checksum & computed & Hread & Htok
                       & Herr & Hout & Hne).
    unfold first_token, md5sum_of in *. rewrite Hfile, Hread. simpl.
    rewrite Htok. simpl. rewrite Herr. simpl. rewrite Hout. simpl.
    rewrite (proj2 (String.eqb_neq _ _) Hne). intros [= <-].
    eapply Hkeep, only_checked_refl.
Qed.

Lemma validate_each_fails tarball_paths tarball_path w w' :
  validate_each tarball_paths w = Ok w' ->
  tarball_path ∈ tarball_paths ->
  archive_fails run isfile read_text (canonical_tar tarball_path) ->
  Sort.errors w' <> [].
Proof.
  intros Hrun Hin Hfail. revert w Hrun.
  induction Hin as [tp rest | tp tp' rest Hin IH]; intros w; simpl.
  - unfold Sort.validate_one at 1.
    destruct (if endswith ".gz" tp then _ else _) as [tar|] eqn:Htar;
      [simpl|done].
    apply canonical_reached in Htar as ->.
    destruct (verify_checksum _ w) as [w1|] eqn:H1; [simpl|done].
    intros Hrest. apply validate_each_only in Hrest as (_ & _ & more & ->).
    pose proof (verify_checksum_fails _ _ _ H1 Hfail).
    by destruct (Sort.errors w1).
  - destruct (validate_one tp' w) as [w1|]; [simpl|done]. by apply IH.
Qed.

(** When every step can be carried out, the loop returns. *)
Lemma validate_each_returns tarball_paths w :
  Forall (archive_readable run gunzip isfile read_text) tarball_paths ->
  exists w', validate_each tarball_paths w = Ok w'.
Proof.
  intros Hall. revert w.
  induction Hall as [|tp rest [Hgz Hman] _ IH]; intros w; simpl; [eauto|].
  assert (exists w1, validate_one tp w = Ok w1) as [w1 ->]; [|apply IH].
  unfold Sort.validate_one, Sort.ungzip_tar, Sort.verify_checksum, Sort.call.
  unfold canonical_tar in Hman.
  destruct (endswith ".gz" tp); [rewrite Hgz by done|]; simpl;
    (destruct (isfile _); [|by eauto]);
    (destruct Hman as (content & checksum & -> & Htok & Hmd5); [done|]);
    unfold first_token, md5sum_of in *; simpl; rewrite Htok; simpl;
    (destruct (String.eqb (stderr _) "") eqn:Herr; simpl; [|by eauto]);
    apply String.eqb_eq in Herr;
    (destruct (Hmd5 Herr) as [computed ->]); simpl;
    destruct (String.eqb checksum computed); eauto.
Qed.

Lemma path_join_some landing_path x tarball_path :
  Sort.path_join landing_path x = Ok tarball_path ->
  exists a, landing_path = Some a.
Proof. destruct landing_path; [eauto | done]. Qed.

Lemma mapM_ok_elem {A B} (f : A -> result B) l ys x y :
  mapM f l = Ok ys -> x ∈ l -> f x = Ok y -> y ∈ ys.
Proof.
  intros Hm Hin Hx. revert ys Hm.
  induction Hin as [x l | x x' l Hin IH]; intros ys; simpl.
  - rewrite Hx. destruct (mapM f l); [|done]. intros [= <-]. left.
  - destruct (f x'); [|done]. destruct (mapM f l); [|done].
    intros [= <-]. right. by apply IH.
Qed.

Lemma mapM_join_returns a names :
  exists ys, mapM (Sort.path_join (Some a)) names = Ok ys
             /\ forall y, y ∈ ys ->
                  exists x, x ∈ names /\ Sort.path_join (Some a) x = Ok y.
Proof.
  induction names as [|x rest (ys & Hys & Hall)]; cbn [mapM].
  - exists []. split; [done|]. intros y Hy. by apply elem_of_nil in Hy.
  - assert (exists y, Sort.path_join (Some a) x = Ok y) as [y Hy].
    { unfold Sort.path_join. repeat case_match; eauto. }
    rewrite Hy, Hys. exists (y :: ys). split; [done|].
    intros y' [->|Hin]%elem_of_cons.
    + exists x. split; [left | done].
    + destruct (Hall _ Hin) as (x' & Hx' & Hj). exists x'. split; [by right|done].
Qed.

Lemma refused_batch_not_sorted landing_path w :
  sort_landing_zone landing_path false w = Ok w
  \/ sort_landing_zone landing_path false w = Raise FileNotFoundError.
Proof.
  unfold Sort.sort_landing_zone, database_connect.
  destruct (Sort.db w); simpl; auto.
Qed.

Lemma get_path_only w landing_path w1 :
  Sort.get_path answer1 answer2 w = Ok (landing_path, w1) ->
  only_checked w w1.
Proof.
  unfold Sort.get_path.
  repeat case_match; intros [= <- <-]; auto with checked.
Qed.

Lemma elem_of_filter_bool {A} (f : A -> bool) (l : list A) (x : A) :
  x ∈ l -> f x = true -> x ∈ List.filter f l.
Proof.
  intros Hin Hf. apply list_elem_of_In, filter_In.
  split; [by apply list_elem_of_In | done].
Qed.

Lemma verdict_iff landing_path w verdict w' :
  validate_tarballs landing_path w = Ok (verdict, w') ->
  (verdict = true <-> Sort.errors w' = []) /\ only_checked w w'.
Proof.
  unfold Sort.validate_tarballs.
  destruct (listdir landing_path) as [names|]; [simpl|done].
  destruct (mapM _ _) as [tarball_paths|]; [simpl|done].
  destruct (validate_each tarball_paths w) as [w1|] eqn:Heach; [simpl|done].
  apply validate_each_only in Heach.
  destruct (Sort.errors w1) as [|e more] eqn:Herr; simpl;
    intros [= <- <-]; rewrite Herr; done.
Qed.

Lemma failed_archive_verdict landing_path names x tarball_path w verdict w' :
  listdir landing_path = Ok names ->
  x ∈ names -> is_archive_name x = true ->
  Sort.path_join landing_path x = Ok tarball_path ->
  archive_fails run isfile read_text (canonical_tar tarball_path) ->
  validate_tarballs landing_path w = Ok (verdict, w') ->
  verdict = false.
Proof.
  intros Hnames Hx Harch Hjoin Hfail.
  unfold Sort.validate_tarballs. rewrite Hnames. simpl.
  destruct (mapM _ _) as [tarball_paths|] eqn:Hpaths; [simpl|done].
  destruct (validate_each tarball_paths w) as [w1|] eqn:Heach; [simpl|done].
  assert (tarball_path ∈ tarball_paths) as Hin.
  { eapply mapM_ok_elem; [exact Hpaths | | exact Hjoin].
    by apply elem_of_filter_bool. }
  pose proof (validate_each_fails _ _ _ _ Heach Hin Hfail) as Hne.
  destruct (Sort.errors w1); [done|]. simpl. by intros [= <- <-].
Qed.

(** X20. When some archive of the landing directory fails validation (no
    manifest, a token that is not 32 characters long, or a checksum that
    differs), the verdict of [validate_tarballs], if it returns, is
    [False] and
    [sort_landing_zone], given that verdict, runs no command at all; when
    a check raises instead, [main] ends there, before the routing engine;
    a run of [main] that ends has started no extraction or
    synchronisation; and whenever every step of the checks can be carried
    out, [validate_tarballs] does return, with [False]. *)
Theorem failed_archive_blocks_batch (landing_path : option string)
    (names : list string) (x tarball_path : string) (w w1 : Sort.world) :
  Sort.get_path answer1 answer2 w = Ok (landing_path, w1) ->
  listdir landing_path = Ok names ->
  x ∈ names -> is_archive_name x = true ->
  Sort.path_join landing_path x = Ok tarball_path ->
  archive_fails run isfile read_text (canonical_tar tarball_path) ->
  (forall verdict w2,
      validate_tarballs landing_path w1 = Ok (verdict, w2) ->
      verdict = false
      /\ routed w2 = routed w
      /\ (sort_landing_zone landing_path verdict w2 = Ok w2
          \/ sort_landing_zone landing_path verdict w2
             = Raise FileNotFoundError))
  /\ (forall e, validate_tarballs landing_path w1 = Raise e ->
        main w = Raise e)
  /\ (forall w', main w = Ok w' ->
        validate_tarballs landing_path w1 = Ok (false, w')
        /\ routed w' = routed w)
  /\ ((forall y tp, y ∈ names -> is_archive_name y = true ->
         Sort.path_join landing_path y = Ok tp ->
         archive_readable run gunzip isfile read_text tp) ->
      exists w', validate_tarballs landing_path w1 = Ok (false, w')
                 /\ routed w' = routed w
                 /\ (Sort.db w <> DbMissing -> main w = Ok w')).
Proof.
  intros Hpath Hnames Hx Harch Hjoin Hfail.
  pose proof (get_path_only _ _ _ Hpath) as (Hdb0 & Hr0 & _).
  split; [|split; [|split]].
  - intros verdict w2 Hv.
    pose proof (failed_archive_verdict _ _ _ _ _ _ _
                  Hnames Hx Harch Hjoin Hfail Hv) as ->.
    apply verdict_iff in Hv as (_ & _ & Hr & _).
    split; [done|]. split; [congruence|].
    apply refused_batch_not_sorted.
  - intros e Hv. unfold Sort.main. rewrite Hpath. simpl. by rewrite Hv.
  - intros w'. unfold Sort.main. rewrite Hpath. simpl.
    destruct (validate_tarballs landing_path w1) as [[verdict w2]|] eqn:Hv;
      [simpl|done].
    pose proof (failed_archive_verdict _ _ _ _ _ _ _
                  Hnames Hx Harch Hjoin Hfail Hv) as ->.
    apply verdict_iff in Hv as (_ & _ & Hr & _).
    destruct (refused_batch_not_sorted landing_path w2) as [-> | ->]; [|done].
    intros [= <-]. split; [done | congruence].
  - intros Hread.
    destruct (path_join_some _ _ _ Hjoin) as [a ->].
    assert (exists verdict w', validate_tarballs (Some a) w1 = Ok (verdict, w'))
      as (verdict & w' & Hv).
    { unfold Sort.validate_tarballs. rewrite Hnames. simpl.
      destruct (mapM_join_returns a (List.filter is_archive_name names))
        as (tps & Htps & Hfrom).
      unfold is_archive_name in Htps at 1. rewrite Htps. simpl.
      destruct (validate_each_returns tps w1) as [w2 ->].
      - apply Forall_forall. intros tp (y & Hy & Hj)%Hfrom.
        apply list_elem_of_In, filter_In in Hy as [Hy Hfy].
        apply (Hread y); [by apply list_elem_of_In | done | done].
      - simpl. destruct (0 <? _)%nat; eauto. }
    pose proof (failed_archive_verdict _ _ _ _ _ _ _
                  Hnames Hx Harch Hjoin Hfail Hv) as ->.
    exists w'. pose proof Hv as Hv'.
    apply verdict_iff in Hv' as (_ & Hdb & Hr & _).
    split; [done|]. split; [congruence|].
    intros Hpresent. unfold Sort.main. rewrite Hpath. simpl. rewrite Hv. simpl.
    unfold Sort.sort_landing_zone, database_connect. rewrite Hdb, Hdb0.
    by destruct (Sort.db w).
Qed.

End Validation.

Lemma failed_archive_blocks_batch_witness :
  exists w',
    Sort.validate_tarballs run_second_differs sample_listdir sample_gunzip
      sample_isfile sample_read (Some "<NCEI_LANDING_SPACE>") sample_world
    = Ok (false, w')
    /\ routed w' = routed sample_world
    /\ (Sort.db sample_world <> DbMissing ->
        Sort.main no_render run_second_differs sample_listdir sample_gunzip
          sample_isfile sample_read (Ok "y") (Ok "") sample_world
        = Ok w').
Proof.
  refine (proj2 (proj2 (proj2
    (failed_archive_blocks_batch no_render run_second_differs sample_listdir
       sample_gunzip sample_isfile sample_read (Ok "y") (Ok "")
       (Some "<NCEI_LANDING_SPACE>") sample_names "AR02_22222_b.tar"
       "<NCEI_LANDING_SPACE>/AR02_22222_b.tar" sample_world sample_world
       eq_refl eq_refl _ eq_refl eq_refl _))) _).
  - do 2 right. left.
  - right. right. split; [reflexivity|].
    exists (sample_sum +:+ "  archive" +:+ newline), sample_sum,
      "ffffffffffffffffffffffffffffffff".
    repeat split; discriminate.
  - intros y tp Hy Harch Hjoin.
    unfold sample_names in Hy.
    repeat (apply elem_of_cons in Hy as [-> | Hy]);
      try (by apply elem_of_nil in Hy); try discriminate Harch;
      vm_compute in Hjoin; injection Hjoin as Htp; subst tp;
      (split; [intros _; reflexivity|]); cbv zeta;
      intros _; exists (sample_sum +:+ "  archive" +:+ newline), sample_sum;
      (repeat split); intros _; eexists; reflexivity.
Defined.

(** C9. [validate_tarballs] answers [True] exactly when the shared [errors]
    list is empty once it is done, and it only ever adds to that list; so
    any entry made before the call forces [False]. In the sample run every
    archive has its manifest and a matching checksum, and the verdict is
    [True] from an empty list but [False] once [get_path]'s [ValueError]
    entry is in it, or once an earlier validation of another batch has
    left its ['Fail'] entry. *)
Theorem verdict_reads_shared_errors :
  (forall run listdir gunzip isfile read_text landing_path w verdict w',
      Sort.validate_tarballs run listdir gunzip isfile read_text
        landing_path w = Ok (verdict, w') ->
      (verdict = true <-> Sort.errors w' = [])
      /\ (exists more, Sort.errors w' = Sort.errors w ++ more)
      /\ (Sort.errors w <> [] -> verdict = false))
  /\ Forall (archive_passes run_all_match sample_isfile sample_read)
       sample_tars
  /\ (exists w',
        Sort.validate_tarballs run_all_match sample_listdir sample_gunzip
          sample_isfile sample_read (Some "<NCEI_LANDING_SPACE>") sample_world
        = Ok (true, w'))
  /\ (exists w',
        Sort.validate_tarballs run_all_match sample_listdir sample_gunzip
          sample_isfile sample_read (Some "<NCEI_LANDING_SPACE>")
          (Sort.record_error (EExn ValueError) sample_world)
        = Ok (false, w'))
  /\ (exists w1 w2,
        Sort.validate_tarballs run_second_differs sample_listdir sample_gunzip
          sample_isfile sample_read (Some "<NCEI_LANDING_SPACE>") sample_world
        = Ok (false, w1)
        /\ Sort.validate_tarballs run_all_match sample_listdir sample_gunzip
             sample_isfile sample_read (Some "<NCEI_LANDING_SPACE>") w1
           = Ok (false, w2)).
Proof.
  split; [|split; [|split; [|split]]].
  - intros run listdir gunzip isfile read_text landing_path w verdict w' Hv.
    apply verdict_iff in Hv as (Hiff & _ & _ & more & Hmore).
    split; [done|]. split; [by exists more|].
    intros Hne. destruct verdict; [|done].
    rewrite (proj1 Hiff eq_refl) in Hmore.
    destruct (Sort.errors w); [done | discriminate Hmore].
  - repeat constructor;
      exists (sample_sum +:+ "  archive" +:+ newline), sample_sum;
      repeat split.
  - eexists. vm_compute. reflexivity.
  - eexists. vm_compute. reflexivity.
  - do 2 eexists. split; vm_compute; reflexivity.
Qed.

Lemma verdict_reads_shared_errors_witness :
  Sort.validate_tarballs run_all_match sample_listdir sample_gunzip
    sample_isfile sample_read (Some "<NCEI_LANDING_SPACE>")
    (Sort.record_error (EExn ValueError) sample_world)
  = Ok (false, sample_checked (Sort.record_error (EExn ValueError) sample_world))
  /\ (false = true <->
      Sort.errors
        (sample_checked (Sort.record_error (EExn ValueError) sample_world))
      = []).
Proof.
  assert (Sort.validate_tarballs run_all_match sample_listdir sample_gunzip
            sample_isfile sample_read (Some "<NCEI_LANDING_SPACE>")
            (Sort.record_error (EExn ValueError) sample_world)
          = Ok (false,
                sample_checked
                  (Sort.record_error (EExn ValueError) sample_world)))
    as Hv by (vm_compute; reflexivity).
  split; [exact Hv|].
  exact (proj1 (proj1 verdict_reads_shared_errors _ _ _ _ _ _ _ _ _ Hv)).
Defined.

(** ** Routing engine and the store *)

Section Routing.

Variable float_render : Z -> result string.
Variable run : Sort.command -> Z -> process.
Variable listdir : option string -> result (list string).
Variable gunzip : string -> result unit.
Variable isfile : string -> bool.
Variable read_text : string -> result string.
Variable answer1 answer2 : result string.

Lemma landing_space_db landing_space minimum w :
  Sort.db (snd (Sort.landing_space_bytes float_render run
                  landing_space minimum w))
  = Sort.db w.
Proof.
  unfold Sort.landing_space_bytes, Sort.call. cbv zeta. simpl.
  repeat case_match; simplify_eq; done.
Qed.

Lemma sort_one_db landing_path tarball w w' :
  Sort.sort_one float_render run landing_path tarball w = Ok w' ->
  Sort.db w' = Sort.db w.
Proof.
  unfold Sort.sort_one, Sort.call.
  destruct (Sort.path_join _ _); [simpl|done].
  destruct (Sort.unpack3 _) as [[survey r2r_id]|]; [simpl|done].
  destruct (fetchall _); [simpl|done].
  destruct (index_first _) as [first|]; [simpl|done].
  destruct (Sort.find_guidance _ _ _) as [guidance|];
    [|by intros [= <-]].
  match goal with
  | |- context [let '(ok, w0) := ?m in _] =>
      assert (Sort.db (snd m) = Sort.db w) as Hmade
        by (repeat case_match; done);
      destruct m as [ok w1]
  end.
  simpl in Hmade.
  destruct (negb ok); [intros [= <-]; done|].
  destruct (Sort.untar guidance);
    match goal with
    | |- context [Sort.landing_space_bytes ?f ?r ?l ?m ?x] =>
        pose proof (landing_space_db l m x) as Hls;
        destruct (Sort.landing_space_bytes f r l m x) as [enough_space w2]
    end;
    simpl in Hls;
    repeat match goal with
      | |- context [Sort.space_index1 ?v] =>
          destruct (Sort.space_index1 v) as [[]|]; simpl
      | |- context [Sort.space_index2 ?v] =>
          destruct (Sort.space_index2 v); simpl
      | |- context [if ?b then _ else _] => destruct b
      | _ => progress simpl
      end;
    try done; intros [= <-]; simpl; congruence.
Qed.

Lemma sort_each_db landing_path tarballs w w' :
  Sort.sort_each float_render run landing_path tarballs w = Ok w' ->
  Sort.db w' = Sort.db w.
Proof.
  revert w. induction tarballs as [|t rest IH]; intros w; simpl.
  - by intros [= <-].
  - destruct (Sort.sort_one _ _ _ t w) as [w1|] eqn:H1; [simpl|done].
    intros H. apply IH in H. apply sort_one_db in H1. congruence.
Qed.

Lemma sort_landing_zone_db landing_path valid w w' :
  Sort.sort_landing_zone float_render run listdir landing_path valid w
  = Ok w' ->
  Sort.db w' = Sort.db w.
Proof.
  unfold Sort.sort_landing_zone.
  destruct (database_connect _); [simpl|done].
  destruct valid; [|by intros [= <-]].
  destruct (listdir landing_path); [simpl|done].
  apply sort_each_db.
Qed.

Lemma main_db w w' :
  Sort.main float_render run listdir gunzip isfile read_text
    answer1 answer2 w = Ok w' ->
  Sort.db w' = Sort.db w.
Proof.
  unfold Sort.main.
  destruct (Sort.get_path _ _ w) as [[landing_path w1]|] eqn:Hpath;
    [simpl|done].
  destruct (Sort.validate_tarballs _ _ _ _ _ _ w1) as [[verdict w2]|] eqn:Hv;
    [simpl|done].
  intros Hsort. apply sort_landing_zone_db in Hsort.
  apply verdict_iff in Hv as (_ & Hdb2 & _).
  apply get_path_only in Hpath as (Hdb1 & _). congruence.
Qed.

End Routing.

(** ** The transfer step and the store *)

Section Transfer.

Variable float_render : Z -> result string.
Variable platform_system : string.
Variable sftp_get : bool -> string -> string -> string -> result process.
Variable ls_landing : string -> string -> process.
Variable fileset_api : string -> result Pull.metadata.
Variable insert_rejected : list PackageRecord -> PackageRecord -> bool.

Local Abbreviation copy_paths :=
  (Pull.copy_paths platform_system sftp_get ls_landing).
Local Abbreviation did_land := (landed platform_system sftp_get ls_landing).
Local Abbreviation rows_after :=
  (after_copy platform_system sftp_get ls_landing).

Lemma copy_step path rest landing_path rows errors :
  exists errors1,
    copy_paths (path :: rest) landing_path (DbRows rows) errors
    = copy_paths rest landing_path
        (DbRows (if did_land landing_path path
                 then mark_pulled path <$> rows else rows))
        errors1.
Proof.
  simpl. unfold landed.
  destruct (path_split path) as [cd_path package].
  destruct (sftp_get _ _ _ _) as [process|e]; [|eauto].
  destruct (negb (String.eqb (stderr process) "") && _); simpl; [eauto|].
  destruct (returncode process =? 0); simpl; [|eauto].
  destruct (bool_decide _); simpl; eauto.
Qed.

Lemma mark_pulled_path path r :
  PACKAGE_PATH (mark_pulled path r) = PACKAGE_PATH r.
Proof. unfold mark_pulled. by destruct (String.eqb _ _). Qed.

Lemma mark_pulled_again path r :
  mark_pulled (PACKAGE_PATH r) (mark_pulled path r)
  = mark_pulled (PACKAGE_PATH r) r.
Proof.
  unfold mark_pulled. destruct (String.eqb (PACKAGE_PATH r) path); [|done].
  simpl. by rewrite String.eqb_refl.
Qed.

Lemma after_copy_step landing_path path rest r :
  rows_after landing_path rest
    (if did_land landing_path path then mark_pulled path r else r)
  = rows_after landing_path (path :: rest) r.
Proof.
  unfold after_copy, set_pulled. cbn [existsb].
  destruct (did_land landing_path path); simpl; [|done].
  rewrite mark_pulled_path, mark_pulled_again.
  destruct (String.eqb (PACKAGE_PATH r) path) eqn:Hp; simpl.
  - apply String.eqb_eq in Hp. subst path. by destruct (existsb _ _).
  - unfold mark_pulled at 2. by rewrite Hp.
Qed.

Lemma copy_paths_rows paths landing_path rows errors :
  exists errors',
    copy_paths paths landing_path (DbRows rows) errors
    = (DbRows (rows_after landing_path paths <$> rows), errors').
Proof.
  revert rows errors.
  induction paths as [|path rest IH]; intros rows errors.
  - exists errors. simpl. f_equal. f_equal.
    unfold after_copy. simpl. by rewrite list_fmap_id.
  - destruct (copy_step path rest landing_path rows errors) as [errors1 ->].
    destruct (IH (if did_land landing_path path
                  then mark_pulled path <$> rows else rows) errors1)
      as [errors' ->].
    exists errors'. f_equal. f_equal.
    transitivity
      ((fun r => rows_after landing_path rest
                   (if did_land landing_path path then mark_pulled path r else r))
         <$> rows).
    + destruct (did_land landing_path path); [|done].
      by rewrite <- list_fmap_compose.
    + apply list_fmap_ext. intros _ r _. apply after_copy_step.
Qed.

Lemma after_copy_monotone landing_path paths r :
  BEEN_PULLED r = Pulled ->
  BEEN_PULLED (rows_after landing_path paths r) = Pulled.
Proof.
  intros H. unfold after_copy, set_pulled, mark_pulled.
  rewrite String.eqb_refl. by destruct (existsb _ _).
Qed.

Lemma enrich_pending date dataset row :
  Pull.enrich float_render fileset_api date dataset = Ok row ->
  BEEN_PULLED row = Pending.
Proof.
  unfold Pull.enrich.
  destruct (fileset_api _); [simpl|done].
  destruct (convert_size _ _); [simpl|done].
  by intros [= <-].
Qed.

Lemma build_datasets_rows date values_list rows errors :
  exists new errors',
    Pull.build_datasets float_render fileset_api insert_rejected
      date values_list (DbRows rows) errors
    = (DbRows (rows ++ new), errors')
    /\ Forall (fun r => BEEN_PULLED r = Pending) new.
Proof.
  revert rows errors.
  induction values_list as [|dataset rest IH]; intros rows errors; simpl.
  - exists [], errors. by rewrite app_nil_r.
  - destruct (Pull.enrich _ _ date dataset) as [row|e] eqn:Hrow; [|apply IH].
    simpl. destruct (insert_rejected rows row); [apply IH|].
    destruct (IH (rows ++ [row]) errors) as (new & errors' & -> & Hnew).
    exists (row :: new), errors'. rewrite <- app_assoc. split; [done|].
    constructor; [by eapply enrich_pending | done].
Qed.

Lemma build_dates_rows items rows errors :
  exists new errors',
    Pull.build_dates float_render fileset_api insert_rejected
      items (DbRows rows) errors
    = (DbRows (rows ++ new), errors')
    /\ Forall (fun r => BEEN_PULLED r = Pending) new.
Proof.
  revert rows errors.
  induction items as [|[date values_list] rest IH]; intros rows errors; simpl.
  - exists [], errors. by rewrite app_nil_r.
  - destruct (build_datasets_rows date values_list rows errors)
      as (new1 & errors1 & -> & Hnew1).
    destruct (IH (rows ++ new1) errors1) as (new2 & errors2 & -> & Hnew2).
    exists (new1 ++ new2), errors2. rewrite app_assoc. split; [done|].
    by apply Forall_app.
Qed.

End Transfer.

(** C1 (as amended). A record's [BEEN_PULLED] is set to ['Y'] by the
    transfer step: after [copy_packages] a row is marked exactly when its
    path is among the requested paths and manifests and the fetch reached
    its update, and every other row is as before. The sort pass never
    touches the inventory: a run of [main] that ends leaves every row as it
    was. [build_sqlite] only appends rows that are not yet pulled. *)
Theorem pulled_is_set_by_transfer :
  (forall float_render run listdir gunzip isfile read_text answer1 answer2
          w w',
      Sort.main float_render run listdir gunzip isfile read_text
        answer1 answer2 w = Ok w' ->
      Sort.db w' = Sort.db w)
  /\ (forall platform_system sftp_get ls_landing dir_list landing_path rows
             errors,
        exists errors',
          Pull.copy_packages platform_system sftp_get ls_landing
            (Some dir_list) landing_path (DbRows rows) errors
          = Ok (DbRows
                  (after_copy platform_system sftp_get ls_landing landing_path
                     (dir_list ++ (Pull.manifest_of <$> dir_list)) <$> rows),
                errors'))
  /\ (forall float_render fileset_api insert_rejected d rows errors,
        exists new errors',
          Pull.build_sqlite float_render fileset_api insert_rejected
            (Pull.InvDict d) (DbRows rows) errors
          = Ok (DbRows (rows ++ new), errors')
          /\ Forall (fun r => BEEN_PULLED r = Pending) new).
Proof.
  split; [|split].
  - intros. by eapply main_db.
  - intros. unfold Pull.copy_packages. simpl.
    destruct (copy_paths_rows platform_system sftp_get ls_landing
                (dir_list ++ (Pull.manifest_of <$> dir_list))
                landing_path rows errors) as [errors' ->].
    by exists errors'.
  - intros. unfold Pull.build_sqlite. simpl.
    destruct (build_dates_rows float_render fileset_api insert_rejected
                d rows errors) as (new & errors' & -> & Hnew).
    by exists new, errors'.
Qed.

Lemma pulled_is_set_by_transfer_witness :
  Sort.main no_render run_all_match sample_listdir sample_gunzip
    sample_isfile sample_read (Ok "y") (Ok "") sample_world
  = Ok sample_sorted
  /\ routed sample_sorted = sample_tars
  /\ Sort.db sample_sorted = Sort.db sample_world.
Proof.
  assert (Sort.main no_render run_all_match sample_listdir sample_gunzip
            sample_isfile sample_read (Ok "y") (Ok "") sample_world
          = Ok sample_sorted) as Hrun by (vm_compute; reflexivity).
  split; [exact Hrun|]. split; [reflexivity|].
  exact (proj1 pulled_is_set_by_transfer _ _ _ _ _ _ _ _ _ _ Hrun).
Defined.

(** C1 as stated fails on both counts: the transfer step marks the fetched
    package as pulled, and a sort pass that validates and extracts all
    three archives leaves their records pending. *)
Lemma transfer_marks_and_sort_does_not :
  Pull.copy_packages "Linux" sample_get sample_ls_landing
    (Some ["/ngdc/2022-05-02/AR01_11111_a.tar"]) "<NCEI Landing Space>"
    (DbRows sample_rows) []
  = Ok (DbRows
          [set_pulled (sample_row "11111" "AR01"
                         "/ngdc/2022-05-02/AR01_11111_a.tar");
           sample_row "22222" "AR02" "/ngdc/2022-05-02/AR02_22222_b.tar";
           sample_row "33333" "AR03" "/ngdc/2022-05-02/AR03_33333_c.tar"],
        [])
  /\ BEEN_PULLED (set_pulled (sample_row "11111" "AR01"
                               "/ngdc/2022-05-02/AR01_11111_a.tar"))
     = Pulled
  /\ exists w',
       Sort.main no_render run_all_match sample_listdir sample_gunzip
         sample_isfile sample_read (Ok "y") (Ok "") sample_world
       = Ok w'
       /\ routed w' = sample_tars
       /\ Sort.db w' = DbRows sample_rows
       /\ Forall (fun r => BEEN_PULLED r = Pending) sample_rows.
Proof.
  split; [reflexivity|]. split; [reflexivity|].
  eexists. split; [vm_compute; reflexivity|].
  repeat split. repeat constructor.
Qed.

(** ** The selection answer *)

Section Selection.

Variable float_render : Z -> result string.

Lemma int_raises text e : int text = Raise e -> e = ValueError.
Proof.
  unfold int.
  destruct (match strip text with "" => _ | String _ _ => _ end);
    [done | by intros [= <-]].
Qed.

Lemma parse_choice_reads piece numbers :
  Pull.parse_choice piece = Ok numbers <-> piece_reads piece numbers.
Proof.
  unfold Pull.parse_choice. split.
  - destruct (contains "-" piece) eqn:Hdash.
    + destruct (split_on "-" (strip piece)) as [|a [|b [|c rest]]] eqn:Hparts;
        [done..| |done].
      destruct (int (strip a)) as [first|] eqn:Ha; [simpl|done].
      destruct (int (strip b)) as [last|] eqn:Hb; [simpl|done].
      intros [= <-]. by eapply reads_range.
    + destruct (int (strip piece)) as [n|] eqn:Hn; [simpl|done].
      intros [= <-]. by apply reads_index.
  - intros [p n Hdash Hn | p a b first last Hdash Hparts Ha Hb].
    + by rewrite Hdash, Hn.
    + by rewrite Hdash, Hparts, Ha, Hb.
Qed.

Lemma parse_choice_raises piece e :
  Pull.parse_choice piece = Raise e -> e = ValueError.
Proof.
  unfold Pull.parse_choice.
  destruct (contains "-" piece).
  - destruct (split_on "-" (strip piece)) as [|a [|b [|c rest]]];
      try (by intros [= <-]).
    destruct (int (strip a)) eqn:Ha; simpl;
      [|by apply int_raises in Ha as ->; intros [= <-]].
    destruct (int (strip b)) eqn:Hb; simpl; [done|].
    apply int_raises in Hb as ->. by intros [= <-].
  - destruct (int (strip piece)) eqn:Hn; simpl; [done|].
    apply int_raises in Hn as ->. by intros [= <-].
Qed.

(** Either some piece cannot be read and the whole answer raises, or every
    piece is read and all its numbers are in the resulting set. *)
Lemma parse_choices_cases pieces choice_numbers :
  Pull.parse_choices pieces choice_numbers = Raise ValueError
  /\ Exists (fun piece => forall numbers, ~ piece_reads piece numbers) pieces
  \/ exists all_numbers,
       Pull.parse_choices pieces choice_numbers = Ok all_numbers
       /\ choice_numbers ⊆ all_numbers
       /\ Forall (fun piece =>
                    exists numbers,
                      piece_reads piece numbers
                      /\ forall i, i ∈ numbers -> i ∈ all_numbers) pieces.
Proof.
  revert choice_numbers.
  induction pieces as [|piece rest IH]; intros choice_numbers; simpl.
  - right. exists choice_numbers. by repeat split.
  - destruct (Pull.parse_choice piece) as [numbers|e] eqn:Hp; simpl.
    + destruct (IH (choice_numbers ∪ list_to_set numbers))
        as [[Hraise Hex] | (all_numbers & Hall & Hsub & Hrest)].
      * left. split; [done | by right].
      * right. exists all_numbers. split; [done|]. split; [set_solver|].
        constructor; [|done]. exists numbers.
        split; [by apply parse_choice_reads|]. intros i Hi.
        apply Hsub. apply elem_of_union_r. by apply elem_of_list_to_set.
    + left. apply parse_choice_raises in Hp as Hv. subst e. split; [done|].
      left. intros numbers Hn%parse_choice_reads. congruence.
Qed.

Lemma piece_reads_unique piece numbers numbers' :
  piece_reads piece numbers -> piece_reads piece numbers' ->
  numbers = numbers'.
Proof. intros H1%parse_choice_reads H2%parse_choice_reads. congruence. Qed.

Lemma filter_drops {A} (f : A -> bool) (l : list A) (x : A) :
  In x l -> f x = false -> (List.length (List.filter f l) < List.length l)%nat.
Proof.
  induction l as [|y l IH]; simpl; [done|].
  intros [-> | Hin] Hf.
  - rewrite Hf. pose proof (filter_length_le f l). lia.
  - specialize (IH Hin Hf). destruct (f y); simpl; lia.
Qed.

Lemma choose_rejects package_dict choices :
  Exists (piece_bad (List.length package_dict)) (split_on "," choices) ->
  Pull.choose float_render package_dict choices = Ok None
  \/ Pull.choose float_render package_dict choices = Raise ValueError.
Proof.
  intros Hbad. unfold Pull.choose.
  destruct (parse_choices_cases (split_on "," choices) ∅)
    as [[-> _] | (all_numbers & -> & _ & Hall)]; [by right|].
  left. simpl.
  apply Exists_exists in Hbad as (piece & Hin & Hpiece).
  rewrite Forall_forall in Hall.
  destruct (Hall piece Hin) as (numbers & Hreads & Hnumbers).
  destruct Hpiece as [Hnone | (numbers' & i & Hreads' & Hi & Hout)].
  { by apply Hnone in Hreads. }
  rewrite (piece_reads_unique _ _ _ Hreads' Hreads) in Hi.
  assert (In i (elements all_numbers)) as Hel.
  { apply list_elem_of_In, elem_of_elements. auto. }
  assert (Pull.in_range (List.length package_dict) i = false) as Hrange.
  { unfold Pull.in_range. apply not_true_is_false. intros H.
    apply andb_true_iff in H as [H1 H2]. apply Hout. lia. }
  pose proof (filter_drops _ _ _ Hel Hrange) as Hlt.
  unfold size, set_size. simpl.
  rewrite (proj2 (Nat.eqb_neq _ _)); [done | lia].
Qed.

(** X22. When some comma-separated piece of the answer cannot be read as
    an index or an inclusive dash-range, or stands for a number outside the
    displayed list, [query_sqlite] hands back no download list: it returns
    [None], or raises [ValueError] on a piece it cannot read. *)
Theorem selection_all_or_nothing (rows : list PackageRecord)
    (data_type : option string) (free_space : Z) (choices : string) :
  let package_dict :=
    snd (Pull.accumulate free_space
           (List.filter (Pull.pending_like data_type) rows)) in
  Exists (piece_bad (List.length package_dict)) (split_on "," choices) ->
  Pull.query_sqlite float_render (DbRows rows) data_type free_space choices
  = Ok None
  \/ Pull.query_sqlite float_render (DbRows rows) data_type free_space choices
     = Raise ValueError.
Proof.
  intros package_dict Hbad. unfold Pull.query_sqlite. simpl.
  fold package_dict.
  destruct (0 <? List.length package_dict)%nat; [|by left].
  destruct (choose_rejects package_dict choices Hbad) as [-> | ->]; auto.
Qed.

End Selection.

Lemma selection_all_or_nothing_witness :
  Pull.query_sqlite no_render (DbRows sample_rows) (Some "Multibeam")
    10000000000 "1,2-9"
  = Ok None
  \/ Pull.query_sqlite no_render (DbRows sample_rows) (Some "Multibeam")
       10000000000 "1,2-9"
     = Raise ValueError.
Proof.
  apply (selection_all_or_nothing no_render sample_rows (Some "Multibeam")
           10000000000 "1,2-9").
  right. left. right. exists (seqZ 2 (9 + 1 - 2)), 9. split; [|split].
  - by eapply reads_range.
  - vm_compute. do 7 right. left.
  - vm_compute. intros [_ H]. by apply H.
Defined.

(** ** Discovery against the store's known dates *)

Section Rediscovery.

Variable platform_system : string.
Variable sftp_ls : bool -> string -> process.
Variable strptime : string -> option (Z * Z * Z).
Variable file_path : string.

Local Abbreviation compare_dates :=
  (Pull.compare_dates platform_system sftp_ls strptime).
Local Abbreviation date_dir_of := (Pull.date_dir_of platform_system file_path).
Local Abbreviation found_under :=
  (listing_candidates platform_system sftp_ls file_path).

Lemma dict_get_set_eq {V} k (v : V) d : dict_get k (dict_set k v d) = Some v.
Proof.
  induction d as [|[k' v'] d IH]; simpl.
  - by rewrite String.eqb_refl.
  - destruct (String.eqb k k') eqn:Hk; simpl; [by rewrite String.eqb_refl|].
    by rewrite Hk.
Qed.

Lemma dict_get_set_ne {V} k k' (v : V) d :
  k <> k' -> dict_get k (dict_set k' v d) = dict_get k d.
Proof.
  intros Hne. induction d as [|[k0 v0] d IH]; simpl.
  - by rewrite (proj2 (String.eqb_neq _ _) Hne).
  - destruct (String.eqb k' k0) eqn:Hk; simpl.
    + apply String.eqb_eq in Hk as <-.
      by rewrite (proj2 (String.eqb_neq _ _) Hne).
    + by rewrite IH.
Qed.

Lemma dict_set_all_empty {V} k (d : list (string * list V)) :
  Forall (fun kv => snd kv = []) d ->
  Forall (fun kv => snd kv = []) (dict_set k [] d).
Proof.
  induction 1 as [|[k' v'] d Hv Hd IH]; simpl.
  - by repeat constructor.
  - destruct (String.eqb k k'); constructor; done.
Qed.

Lemma all_empty_no_candidates d :
  Forall (fun kv : string * list Pull.candidate => snd kv = []) d ->
  candidates_of d = [].
Proof.
  unfold candidates_of. induction 1 as [|[k v] d Hv Hd IH]; [done|].
  simpl in Hv. subst v. exact IH.
Qed.

Lemma distinct_dates_elem rows seen date :
  date ∈ Pull.distinct_dates rows seen <->
  date ∈ seen \/ date_known rows date.
Proof.
  unfold date_known. revert seen.
  induction rows as [|r rest IH]; intros seen; simpl.
  - split; [auto|]. intros [H | (r & Hr & _)]; [done|].
    by apply elem_of_nil in Hr.
  - case_bool_decide as Hseen; rewrite IH.
    + split.
      * intros [H | (r' & Hr' & Hd)]; [auto|].
        right. exists r'. split; [by right | done].
      * intros [H | (r' & [-> | Hr']%elem_of_cons & Hd)]; [auto| |].
        -- left. by rewrite <- Hd.
        -- right. by exists r'.
    + rewrite elem_of_app, list_elem_of_singleton. split.
      * intros [[H | ->] | (r' & Hr' & Hd)]; [auto| |].
        -- right. exists r. split; [left | done].
        -- right. exists r'. split; [by right | done].
      * intros [H | (r' & [-> | Hr']%elem_of_cons & Hd)]; [auto| |].
        -- left. by right.
        -- right. by exists r'.
Qed.

Lemma date_dir_of_inj date date' :
  date_dir_of date = date_dir_of date' -> date = date'.
Proof.
  unfold Pull.date_dir_of.
  destruct (Pull.production platform_system); intros H.
  - by apply (inj (String.app file_path)), (inj (String.app "/")) in H.
  - by apply (inj (String.app "/data/")) in H.
Qed.

(** The candidates kept for a directory are those of its listing,
    whatever had been found or recorded before. *)
Lemma parse_entries_found date errors :
  fst (Pull.parse_entries (date_dir_of date)
         (removelast
            (tail (split_on "010"
                     (stdout (sftp_ls (Pull.production platform_system)
                                (date_dir_of date))))))
         [] errors)
  = found_under date.
Proof. by rewrite parse_entries_all. Qed.

(** What a finished pass leaves for the dates the store already knows:
    no entry, and no listing requested. *)
Lemma compare_dates_known date_list db_date_list st d st' :
  compare_dates date_list file_path db_date_list st = Ok (Pull.InvDict d, st') ->
  (forall k, k ∈ db_date_list ->
             dict_get k (Pull.date_dir_inventory st) = None ->
             dict_get k d = None)
  /\ (forall x, x ∈ Pull.listed st' ->
        x ∈ Pull.listed st
        \/ (exists date, (date ∉ db_date_list) /\ x = date_dir_of date)).
Proof.
  revert st. induction date_list as [|date rest IH]; intros st; simpl.
  - intros [= <- <-]. auto.
  - case_bool_decide as Hknown; [apply IH|].
    destruct (strptime date) as [dt|]; [|done].
    destruct (Pull.after_cutoff dt); [|apply IH].
    destruct (negb (returncode _ =? 0)).
    + destruct (contains "matched no objects" _); [done|].
      intros H. apply IH in H as [Hget Hlisted]. simpl in *.
      split; [done|].
      intros x [Hx | Hx]%Hlisted; [|by right].
      apply elem_of_app in Hx as [Hx | ->%list_elem_of_singleton]; [by left|].
      right. by exists date.
    + destruct (0 <? _)%nat.
      * destruct (Pull.parse_entries _ _ _ _) as [found errors].
        intros H. apply IH in H as [Hget Hlisted]. simpl in *.
        split.
        -- intros k Hk Hnone. apply Hget; [done|].
           rewrite dict_get_set_ne; [done|]. by intros ->.
        -- intros x [Hx | Hx]%Hlisted; [|by right].
           apply elem_of_app in Hx as [Hx | ->%list_elem_of_singleton];
             [by left|].
           right. by exists date.
      * intros H. apply IH in H as [Hget Hlisted]. simpl in *.
        split; [done|].
        intros x [Hx | Hx]%Hlisted; [|by right].
        apply elem_of_app in Hx as [Hx | ->%list_elem_of_singleton];
          [by left|].
        right. by exists date.
Qed.

(** An entry that holds the listing's candidates keeps them to the end of
    the pass. *)
Lemma compare_dates_stable date_list db_date_list st d st' date :
  compare_dates date_list file_path db_date_list st = Ok (Pull.InvDict d, st') ->
  dict_get date (Pull.date_dir_inventory st) = Some (found_under date) ->
  dict_get date d = Some (found_under date).
Proof.
  revert st. induction date_list as [|date' rest IH]; intros st; simpl.
  - by intros [= <- <-].
  - case_bool_decide as Hknown; [apply IH|].
    destruct (strptime date') as [dt|]; [|done].
    destruct (Pull.after_cutoff dt); [|apply IH].
    destruct (negb (returncode _ =? 0)).
    + destruct (contains "matched no objects" _); [done|].
      intros H Hget. by apply IH in H.
    + destruct (0 <? _)%nat; [|intros H Hget; by apply IH in H].
      pose proof (parse_entries_found date' (Pull.errors_of st)) as Hfound.
      destruct (Pull.parse_entries _ _ _ _) as [found errors].
      simpl in Hfound. subst found.
      intros H Hget. apply IH in H; [done|]. simpl.
      destruct (decide (date = date')) as [-> | Hne].
      * apply dict_get_set_eq.
      * by rewrite dict_get_set_ne.
Qed.

(** A second pass over the same listing, once the store knows every date
    the first pass found candidates under. *)
Lemma compare_dates_again date_list dates1 dates2 st1 st2 d1 st1' :
  compare_dates date_list file_path dates1 st1 = Ok (Pull.InvDict d1, st1') ->
  (forall date, date ∈ dates1 -> date ∈ dates2) ->
  (forall date cands,
      dict_get date d1 = Some cands -> cands <> [] -> date ∈ dates2) ->
  Forall (fun kv => snd kv = []) (Pull.date_dir_inventory st2) ->
  exists d2 st2',
    compare_dates date_list file_path dates2 st2 = Ok (Pull.InvDict d2, st2')
    /\ Forall (fun kv => snd kv = []) d2.
Proof.
  intros Hrun Hsub Hfound. revert st1 st2 Hrun.
  induction date_list as [|date rest IH]; intros st1 st2; simpl.
  - intros _ Hempty. eauto.
  - destruct (bool_decide (date ∈ dates1)) eqn:Hk1.
    { apply bool_decide_eq_true in Hk1.
      rewrite (bool_decide_eq_true_2 _ (Hsub _ Hk1)). apply IH. }
    destruct (strptime date) as [dt|]; [|done].
    destruct (Pull.after_cutoff dt);
      [|destruct (bool_decide (date ∈ dates2)); apply IH].
    destruct (negb (returncode _ =? 0)).
    { destruct (contains "matched no objects" _); [done|].
      intros H1 Hempty.
      destruct (bool_decide (date ∈ dates2)); eapply IH; eauto. }
    destruct (0 <? _)%nat;
      [|intros H1 Hempty;
        destruct (bool_decide (date ∈ dates2)); eapply IH; eauto].
    pose proof (parse_entries_found date (Pull.errors_of st1)) as Hf1.
    pose proof (parse_entries_found date (Pull.errors_of st2)) as Hf2.
    destruct (Pull.parse_entries _ _ _ (Pull.errors_of st1))
      as [found1 errors1].
    destruct (Pull.parse_entries _ _ _ (Pull.errors_of st2))
      as [found2 errors2].
    simpl in Hf1, Hf2. subst found1 found2.
    intros H1 Hempty.
    destruct (bool_decide (date ∈ dates2)) eqn:Hk2; [eapply IH; eauto|].
    apply bool_decide_eq_false in Hk2.
    assert (found_under date = []) as Hnone.
    { destruct (found_under date) as [|c cs] eqn:Hc; [done|].
      exfalso. apply Hk2. apply (Hfound date (c :: cs)); [|done].
      rewrite <- Hc in H1 |- *. eapply compare_dates_stable; [exact H1|].
      simpl. apply dict_get_set_eq. }
    rewrite Hnone. eapply IH; [exact H1|].
    simpl. by apply dict_set_all_empty.
Qed.

(** C8 (as amended). Every date the store already knows is skipped
    entirely: the result has no entry for it and no listing is requested
    for its directory. Hence a second Discovery over the same remote
    listing yields zero candidates once the store knows every date under
    which the first one found a candidate (and still knows the dates it
    knew). *)
Theorem discovery_skips_known_dates (date_list : list string)
    (rows : list PackageRecord) (errors : list err)
    (d1 : list (string * list Pull.candidate)) (st1 : Pull.discovery) :
  Pull.check_date_dirs platform_system sftp_ls strptime
    (Pull.DatesList date_list) file_path (DbRows rows) errors
  = Ok (Pull.InvDict d1, st1) ->
  (forall date, date_known rows date ->
     dict_get date d1 = None /\ date_dir_of date ∉ Pull.listed st1)
  /\ (forall rows2 errors2,
        (forall date, date_known rows date -> date_known rows2 date) ->
        (forall date cands,
            dict_get date d1 = Some cands -> cands <> [] ->
            date_known rows2 date) ->
        exists d2 st2,
          Pull.check_date_dirs platform_system sftp_ls strptime
            (Pull.DatesList date_list) file_path (DbRows rows2) errors2
          = Ok (Pull.InvDict d2, st2)
          /\ candidates_of d2 = []).
Proof.
  unfold Pull.check_date_dirs. simpl. intros Hrun. split.
  - intros date Hknown.
    assert (date ∈ Pull.distinct_dates rows []) as Hin
      by (apply distinct_dates_elem; by right).
    apply compare_dates_known in Hrun as [Hget Hlisted]. split.
    + by apply Hget.
    + intros [Hx | (date' & Hnew & Heq)]%Hlisted.
      * by apply elem_of_nil in Hx.
      * apply date_dir_of_inj in Heq as <-. done.
  - intros rows2 errors2 Hkeep Hfound.
    destruct (compare_dates_again date_list
                (Pull.distinct_dates rows []) (Pull.distinct_dates rows2 [])
                _ {| Pull.date_dir_inventory := []; Pull.new_dir_count := 0;
                     Pull.errors_of := errors2; Pull.listed := [] |}
                _ _ Hrun) as (d2 & st2 & Hrun2 & Hempty).
    + intros date [Hx | Hk]%distinct_dates_elem;
        [by apply elem_of_nil in Hx|].
      apply distinct_dates_elem. right. by apply Hkeep.
    + intros date cands Hget Hne. apply distinct_dates_elem. right.
      by eapply Hfound.
    + constructor.
    + exists d2, st2. split; [done | by apply all_empty_no_candidates].
Qed.

End Rediscovery.

Lemma discovery_skips_known_dates_witness :
  exists d2 st2,
    Pull.check_date_dirs "Linux" remote_first_refused iso_date
      (Pull.DatesList ["2022-05-01"; "2022-05-02"]) "/ngdc"
      (DbRows sample_rows) []
    = Ok (Pull.InvDict d2, st2)
    /\ candidates_of d2 = [].
Proof.
  refine (proj2
    (discovery_skips_known_dates "Linux" remote_first_refused iso_date
       "/ngdc" ["2022-05-01"; "2022-05-02"] [] [] _ _ eq_refl)
    sample_rows [] _ _).
  - intros date (r & Hr & _). by apply elem_of_nil in Hr.
  - intros date cands Hget Hne.
    exists (sample_row "11111" "AR01" "/ngdc/2022-05-02/AR01_11111_a.tar").
    split; [left|].
    simpl in Hget. destruct (String.eqb date "2022-05-02") eqn:Hd.
    + apply String.eqb_eq in Hd. by rewrite Hd.
    + discriminate Hget.
Defined.

(** C8 as stated fails: when the metadata provider is down, "Populating
    sqlite db" leaves the store as it was, and a second Discovery over the
    same listing finds the same candidate again. *)
Lemma unchanged_store_rediscovers :
  let candidate :=
    {| Pull.r2r_id := "13579";
       Pull.package_path := "/ngdc/2022-05-02/KM1910_13579_01.tar" |} in
  (exists st,
      Pull.check_date_dirs "Linux" remote_first_refused iso_date
        (Pull.DatesList ["2022-05-02"]) "/ngdc" (DbRows []) []
      = Ok (Pull.InvDict [("2022-05-02", [candidate])], st))
  /\ Pull.build_sqlite no_render failing_metadata accept_all
       (Pull.InvDict [("2022-05-02", [candidate])]) (DbRows []) []
     = Ok (DbRows [], [EExn RequestException])
  /\ (exists d st,
        Pull.check_date_dirs "Linux" remote_first_refused iso_date
          (Pull.DatesList ["2022-05-02"]) "/ngdc" (DbRows [])
          [EExn RequestException]
        = Ok (Pull.InvDict d, st)
        /\ candidates_of d = [candidate]).
Proof.
  intros candidate. split; [|split].
  - eexists. reflexivity.
  - reflexivity.
  - do 2 eexists. split; reflexivity.
Qed.

(** * Further properties of the two scripts *)

(** ** The retry loop *)

Section Retry.

Variable attempt : Z -> process.
Variable number_tries : Z.

Lemma run_subprocess_loop_spec remaining try_count :
  number_tries - try_count - 1 <= Z.of_nat remaining ->
  exists k,
    try_count < k <= Z.max (try_count + 1) number_tries
    /\ run_subprocess_loop attempt number_tries try_count remaining
       = attempt k
    /\ (forall j, try_count < j < k -> attempt_failed (attempt j) = true)
    /\ (attempt_failed (attempt k) = false \/ number_tries <= k).
Proof.
  revert try_count.
  induction remaining as [|remaining IH]; intros try_count Hfuel; simpl;
    fold (attempt_failed (attempt (try_count + 1)));
    destruct (attempt_failed (attempt (try_count + 1))) eqn:Hfail;
    try (exists (try_count + 1); repeat split; [lia | lia | lia | by left]);
    destruct (number_tries <=? try_count + 1) eqn:Hlast;
    try (apply Z.leb_le in Hlast; exists (try_count + 1);
         repeat split; [lia | lia | lia | by right]);
    apply Z.leb_gt in Hlast.
  - lia.
  - destruct (IH (try_count + 1)) as (k & Hk & Hrun & Hbefore & Hend); [lia|].
    exists k. split; [lia|]. split; [done|]. split; [|done].
    intros j Hj. destruct (decide (j = try_count + 1)) as [-> | Hne]; [done|].
    apply Hbefore. lia.
Qed.

(** X1. [run_subprocess] returns the result of the first attempt that did
    not fail (a non-zero exit status counts as a failure unless stdout
    says "file already exists"), or of attempt [number_tries] when all of
    them failed; it never makes more than [max 1 number_tries] attempts. *)
Theorem run_subprocess_attempts :
  exists k,
    1 <= k <= Z.max 1 number_tries
    /\ run_subprocess attempt number_tries = attempt k
    /\ (forall j, 1 <= j < k -> attempt_failed (attempt j) = true)
    /\ (attempt_failed (attempt k) = false \/ number_tries <= k).
Proof.
  destruct (run_subprocess_loop_spec (Z.to_nat number_tries) 0)
    as (k & Hk & Hrun & Hbefore & Hend); [lia|].
  exists k. split; [lia|]. split; [done|]. split; [|done].
  intros j Hj. apply Hbefore. lia.
Qed.

End Retry.

(** ** Classification and the routing table *)

Lemma eqb_cases (s t : string) :
  (String.eqb s t = true /\ s = t) \/ (String.eqb s t = false /\ s <> t).
Proof.
  destruct (String.eqb s t) eqn:H.
  - left. by apply String.eqb_eq in H.
  - right. by apply String.eqb_neq in H.
Qed.

(** X2. For a record classified by [build_sqlite], [sort_landing_zone]
    finds a routing rule exactly when the instrument type is one of
    "Multibeam Sonar", "Splitbeam Sonar", "Gravimeter", "Magnetometer" or
    "Singlebeam Sonar"; the rule says copy-only exactly for "Gravimeter"
    and "Magnetometer". *)
Theorem classified_records_route (instrument_type instrument_name : string) :
  let rule :=
    Sort.find_guidance (Pull.classify instrument_type instrument_name)
      instrument_type instrument_name in
  (rule = None <-> instrument_type ∉ routable_types)
  /\ (forall guidance, rule = Some guidance ->
        (Sort.untar guidance = false <->
         instrument_type = "Gravimeter" \/ instrument_type = "Magnetometer")).
Proof.
  unfold Pull.classify, Sort.find_guidance, routable_types.
  destruct (eqb_cases instrument_type "Multibeam Sonar") as [[-> ->] | [-> H1]].
  { simpl.
    assert (forall d, d = WCSD \/ d = Multibeam ->
              match d with
              | WCSD => Sort.lookup_guidance "WCD Multibeam"
              | Multibeam => Sort.lookup_guidance "Multibeam Sonar"
              | Trackline => None
              end = Some (Sort.entry true)) as Hrule.
    { by intros d [-> | ->]. }
    rewrite Hrule.
    - split.
      + split; [done|]. intros H. exfalso. apply H. left.
      + intros g [= <-]. simpl. split; [done|]. by intros [H | H].
    - destruct (contains "[water column]" instrument_name); [by left|].
      destruct (contains "[Watercolumn]" instrument_name); [by left|].
      destruct (contains "[Water Column]" instrument_name); [by left|].
      destruct (contains "[watercolumn]" instrument_name); [by left|].
      by right. }
  destruct (eqb_cases instrument_type "Splitbeam Sonar") as [[-> ->] | [-> H2]].
  { simpl. split.
    - split; [done|]. intros H. exfalso. apply H. right. left.
    - intros g [= <-]. simpl. split; [done|]. by intros [H | H]. }
  destruct (eqb_cases instrument_type "Gravimeter") as [[-> ->] | [-> H3]].
  { simpl. split.
    - split; [done|]. intros H. exfalso. apply H. do 2 right. left.
    - intros g [= <-]. simpl. split; [by left|done]. }
  destruct (eqb_cases instrument_type "Magnetometer") as [[-> ->] | [-> H4]].
  { simpl. split.
    - split; [done|]. intros H. exfalso. apply H. do 3 right. left.
    - intros g [= <-]. simpl. split; [by right|done]. }
  destruct (eqb_cases instrument_type "Singlebeam Sonar")
    as [[-> ->] | [-> H5]].
  { split.
    - split; [by destruct (contains _ _)|].
      intros H. exfalso. apply H. do 4 right. left.
    - intros g Hg. assert (g = Sort.entry true) as ->
        by (destruct (contains _ _); by injection Hg).
      simpl. split; [done|]. by intros [H | H]. }
  split; [|done]. split; [|done]. intros _ H.
  repeat (apply elem_of_cons in H as [H | H]; [done|]).
  by apply elem_of_nil in H.
Qed.

Lemma classified_records_route_witness :
  Sort.untar (Sort.entry false) = false <->
  "Gravimeter" = "Gravimeter" \/ "Gravimeter" = "Magnetometer".
Proof.
  exact (proj2 (classified_records_route "Gravimeter" "BGM-3")
           (Sort.entry false) eq_refl).
Defined.

(** ** Enrichment *)

Section Enrichment.

Variable float_render : Z -> result string.
Variable fileset_api : string -> result Pull.metadata.
Variable insert_rejected : list PackageRecord -> PackageRecord -> bool.

Local Abbreviation enrich := (Pull.enrich float_render fileset_api).
Local Abbreviation build_datasets :=
  (Pull.build_datasets float_render fileset_api insert_rejected).
Local Abbreviation build_dates :=
  (Pull.build_dates float_render fileset_api insert_rejected).
Local Abbreviation build_sqlite :=
  (Pull.build_sqlite float_render fileset_api insert_rejected).

Lemma enrich_fields date c r :
  enrich date c = Ok r -> enriched_from date c r.
Proof.
  unfold Pull.enrich.
  destruct (fileset_api _); [simpl|done].
  destruct (convert_size _ _); [simpl|done].
  intros [= <-]. by repeat split.
Qed.

Lemma build_datasets_account date values_list rows errors :
  exists new more,
    build_datasets date values_list (DbRows rows) errors
    = (DbRows (rows ++ new), errors ++ more)
    /\ (List.length new + List.length more = List.length values_list)%nat
    /\ Forall (fun r => exists c, c ∈ values_list /\ enriched_from date c r)
         new.
Proof.
  revert rows errors.
  induction values_list as [|c rest IH]; intros rows errors; simpl.
  - exists [], []. by rewrite !app_nil_r.
  - assert (forall new,
              Forall (fun r => exists c', c' ∈ rest /\ enriched_from date c' r)
                new ->
              Forall (fun r => exists c', c' ∈ c :: rest
                                          /\ enriched_from date c' r) new)
      as Hwiden.
    { intros new H. eapply Forall_impl; [exact H|]. intros r (c' & Hc' & Hr).
      exists c'. split; [by right | done]. }
    destruct (enrich date c) as [row|e] eqn:Hrow; simpl.
    + destruct (insert_rejected rows row).
      * destruct (IH rows (errors ++ [EExn SqliteError]))
          as (new & more & -> & Hlen & Hnew).
        exists new, (EExn SqliteError :: more).
        rewrite <- app_assoc. split; [done|]. split; [simpl; lia|].
        by eapply Hwiden.
      * destruct (IH (rows ++ [row]) errors)
          as (new & more & -> & Hlen & Hnew).
        exists (row :: new), more.
        rewrite <- app_assoc. split; [done|]. split; [simpl; lia|].
        constructor; [|by eapply Hwiden].
        exists c. split; [left | by apply enrich_fields].
    + destruct (IH rows (errors ++ [EExn e]))
        as (new & more & -> & Hlen & Hnew).
      exists new, (EExn e :: more).
      rewrite <- app_assoc. split; [done|]. split; [simpl; lia|].
      by eapply Hwiden.
Qed.

(** X3. [build_sqlite] accounts for every candidate of the inventory:
    each one either becomes one appended row or leaves one entry in
    [errors]. The rows already stored are kept in place, and an appended
    row carries its candidate's fileset id and path, the date it was found
    under, the data type its own instrument fields classify to, and is not
    yet pulled. *)
Theorem build_sqlite_accounts (d : list (string * list Pull.candidate))
    (rows : list PackageRecord) (errors : list err) :
  exists new more,
    build_sqlite (Pull.InvDict d) (DbRows rows) errors
    = Ok (DbRows (rows ++ new), errors ++ more)
    /\ (List.length new + List.length more
        = List.length (candidates_of d))%nat
    /\ Forall (fun r =>
                 exists date cands c,
                   (date, cands) ∈ d /\ c ∈ cands
                   /\ enriched_from date c r) new.
Proof.
  unfold Pull.build_sqlite. simpl. revert rows errors.
  induction d as [|[date cands] rest IH]; intros rows errors; simpl.
  - exists [], []. by rewrite !app_nil_r.
  - destruct (build_datasets_account date cands rows errors)
      as (new1 & more1 & -> & Hlen1 & Hnew1).
    destruct (IH (rows ++ new1) (errors ++ more1))
      as (new2 & more2 & Hrun & Hlen2 & Hnew2).
    injection Hrun as ->.
    exists (new1 ++ new2), (more1 ++ more2). rewrite !app_assoc.
    split; [done|]. split.
    + change (candidates_of ((date, cands) :: rest))
        with (cands ++ candidates_of rest).
      rewrite !length_app. lia.
    + apply Forall_app. split.
      * eapply Forall_impl; [exact Hnew1|]. intros r (c & Hc & Hr).
        exists date, cands, c. split; [left | done].
      * eapply Forall_impl; [exact Hnew2|].
        intros r (date' & cands' & c & Hd & Hc & Hr).
        exists date', cands', c. split; [by right | done].
Qed.

Hypothesis rejects_known_paths :
  forall rows row,
    PACKAGE_PATH row ∈ PACKAGE_PATH <$> rows ->
    insert_rejected rows row = true.

Lemma build_datasets_distinct date values_list rows errors rows' errors' :
  build_datasets date values_list (DbRows rows) errors
  = (DbRows rows', errors') ->
  NoDup (PACKAGE_PATH <$> rows) -> NoDup (PACKAGE_PATH <$> rows').
Proof.
  revert rows errors.
  induction values_list as [|c rest IH]; intros rows errors; simpl.
  - by intros [= <- <-].
  - destruct (enrich date c) as [row|e]; simpl; [|apply IH].
    destruct (insert_rejected rows row) eqn:Hrej; [apply IH|].
    intros Hrun Hdistinct. eapply IH; [exact Hrun|].
    rewrite fmap_app. apply NoDup_app. split; [done|]. split.
    + intros p Hp [->|Hnil%elem_of_nil]%elem_of_cons; [|done].
      apply rejects_known_paths in Hp. congruence.
    + apply NoDup_singleton.
Qed.

Lemma build_datasets_keeps_table date values_list rows errors :
  exists rows' errors',
    build_datasets date values_list (DbRows rows) errors
    = (DbRows rows', errors').
Proof.
  destruct (build_datasets_account date values_list rows errors)
    as (new & more & -> & _). eauto.
Qed.

(** X4. When the table refuses a row whose [PACKAGE_PATH] it already
    holds, [build_sqlite] keeps the stored package paths pairwise
    distinct. *)
Theorem build_sqlite_keeps_paths_distinct
    (d : list (string * list Pull.candidate))
    (rows rows' : list PackageRecord) (errors errors' : list err) :
  build_sqlite (Pull.InvDict d) (DbRows rows) errors
  = Ok (DbRows rows', errors') ->
  NoDup (PACKAGE_PATH <$> rows) -> NoDup (PACKAGE_PATH <$> rows').
Proof.
  unfold Pull.build_sqlite. simpl. intros [= Hrun]. revert rows errors Hrun.
  induction d as [|[date cands] rest IH]; intros rows errors; simpl.
  - by intros [= <- <-].
  - destruct (build_datasets_keeps_table date cands rows errors)
      as (rows1 & errors1 & Hfirst).
    rewrite Hfirst. intros Hrun Hdistinct.
    eapply IH; [exact Hrun|]. by eapply build_datasets_distinct.
Qed.

End Enrichment.

Lemma build_sqlite_keeps_paths_distinct_witness :
  Pull.build_sqlite no_render sample_metadata reject_known_path
    (Pull.InvDict [("2022-05-02", [sample_candidate; sample_candidate])])
    (DbRows []) []
  = Ok (DbRows [sample_enriched], [EExn SqliteError])
  /\ NoDup (PACKAGE_PATH <$> [sample_enriched]).
Proof.
  assert (Pull.build_sqlite no_render sample_metadata reject_known_path
            (Pull.InvDict
               [("2022-05-02", [sample_candidate; sample_candidate])])
            (DbRows []) []
          = Ok (DbRows [sample_enriched], [EExn SqliteError])) as Hrun
    by (vm_compute; reflexivity).
  split; [exact Hrun|].
  refine (build_sqlite_keeps_paths_distinct no_render sample_metadata
            reject_known_path _ _ _ _ _ _ Hrun _).
  - intros rows row Hin. by apply bool_decide_eq_true_2.
  - constructor.
Defined.

(** ** The top-level listing *)

Section TopListing.

Variable float_render : Z -> result string.
Variable platform_system : string.
Variable sftp_ls : bool -> string -> process.
Variable strptime : string -> option (Z * Z * Z).
Variable fileset_api : string -> result Pull.metadata.
Variable insert_rejected : list PackageRecord -> PackageRecord -> bool.
Variable port_num r2r_server_path ngdc_files_path : string.

Lemma list_remove_spec x l l' :
  Pull.list_remove x l = Ok l' <->
  exists l1 l2, l = l1 ++ x :: l2 /\ (x ∉ l1) /\ l' = l1 ++ l2.
Proof.
  revert l'. induction l as [|y l IH]; intros l'; simpl.
  - split; [done|]. intros (l1 & l2 & H & _). by destruct l1.
  - destruct (String.eqb y x) eqn:Hy.
    + apply String.eqb_eq in Hy as ->. split.
      * intros [= <-]. exists [], l. split; [done|]. split; [|done].
        apply not_elem_of_nil.
      * intros (l1 & l2 & H & Hnot & ->). destruct l1 as [|z l1].
        -- by injection H as ->.
        -- injection H as -> _. exfalso. apply Hnot. left.
    + apply String.eqb_neq in Hy. split.
      * destruct (Pull.list_remove x l) as [r|] eqn:Hr; [simpl|done].
        intros [= <-]. destruct (proj1 (IH r) eq_refl)
          as (l1 & l2 & -> & Hnot & ->).
        exists (y :: l1), l2. split; [done|]. split; [|done].
        intros [-> | H]%elem_of_cons; done.
      * intros (l1 & l2 & H & Hnot & ->). destruct l1 as [|z l1].
        -- by injection H as ->.
        -- injection H as -> ->.
           rewrite (proj2 (IH (l1 ++ l2))); [done|].
           exists l1, l2. split; [done|]. split; [|done].
           intros H. apply Hnot. by right.
Qed.

Lemma list_remove_absent x l : x ∉ l -> Pull.list_remove x l = Raise ValueError.
Proof.
  induction l as [|y l IH]; simpl; [done|].
  intros Hnot. destruct (String.eqb y x) eqn:Hy.
  - apply String.eqb_eq in Hy as ->. exfalso. apply Hnot. left.
  - rewrite IH; [done|]. intros H. apply Hnot. by right.
Qed.

Lemma connect_to_sftp_eq errors :
  Pull.connect_to_sftp sftp_ls platform_system port_num r2r_server_path
    ngdc_files_path errors
  = let process := top_listing platform_system sftp_ls ngdc_files_path in
    if negb (returncode process =? 0) then
      if contains "matched no objects" (stderr process) then
        (Ok Pull.DatesZero, errors)
      else
        (Ok Pull.DatesNone,
         errors ++ [EMsg ("Error in  " +:+ r2r_server_path)])
    else
      (match Pull.list_remove "README" (listed_names process) with
       | Ok l => Ok (Pull.DatesList l)
       | Raise e => Raise e
       end, errors).
Proof. reflexivity. Qed.

(** X5. What the top-level listing does to the run. When it exits with a
    non-zero status, [connect_to_sftp] hands back 0 or [None] and
    "Populating sqlite db" ends with [TypeError] in [check_date_dirs] (for
    a readable store). When it succeeds but names no "README", the run
    ends with [ValueError]. When it succeeds and [connect_to_sftp] hands
    back a list, that list is the listed names with the first "README"
    taken out. *)
Theorem top_listing_outcomes (rows : list PackageRecord)
    (errors : list err) :
  let process := top_listing platform_system sftp_ls ngdc_files_path in
  (returncode process <> 0 ->
   Pull.populate float_render platform_system sftp_ls strptime fileset_api
     insert_rejected port_num r2r_server_path ngdc_files_path
     (DbRows rows) errors
   = Raise TypeError)
  /\ (returncode process = 0 -> "README" ∉ listed_names process ->
      forall sqlite_file,
        Pull.populate float_render platform_system sftp_ls strptime
          fileset_api insert_rejected port_num r2r_server_path
          ngdc_files_path sqlite_file errors
        = Raise ValueError)
  /\ (forall l,
        fst (Pull.connect_to_sftp sftp_ls platform_system port_num
               r2r_server_path ngdc_files_path errors)
        = Ok (Pull.DatesList l) ->
        returncode process = 0
        /\ exists l1 l2,
             listed_names process = l1 ++ "README" :: l2
             /\ ("README" ∉ l1) /\ l = l1 ++ l2).
Proof.
  intros process. unfold Pull.populate. rewrite connect_to_sftp_eq.
  fold process. cbv zeta. split; [|split].
  - intros Hrc. apply Z.eqb_neq in Hrc. rewrite Hrc. simpl.
    by destruct (contains "matched no objects" (stderr process)).
  - intros Hrc Hnone sqlite_file. rewrite Hrc. simpl.
    by rewrite list_remove_absent.
  - intros l. destruct (returncode process =? 0) eqn:Hrc; simpl.
    + apply Z.eqb_eq in Hrc.
      destruct (Pull.list_remove "README" _) as [r|] eqn:Hr; [simpl|done].
      intros [= <-]. split; [done|]. by apply list_remove_spec.
    + by destruct (contains "matched no objects" (stderr process)).
Qed.

End TopListing.

Lemma top_listing_outcomes_witness :
  fst (Pull.connect_to_sftp remote_first_unmatched "Linux" "22" "r2r@sftp"
         "/ngdc" [])
  = Ok (Pull.DatesList ["2022-05-01"; "2022-05-02"])
  /\ exists l1 l2,
       listed_names (top_listing "Linux" remote_first_unmatched "/ngdc")
       = l1 ++ "README" :: l2
       /\ ("README" ∉ l1) /\ ["2022-05-01"; "2022-05-02"] = l1 ++ l2.
Proof.
  split; [reflexivity|].
  exact (proj2 (proj2 (proj2
    (top_listing_outcomes no_render "Linux" remote_first_unmatched iso_date
       sample_metadata accept_all "22" "r2r@sftp" "/ngdc" [] []))
    ["2022-05-01"; "2022-05-02"] eq_refl)).
Defined.

(** ** What Discovery hands back *)

Section Inventory.

Variable platform_system : string.
Variable sftp_ls : bool -> string -> process.
Variable strptime : string -> option (Z * Z * Z).
Variable file_path : string.

Local Abbreviation compare_dates :=
  (Pull.compare_dates platform_system sftp_ls strptime).
Local Abbreviation dir_of := (Pull.date_dir_of platform_system file_path).
Local Abbreviation found_in :=
  (listing_candidates platform_system sftp_ls file_path).

Lemma dict_set_elem {V} k (v : V) d kv :
  kv ∈ dict_set k v d -> kv = (k, v) \/ kv ∈ d.
Proof.
  induction d as [|[k' v'] d IH]; simpl.
  - intros ->%list_elem_of_singleton. by left.
  - destruct (String.eqb k k').
    + intros [-> | H]%elem_of_cons; [by left | right; by right].
    + intros [-> | H]%elem_of_cons; [right; left|].
      destruct (IH H) as [-> | H']; [by left | right; by right].
Qed.

Lemma dict_set_keys {V} k (v : V) d :
  fst <$> dict_set k v d
  = if bool_decide (k ∈ fst <$> d) then fst <$> d else (fst <$> d) ++ [k].
Proof.
  induction d as [|[k' v'] d IH]; [done|].
  cbn [dict_set]. rewrite fmap_cons. cbn [fst].
  destruct (String.eqb k k') eqn:Hk.
  - apply String.eqb_eq in Hk as <-. rewrite fmap_cons. cbn [fst].
    rewrite bool_decide_eq_true_2; [done | left].
  - apply String.eqb_neq in Hk. rewrite fmap_cons. cbn [fst]. rewrite IH.
    destruct (bool_decide (k ∈ fst <$> d)) eqn:Hin.
    + apply bool_decide_eq_true in Hin.
      rewrite bool_decide_eq_true_2; [done | by right].
    + apply bool_decide_eq_false in Hin.
      rewrite bool_decide_eq_false_2; [done|].
      intros [H | H]%elem_of_cons; done.
Qed.

Lemma dict_set_NoDup {V} k (v : V) d :
  NoDup (fst <$> d) -> NoDup (fst <$> dict_set k v d).
Proof.
  intros Hd. rewrite dict_set_keys. case_bool_decide as Hin; [done|].
  apply NoDup_app. split; [done|]. split; [|apply NoDup_singleton].
  intros x Hx ->%list_elem_of_singleton. done.
Qed.

Lemma dict_set_length {V} k (v : V) d :
  (List.length (dict_set k v d) <= S (List.length d))%nat.
Proof.
  rewrite <- (length_fmap fst (dict_set k v d)), dict_set_keys.
  case_bool_decide; rewrite ?length_app, !length_fmap; simpl; lia.
Qed.

Lemma compare_dates_entries all known date_list st d st' :
  (forall date, date ∈ date_list -> date ∈ all) ->
  compare_dates date_list file_path known st = Ok (Pull.InvDict d, st') ->
  NoDup (fst <$> Pull.date_dir_inventory st) ->
  Forall (entry_ok platform_system sftp_ls strptime file_path all known)
    (Pull.date_dir_inventory st) ->
  Z.of_nat (List.length (Pull.date_dir_inventory st))
  <= Pull.new_dir_count st ->
  Forall (listing_ok platform_system strptime file_path all known)
    (Pull.listed st) ->
  NoDup (fst <$> d)
  /\ Forall (entry_ok platform_system sftp_ls strptime file_path all known) d
  /\ Z.of_nat (List.length d) <= Pull.new_dir_count st'
  /\ Forall (listing_ok platform_system strptime file_path all known)
       (Pull.listed st').
Proof.
  revert st. induction date_list as [|date rest IH]; intros st Hall; simpl.
  - intros [= <- <-]. auto.
  - assert (forall date', date' ∈ rest -> date' ∈ all) as Hrest
      by (intros date' H; apply Hall; by right).
    case_bool_decide as Hknown; [by apply IH|].
    destruct (strptime date) as [dt|] eqn:Hdt; [|done].
    destruct (Pull.after_cutoff dt) eqn:Hcut; [|by apply IH].
    assert (listing_ok platform_system strptime file_path all known
             (dir_of date)) as Hdir.
    { exists date. split; [apply Hall; left|]. split; [done|].
      split; [by exists dt | done]. }
    destruct (negb (returncode _ =? 0)).
    + destruct (contains "matched no objects" _); [done|].
      intros Hrun Hnd Hent Hcount Hlisted.
      apply IH in Hrun; simpl; try done.
      apply Forall_app. split; [done | by constructor].
    + destruct (0 <? _)%nat.
      * pose proof (parse_entries_found platform_system sftp_ls file_path
                      date (Pull.errors_of st)) as Hfound.
        destruct (Pull.parse_entries _ _ _ _) as [found errors].
        simpl in Hfound. subst found.
        intros Hrun Hnd Hent Hcount Hlisted.
        apply IH in Hrun; simpl; try done.
        -- by apply dict_set_NoDup.
        -- apply Forall_forall. intros kv [-> | Hkv]%dict_set_elem.
           ++ split; [apply Hall; left|]. split; [done|].
              split; [by exists dt | done].
           ++ rewrite Forall_forall in Hent. by apply Hent.
        -- pose proof (dict_set_length date (found_in date)
                         (Pull.date_dir_inventory st)). lia.
        -- apply Forall_app. split; [done | by constructor].
      * intros Hrun Hnd Hent Hcount Hlisted.
        apply IH in Hrun; simpl; try done.
        apply Forall_app. split; [done | by constructor].
Qed.

(** X6. The inventory [check_date_dirs] hands back has one entry per date,
    and only for dates of [date_list] that the store does not know, that
    parse and that lie after 2021-01-01; an entry holds the candidates of
    that date's listing. A listing is requested for such dates only, and
    [new_dir_count] is at least the number of entries. *)
Theorem inventory_entries (date_list : list string)
    (rows : list PackageRecord) (errors : list err)
    (d : list (string * list Pull.candidate)) (st : Pull.discovery) :
  Pull.check_date_dirs platform_system sftp_ls strptime
    (Pull.DatesList date_list) file_path (DbRows rows) errors
  = Ok (Pull.InvDict d, st) ->
  NoDup (fst <$> d)
  /\ (forall date cands,
        (date, cands) ∈ d ->
        date ∈ date_list /\ ~ date_known rows date
        /\ worth_listing strptime date /\ cands = found_in date)
  /\ Z.of_nat (List.length d) <= Pull.new_dir_count st
  /\ (forall x, x ∈ Pull.listed st ->
        exists date,
          date ∈ date_list /\ ~ date_known rows date
          /\ worth_listing strptime date /\ x = dir_of date).
Proof.
  unfold Pull.check_date_dirs. simpl. intros Hrun.
  assert (forall date, date ∉ Pull.distinct_dates rows [] ->
            ~ date_known rows date) as Hknown.
  { intros date Hnot Hk. apply Hnot. apply distinct_dates_elem. by right. }
  apply (compare_dates_entries date_list) in Hrun;
    [ | done | apply NoDup_nil_2 | apply Forall_nil_2 | simpl; lia
      | apply Forall_nil_2 ].
  destruct Hrun as (Hnd & Hent & Hcount & Hlisted).
  split; [done|]. split; [|split; [done|]].
  - intros date cands Hin. rewrite Forall_forall in Hent.
    destruct (Hent _ Hin) as (H1 & H2 & H3 & H4). simpl in *. auto.
  - intros x Hx. rewrite Forall_forall in Hlisted.
    destruct (Hlisted _ Hx) as (date & H1 & H2 & H3 & H4).
    exists date. auto.
Qed.

(** How a pass over [date_list] can end. *)
Lemma compare_dates_ends known date_list st :
  match compare_dates date_list file_path known st with
  | Raise e =>
      e = ValueError
      /\ exists date,
           date ∈ date_list /\ (date ∉ known) /\ strptime date = None
  | Ok (Pull.InvZero, _) =>
      exists date,
        date ∈ date_list /\ (date ∉ known)
        /\ worth_listing strptime date
        /\ unmatched platform_system sftp_ls file_path date
  | Ok (Pull.InvDict _, _) => True
  end.
Proof.
  revert st. induction date_list as [|date rest IH]; intros st; simpl;
    [done|].
  assert (forall st',
            match compare_dates rest file_path known st' with
            | Raise e =>
                e = ValueError
                /\ exists date',
                     date' ∈ date :: rest /\ (date' ∉ known)
                     /\ strptime date' = None
            | Ok (Pull.InvZero, _) =>
                exists date',
                  date' ∈ date :: rest /\ (date' ∉ known)
                  /\ worth_listing strptime date'
                  /\ unmatched platform_system sftp_ls file_path date'
            | Ok (Pull.InvDict _, _) => True
            end) as Hrest.
  { intros st'. specialize (IH st').
    destruct (compare_dates rest file_path known st') as [[[|] ?]|e].
    - done.
    - destruct IH as (date' & H1 & H2). exists date'. split; [by right|done].
    - destruct IH as (-> & date' & H1 & H2). split; [done|].
      exists date'. split; [by right|done]. }
  case_bool_decide as Hknown; [apply Hrest|].
  destruct (strptime date) as [dt|] eqn:Hdt.
  2:{ split; [done|]. exists date. split; [left|done]. }
  destruct (Pull.after_cutoff dt) eqn:Hcut; [|apply Hrest].
  destruct (negb (returncode _ =? 0)) eqn:Hrc.
  - destruct (contains "matched no objects" _) eqn:Hmsg; [|apply Hrest].
    exists date. split; [left|]. split; [done|].
    split; [by exists dt|]. split; [|done].
    apply negb_true_iff, Z.eqb_neq in Hrc. done.
  - destruct (0 <? _)%nat; [|apply Hrest].
    destruct (Pull.parse_entries _ _ _ _). apply Hrest.
Qed.

Lemma compare_dates_returns known date_list st :
  (forall date, date ∈ date_list -> date ∉ known ->
     exists dt, strptime date = Some dt
                /\ (Pull.after_cutoff dt = true ->
                    ~ unmatched platform_system sftp_ls file_path date)) ->
  exists d st',
    compare_dates date_list file_path known st = Ok (Pull.InvDict d, st').
Proof.
  intros Hfine.
  pose proof (compare_dates_ends known date_list st) as Hend.
  destruct (compare_dates date_list file_path known st) as [[[d|] st']|e].
  - eauto.
  - destruct Hend as (date & Hin & Hnew & (dt & Hdt & Hcut) & Hno).
    destruct (Hfine date Hin Hnew) as (dt' & Hdt' & Hok).
    exfalso. apply Hok; [congruence | done].
  - destruct Hend as (_ & date & Hin & Hnew & Hnone).
    destruct (Hfine date Hin Hnew) as (dt' & Hdt' & _). congruence.
Qed.

(** X7. How [check_date_dirs] can end on a readable store. It raises only
    [ValueError], and only when [date_list] holds an unknown date that does
    not parse; it hands back 0 only when the listing of an unknown date
    after the cutoff "matched no objects"; and when neither can happen it
    hands back an inventory. *)
Theorem discovery_ends (date_list : list string)
    (rows : list PackageRecord) (errors : list err) :
  let run :=
    Pull.check_date_dirs platform_system sftp_ls strptime
      (Pull.DatesList date_list) file_path (DbRows rows) errors in
  (forall e, run = Raise e ->
     e = ValueError
     /\ exists date,
          date ∈ date_list /\ ~ date_known rows date
          /\ strptime date = None)
  /\ (forall st, run = Ok (Pull.InvZero, st) ->
        exists date,
          date ∈ date_list /\ ~ date_known rows date
          /\ worth_listing strptime date
          /\ unmatched platform_system sftp_ls file_path date)
  /\ ((forall date, date ∈ date_list -> ~ date_known rows date ->
         exists dt, strptime date = Some dt
                    /\ (Pull.after_cutoff dt = true ->
                        ~ unmatched platform_system sftp_ls file_path date)) ->
      exists d st, run = Ok (Pull.InvDict d, st)).
Proof.
  unfold Pull.check_date_dirs. simpl.
  assert (forall date, date ∉ Pull.distinct_dates rows [] <->
            ~ date_known rows date) as Hknown.
  { intros date. rewrite distinct_dates_elem. split.
    - intros Hnot Hk. apply Hnot. by right.
    - intros Hnot [H | H]; [by apply elem_of_nil in H | done]. }
  match goal with
  | |- context [compare_dates date_list file_path ?k ?s] =>
      pose proof (compare_dates_ends k date_list s) as Hend
  end.
  split; [|split].
  - intros e He. rewrite He in Hend.
    destruct Hend as (-> & date & H1 & H2 & H3).
    split; [done|]. exists date. split; [done|]. split; [by apply Hknown|done].
  - intros st Hst. rewrite Hst in Hend.
    destruct Hend as (date & H1 & H2 & H3 & H4).
    exists date. split; [done|]. split; [by apply Hknown|done].
  - intros Hfine. apply compare_dates_returns.
    intros date Hin Hnew. apply Hfine; [done | by apply Hknown].
Qed.

End Inventory.

Lemma inventory_entries_witness :
  NoDup (fst <$> [("2022-05-02", [sample_candidate])])
  /\ Pull.check_date_dirs "Linux" remote_first_refused iso_date
       (Pull.DatesList ["2022-05-01"; "2022-05-02"]) "/ngdc" (DbRows []) []
     = Ok (Pull.InvDict [("2022-05-02", [sample_candidate])],
           {| Pull.date_dir_inventory := [("2022-05-02", [sample_candidate])];
              Pull.new_dir_count := 1;
              Pull.errors_of := [EMsg "Error in  /ngdc"];
              Pull.listed := ["/ngdc/2022-05-01"; "/ngdc/2022-05-02"] |}).
Proof.
  assert (Pull.check_date_dirs "Linux" remote_first_refused iso_date
            (Pull.DatesList ["2022-05-01"; "2022-05-02"]) "/ngdc"
            (DbRows []) []
          = Ok (Pull.InvDict [("2022-05-02", [sample_candidate])],
                {| Pull.date_dir_inventory :=
                     [("2022-05-02", [sample_candidate])];
                   Pull.new_dir_count := 1;
                   Pull.errors_of := [EMsg "Error in  /ngdc"];
                   Pull.listed := ["/ngdc/2022-05-01"; "/ngdc/2022-05-02"] |}))
    as Hrun by reflexivity.
  split; [|exact Hrun].
  exact (proj1 (inventory_entries "Linux" remote_first_refused iso_date
                  "/ngdc" _ _ _ _ _ Hrun)).
Defined.

Lemma discovery_ends_witness :
  exists d st,
    Pull.check_date_dirs "Linux" remote_first_refused iso_date
      (Pull.DatesList ["2022-05-01"; "2022-05-02"]) "/ngdc" (DbRows []) []
    = Ok (Pull.InvDict d, st).
Proof.
  apply (proj2 (proj2
    (discovery_ends "Linux" remote_first_refused iso_date "/ngdc"
       ["2022-05-01"; "2022-05-02"] [] []))).
  intros date Hin _.
  repeat (apply elem_of_cons in Hin as [-> | Hin]).
  - exists (2022, 5, 1). split; [reflexivity|]. intros _ [_ H]. discriminate H.
  - exists (2022, 5, 2). split; [reflexivity|]. intros _ [H _]. by apply H.
  - by apply elem_of_nil in Hin.
Defined.

(** ** What the selection hands to the transfer *)

Lemma mapM_elem_inv {A B} (f : A -> result B) l ys y :
  mapM f l = Ok ys -> y ∈ ys -> exists x, x ∈ l /\ f x = Ok y.
Proof.
  revert ys. induction l as [|x l IH]; intros ys; simpl.
  - intros [= <-] H. by apply elem_of_nil in H.
  - destruct (f x) as [y'|] eqn:Hx; [|done].
    destruct (mapM f l) as [ys'|]; [|done].
    intros [= <-] [-> | Hin]%elem_of_cons.
    + exists x. split; [left | done].
    + destruct (IH ys' eq_refl Hin) as (x' & Hx' & Hf).
      exists x'. split; [by right | done].
Qed.

Lemma mapM_length {A B} (f : A -> result B) l ys :
  mapM f l = Ok ys -> List.length ys = List.length l.
Proof.
  revert ys. induction l as [|x l IH]; intros ys; simpl.
  - by intros [= <-].
  - destruct (f x); [|done]. destruct (mapM f l) as [ys'|]; [|done].
    intros [= <-]. simpl. by rewrite (IH ys').
Qed.

Lemma dict_get_elem {V} k (d : list (string * V)) v :
  dict_get k d = Some v -> (k, v) ∈ d.
Proof.
  induction d as [|[k' v'] d IH]; simpl; [done|].
  destruct (String.eqb k k') eqn:Hk.
  - apply String.eqb_eq in Hk as <-. intros [= <-]. left.
  - intros H. right. by apply IH.
Qed.

Lemma included_from_elem B c results e :
  e ∈ included_from B c results -> e ∈ results.
Proof.
  revert c. induction results as [|x rest IH]; intros c; simpl; [done|].
  destruct (c <? B).
  - intros [-> | H]%elem_of_cons; [left | right; by eapply IH].
  - intros H. right. by eapply IH.
Qed.

Lemma stored_entries inc d kv :
  kv ∈ fold_left store_entry inc d ->
  kv ∈ d
  \/ exists e,
       e ∈ inc
       /\ kv = (Pull.package_id e,
                (HUMAN_READABLE e, PACKAGE_PATH e, SIZE_BYTES e)).
Proof.
  revert d. induction inc as [|e inc IH]; intros d; simpl; [by left|].
  intros H. apply IH in H as [H | (e' & He' & ->)].
  - unfold store_entry in H. apply dict_set_elem in H as [-> | H].
    + right. exists e. split; [left | done].
    + by left.
  - right. exists e'. split; [by right | done].
Qed.

Section Download.

Variable float_render : Z -> result string.

(** X8. A download list handed back by [query_sqlite] is not empty, is no
    longer than the displayed list, and names only paths of rows of the
    store that are not yet pulled, whose data type matches the one asked
    for, and that the planner's loop included under the budget. *)
Theorem download_list_is_pending (rows : list PackageRecord)
    (data_type : option string) (free_space : Z) (choices : string)
    (download_list : list string) :
  Pull.query_sqlite float_render (DbRows rows) data_type free_space choices
  = Ok (Some download_list) ->
  let results := List.filter (Pull.pending_like data_type) rows in
  download_list <> []
  /\ (List.length download_list
      <= List.length (snd (Pull.accumulate free_space results)))%nat
  /\ forall path,
       path ∈ download_list ->
       exists r d,
         r ∈ rows /\ PACKAGE_PATH r = path /\ BEEN_PULLED r = Pending
         /\ data_type = Some d
         /\ sql_like d (data_type_str (DATA_TYPE r)) = true
         /\ r ∈ included free_space results.
Proof.
  intros Hrun results. unfold Pull.query_sqlite in Hrun.
  cbn [database_connect fetchall Py.bind] in Hrun. fold results in Hrun.
  unfold Pull.accumulate in *. rewrite accumulate_from in *.
  cbn [snd] in *. fold (included free_space results) in *.
  set (package_dict := fold_left store_entry (included free_space results) [])
    in *.
  destruct (0 <? List.length package_dict)%nat; [|done].
  unfold Pull.choose in Hrun.
  destruct (Pull.parse_choices _ _) as [choice_numbers|]; [simpl in Hrun|done].
  destruct (negb _); [done|].
  destruct (mapM _ (merge_sort _ _)) as [selected|] eqn:Hsel;
    [simpl in Hrun|done].
  destruct (mapM (Pull.package_lookup package_dict) selected)
    as [entries|] eqn:Hent; [simpl in Hrun|done].
  destruct (convert_size _ _); [simpl in Hrun|done].
  destruct (0 <? List.length _)%nat eqn:Hlen; [|done].
  injection Hrun as <-.
  split; [|split].
  - intros Hnil. rewrite Hnil in Hlen. done.
  - rewrite length_fmap, (mapM_length _ _ _ Hent), (mapM_length _ _ _ Hsel).
    rewrite merge_sort_Permutation.
    pose proof (filter_length_le (Pull.in_range (List.length package_dict))
                  (elements choice_numbers)) as Hle.
    transitivity
      (List.length
         (List.filter (Pull.in_range (List.length package_dict))
            (Z.of_nat <$> seq 1 (List.length package_dict)))).
    2:{ etransitivity; [apply filter_length_le|].
        by rewrite length_fmap, length_seq. }
    apply NoDup_incl_length.
    + apply List.NoDup_filter, (proj1 (NoDup_ListNoDup _)), NoDup_elements.
    + intros z Hz. apply filter_In in Hz as [_ Hz].
      apply filter_In. split; [|done].
      unfold Pull.in_range in Hz. apply andb_true_iff in Hz as [H1 H2].
      apply Z.leb_le in H1, H2.
      apply list_elem_of_In, list_elem_of_fmap.
      exists (Z.to_nat z). split; [lia|]. apply elem_of_seq. lia.
  - intros path (entry & -> & Hin)%list_elem_of_fmap.
    destruct (mapM_elem_inv _ _ _ _ Hent Hin) as (pkg & _ & Hpkg).
    unfold Pull.package_lookup in Hpkg.
    destruct (dict_get pkg package_dict) as [entry'|] eqn:Hget; [|done].
    injection Hpkg as ->.
    apply dict_get_elem, stored_entries in Hget
      as [Hnil | (e & He & [= -> ->])]; [by apply elem_of_nil in Hnil|].
    pose proof He as Hres. apply included_from_elem in Hres.
    apply list_elem_of_In, filter_In in Hres as [Hrow Hlike].
    unfold Pull.pending_like in Hlike.
    apply andb_true_iff in Hlike as [Hpend Hlike].
    apply bool_decide_eq_true in Hpend.
    destruct data_type as [d|]; [|done].
    exists e, d. simpl. by rewrite list_elem_of_In.
Qed.

End Download.

Lemma download_list_is_pending_witness :
  ["/ngdc/2022-05-02/AR01_11111_a.tar"; "/ngdc/2022-05-02/AR03_33333_c.tar"]
  <> []
  /\ Pull.query_sqlite no_render (DbRows sample_rows) (Some "Multibeam")
       10000000000 "3,1"
     = Ok (Some ["/ngdc/2022-05-02/AR01_11111_a.tar";
                 "/ngdc/2022-05-02/AR03_33333_c.tar"]).
Proof.
  assert (Pull.query_sqlite no_render (DbRows sample_rows) (Some "Multibeam")
            10000000000 "3,1"
          = Ok (Some ["/ngdc/2022-05-02/AR01_11111_a.tar";
                      "/ngdc/2022-05-02/AR03_33333_c.tar"])) as Hrun
    by (vm_compute; reflexivity).
  split; [|exact Hrun].
  exact (proj1 (download_list_is_pending no_render _ _ _ _ _ Hrun)).
Defined.

(** ** The type prompt *)

Lemma pending_like_name t r :
  Pull.pending_like (Some (data_type_str t)) r = true
  <-> BEEN_PULLED r = Pending /\ DATA_TYPE r = t.
Proof.
  unfold Pull.pending_like. rewrite andb_true_iff, bool_decide_eq_true.
  split; intros [Hp Ht]; (split; [done|]).
  - by destruct t, (DATA_TYPE r).
  - subst t. by destruct (DATA_TYPE r).
Qed.

(** X9. Whenever [get_data_type] hands back a name, the space flag was
    [True], the name is exactly that of one of the three data types (the
    empty answer, 0 and 1 stand for WCSD, 2 for Multibeam, 3 for
    Trackline), and the [LIKE] filter of [query_sqlite] then picks exactly
    the rows of that type that are not yet pulled; no error is added. *)
Theorem type_answer_selects (free_space : bool) (input : string)
    (errors : list err) (d : string) :
  fst (Pull.get_data_type free_space input errors) = Some d ->
  free_space = true
  /\ snd (Pull.get_data_type free_space input errors) = errors
  /\ exists t,
       d = data_type_str t /\ answer_names input t
       /\ forall r,
            Pull.pending_like (Some d) r = true
            <-> BEEN_PULLED r = Pending /\ DATA_TYPE r = t.
Proof.
  unfold Pull.get_data_type. destruct free_space; [|done].
  destruct (String.eqb input "") eqn:Hempty.
  { apply String.eqb_eq in Hempty. intros [= <-]. split; [done|].
    split; [done|]. exists WCSD. split; [done|]. split; [by left|].
    apply (pending_like_name WCSD). }
  destruct (int input) as [choice|] eqn:Hint; [|done].
  destruct ((choice =? 1) || (choice =? 0)) eqn:H10.
  { intros [= <-]. split; [done|]. split; [done|]. exists WCSD.
    split; [done|]. split; [|apply (pending_like_name WCSD)].
    apply orb_true_iff in H10 as [->%Z.eqb_eq | ->%Z.eqb_eq]; simpl; auto. }
  destruct (choice =? 2) eqn:H2.
  { apply Z.eqb_eq in H2 as ->. intros [= <-]. split; [done|].
    split; [done|]. exists Multibeam. split; [done|]. split; [done|].
    apply (pending_like_name Multibeam). }
  destruct (choice =? 3) eqn:H3; [|done].
  apply Z.eqb_eq in H3 as ->. intros [= <-]. split; [done|].
  split; [done|]. exists Trackline. split; [done|]. split; [done|].
  apply (pending_like_name Trackline).
Qed.

Lemma type_answer_selects_witness :
  exists t,
    "Multibeam" = data_type_str t /\ answer_names " 2 " t
    /\ forall r,
         Pull.pending_like (Some "Multibeam") r = true
         <-> BEEN_PULLED r = Pending /\ DATA_TYPE r = t.
Proof.
  exact (proj2 (proj2 (type_answer_selects true " 2 " [] "Multibeam"
                         eq_refl))).
Defined.

(** ** The prompts and the copy, end to end *)

Section PullStage.

Variable float_render : Z -> result string.
Variable platform_system : string.
Variable sftp_get : bool -> string -> string -> string -> result process.
Variable ls_landing : string -> string -> process.
Variable df : string -> Z -> process.

Local Abbreviation space_probe :=
  (Pull.landing_space_bytes float_render df "<NCEI Landing Space>" 1024).
Local Abbreviation pull_stage :=
  (Pull.pull float_render platform_system sftp_get ls_landing df).
Local Abbreviation copied :=
  (after_copy platform_system sftp_get ls_landing "<NCEI Landing Space>").

Lemma get_data_type_fst flag input errors1 errors2 :
  fst (Pull.get_data_type flag input errors1)
  = fst (Pull.get_data_type flag input errors2).
Proof. unfold Pull.get_data_type. repeat case_match; done. Qed.

Lemma space_flag_room minimum path errors free_space flag :
  fst (Pull.landing_space_bytes float_render df path minimum errors)
  = Pull.SpaceTuple free_space flag ->
  flag = true /\ 0 <= free_space.
Proof.
  unfold Pull.landing_space_bytes. cbv zeta.
  destruct (negb _); [done|].
  destruct (search_digits _); [simpl|done].
  destruct (int _) as [space|]; [simpl|done].
  destruct (convert_size _ _) eqn:Hsize; [simpl|done].
  destruct (_ <=? space) eqn:Hle.
  - apply Z.leb_le in Hle. intros [= <- <-]. split; [done | lia].
  - apply Z.leb_gt in Hle. rewrite convert_size_negative in Hsize by lia.
    done.
Qed.

Lemma nothing_like_null rows :
  List.filter (Pull.pending_like None) rows = [].
Proof.
  induction rows as [|r rows IH]; simpl; [done|].
  unfold Pull.pending_like at 1. by rewrite andb_false_r.
Qed.

Lemma query_returns_some sqlite_file data_type free_space choices
    download_list :
  Pull.query_sqlite float_render sqlite_file data_type free_space choices
  = Ok (Some download_list) ->
  download_list <> [].
Proof.
  unfold Pull.query_sqlite.
  destruct (database_connect _); [simpl|done].
  destruct (fetchall _); [simpl|done].
  destruct (0 <? _)%nat; [|done].
  destruct (Pull.choose _ _ _) as [[l|]|]; simpl; [|done|done].
  destruct (0 <? List.length l)%nat eqn:Hlen; [|done].
  intros [= <-] ->. done.
Qed.

(** X10. The prompts-and-copy stage of the pull script ends without an
    exception only when the space probe handed back a pair with a true
    flag and room left over the cushion, the type answer named a data
    type, the store was readable and [query_sqlite] handed back a
    non-empty download list; the store it leaves is then the one
    [copy_packages] makes of that list and its manifests. A type answer
    that names no data type makes the stage end in [TypeError] on every
    readable store. *)
Theorem pull_stage_ends :
  (forall type_answer choices sqlite_file errors out,
     pull_stage type_answer choices sqlite_file errors = Ok out ->
     exists free_space d rows download_list,
       fst (space_probe errors) = Pull.SpaceTuple free_space true
       /\ 0 <= free_space
       /\ fst (Pull.get_data_type true type_answer errors) = Some d
       /\ sqlite_file = DbRows rows
       /\ Pull.query_sqlite float_render sqlite_file (Some d) free_space
            choices
          = Ok (Some download_list)
       /\ download_list <> []
       /\ fst out
          = DbRows
              (copied (download_list ++ (Pull.manifest_of <$> download_list))
               <$> rows))
  /\ (forall type_answer choices rows errors,
        fst (Pull.get_data_type true type_answer errors) = None ->
        pull_stage type_answer choices (DbRows rows) errors
        = Raise TypeError).
Proof.
  split.
  - intros type_answer choices sqlite_file errors out. unfold Pull.pull.
    pose proof (space_flag_room 1024 "<NCEI Landing Space>" errors) as Hroom.
    destruct (space_probe errors) as [[|free_space flag] errors1];
      [done|]. simpl in Hroom.
    destruct (Hroom free_space flag eq_refl) as [-> Hfree].
    cbn [Py.bind Pull.space_index1 Pull.space_index0].
    pose proof (get_data_type_fst true type_answer errors1 errors) as Hfst.
    destruct (Pull.get_data_type true type_answer errors1)
      as [data_type_input errors2]. cbn [fst] in Hfst.
    cbn [Py.bind Pull.space_index1 Pull.space_index0].
    destruct (Pull.query_sqlite float_render sqlite_file data_type_input
                free_space choices) as [[download_list|]|]
      eqn:Hquery; [simpl | done | done].
    intros Hcopy.
    destruct sqlite_file as [| |rows].
    + done.
    + done.
    + destruct data_type_input as [d|].
      2:{ unfold Pull.query_sqlite in Hquery. simpl in Hquery.
          rewrite nothing_like_null in Hquery. done. }
      exists free_space, d, rows, download_list.
      split; [done|]. split; [done|]. split; [done|]. split; [done|].
      split; [done|]. split.
      * by eapply query_returns_some.
      * unfold Pull.copy_packages in Hcopy. simpl in Hcopy.
        destruct (copy_paths_rows platform_system sftp_get ls_landing
                    (download_list ++ (Pull.manifest_of <$> download_list))
                    "<NCEI Landing Space>" rows errors2) as [errors' Heq].
        rewrite Heq in Hcopy. by injection Hcopy as <-.
  - intros type_answer choices rows errors Hnone. unfold Pull.pull.
    destruct (space_probe errors) as [[|free_space flag] errors1];
      [done|]. cbn [Py.bind Pull.space_index1 Pull.space_index0].
    assert (fst (Pull.get_data_type flag type_answer errors1) = None)
      as Hinput.
    { destruct flag; [|done].
      by rewrite (get_data_type_fst true type_answer errors1 errors). }
    destruct (Pull.get_data_type flag type_answer errors1)
      as [data_type_input errors2]. simpl in Hinput. subst data_type_input.
    simpl. unfold Pull.query_sqlite. simpl.
    by rewrite nothing_like_null.
Qed.

End PullStage.

Lemma pull_stage_ends_witness :
  (exists out free_space,
     Pull.pull no_render "Linux" sample_get sample_ls_landing roomy_df
       "2" "1" (DbRows sample_rows) []
     = Ok out
     /\ fst (Pull.landing_space_bytes no_render roomy_df
               "<NCEI Landing Space>" 1024 [])
        = Pull.SpaceTuple free_space true
     /\ 0 <= free_space)
  /\ Pull.pull no_render "Linux" sample_get sample_ls_landing roomy_df
       "7" "1" (DbRows sample_rows) []
     = Raise TypeError.
Proof.
  split.
  - assert (Pull.pull no_render "Linux" sample_get sample_ls_landing roomy_df
              "2" "1" (DbRows sample_rows) []
            = Ok (DbRows
                    [set_pulled (sample_row "11111" "AR01"
                                   "/ngdc/2022-05-02/AR01_11111_a.tar");
                     sample_row "22222" "AR02"
                       "/ngdc/2022-05-02/AR02_22222_b.tar";
                     sample_row "33333" "AR03"
                       "/ngdc/2022-05-02/AR03_33333_c.tar"],
                  [])) as Hrun by (vm_compute; reflexivity).
    destruct (proj1 (pull_stage_ends no_render "Linux" sample_get
                       sample_ls_landing roomy_df) _ _ _ _ _ Hrun)
      as (free_space & d & rows & download_list & Hspace & Hfree & _).
    eexists _, free_space. split; [exact Hrun|]. split; [exact Hspace|].
    exact Hfree.
  - apply (proj2 (pull_stage_ends no_render "Linux" sample_get
                    sample_ls_landing roomy_df)).
    reflexivity.
Defined.

(** ** The errors the transfer leaves *)

Section TransferErrors.

Variable platform_system : string.
Variable sftp_get : bool -> string -> string -> string -> result process.
Variable ls_landing : string -> string -> process.

Local Abbreviation copy_paths :=
  (Pull.copy_paths platform_system sftp_get ls_landing).
Local Abbreviation has_landed :=
  (landed platform_system sftp_get ls_landing).

Lemma copy_paths_errors paths landing_path db errors :
  exists more,
    snd (copy_paths paths landing_path db errors) = errors ++ more
    /\ (List.length more <= List.length paths)%nat
    /\ (db = DbBroken ->
        fst (copy_paths paths landing_path db errors) = DbBroken)
    /\ ((exists rows, db = DbRows rows) ->
        Forall (fun path => has_landed landing_path path = true) paths ->
        more = []).
Proof.
  revert db errors. induction paths as [|path rest IH]; intros db errors.
  { exists []. simpl. by rewrite app_nil_r. }
  assert (forall e,
            exists more,
              snd (copy_paths rest landing_path db (errors ++ [e]))
              = errors ++ more
              /\ (List.length more <= S (List.length rest))%nat
              /\ (db = DbBroken ->
                  fst (copy_paths rest landing_path db (errors ++ [e]))
                  = DbBroken)) as Hfail.
  { intros e. destruct (IH db (errors ++ [e])) as (more & -> & Hlen & Hdb & _).
    exists (e :: more). rewrite <- app_assoc. simpl. split; [done|].
    split; [lia | done]. }
  assert (exists more,
            snd (copy_paths rest landing_path db errors) = errors ++ more
            /\ (List.length more <= S (List.length rest))%nat
            /\ (db = DbBroken ->
                fst (copy_paths rest landing_path db errors) = DbBroken))
    as Hskip.
  { destruct (IH db errors) as (more & -> & Hlen & Hdb & _).
    exists more. split; [done|]. split; [lia | done]. }
  assert (forall A (x y : A), has_landed landing_path path = false ->
            Forall (fun path => has_landed landing_path path = true)
              (path :: rest) -> x = y) as Hnot.
  { intros A x y Hno Hall. inversion Hall; congruence. }
  cbn [Pull.copy_paths length]. unfold landed in Hnot.
  destruct (path_split path) as [cd_path package].
  destruct (sftp_get _ cd_path package landing_path) as [process|e].
  2:{ destruct (Hfail (EExn e)) as (more & H1 & H2 & H3). exists more.
      split; [done|]. split; [done|]. split; [done|].
      intros _. by apply Hnot. }
  destruct (negb (String.eqb (stderr process) "") && _).
  { destruct (Hfail (ELines (removelast (split_on "010" (stderr process)))))
      as (more & H1 & H2 & H3). exists more.
    split; [done|]. split; [done|]. split; [done|].
    intros _. by apply Hnot. }
  destruct (returncode process =? 0).
  2:{ destruct Hskip as (more & H1 & H2 & H3). exists more.
      split; [done|]. split; [done|]. split; [done|].
      intros _. by apply Hnot. }
  destruct (bool_decide _).
  2:{ destruct Hskip as (more & H1 & H2 & H3). exists more.
      split; [done|]. split; [done|]. split; [done|].
      intros _. by apply Hnot. }
  destruct db as [| |rows]; cbn [update_been_pulled].
  - destruct (Hfail (EExn SqliteError)) as (more & H1 & H2 & H3).
    exists more. split; [done|]. split; [done|]. split; [done|].
    by intros [rows [=]].
  - destruct (Hfail (EExn SqliteError)) as (more & H1 & H2 & H3).
    exists more. split; [done|]. split; [done|]. split; [done|].
    by intros [rows [=]].
  - destruct (IH (DbRows (mark_pulled path <$> rows)) errors)
      as (more & H1 & H2 & _ & H4).
    exists more. split; [done|]. split; [lia|]. split; [done|].
    intros _ Hall. apply H4; [by eexists | by inversion Hall].
Qed.

(** X11. [copy_packages] keeps the errors it was handed and adds at most
    one for each requested path and manifest; on a readable store it adds
    none when every fetch reached its update, and a store whose statements
    fail is left as it was. *)
Theorem transfer_keeps_errors (dir_list : list string)
    (landing_path : string) (sqlite_file db' : db_file)
    (errors errors' : list err) :
  Pull.copy_packages platform_system sftp_get ls_landing (Some dir_list)
    landing_path sqlite_file errors
  = Ok (db', errors') ->
  exists more,
    errors' = errors ++ more
    /\ (List.length more <= 2 * List.length dir_list)%nat
    /\ (sqlite_file = DbBroken -> db' = DbBroken)
    /\ ((exists rows, sqlite_file = DbRows rows) ->
        Forall (fun path => has_landed landing_path path = true)
          (dir_list ++ (Pull.manifest_of <$> dir_list)) ->
        more = []).
Proof.
  unfold Pull.copy_packages.
  destruct (database_connect sqlite_file) as [db|] eqn:Hdb;
    [cbn [Py.bind] | done].
  assert (db = sqlite_file) as ->
    by (destruct sqlite_file; simpl in Hdb; congruence).
  destruct (copy_paths_errors (dir_list ++ (Pull.manifest_of <$> dir_list))
              landing_path sqlite_file errors) as (more & H1 & H2 & H3 & H4).
  intros [= Hrun]. rewrite Hrun in H1, H3. simpl in H1, H3.
  exists more. split; [done|]. split; [|done].
  rewrite length_app, length_fmap in H2. lia.
Qed.

End TransferErrors.

Lemma transfer_keeps_errors_witness :
  exists more,
    [EMsg "Error in  /ngdc"] = [EMsg "Error in  /ngdc"] ++ more
    /\ (List.length more
        <= 2 * List.length ["/ngdc/2022-05-02/AR01_11111_a.md5"])%nat
    /\ more = [].
Proof.
  assert (Pull.copy_packages "Linux" sample_get sample_ls_landing
            (Some ["/ngdc/2022-05-02/AR01_11111_a.md5"])
            "<NCEI Landing Space>" (DbRows sample_rows)
            [EMsg "Error in  /ngdc"]
          = Ok (DbRows sample_rows, [EMsg "Error in  /ngdc"])) as Hrun
    by (vm_compute; reflexivity).
  destruct (transfer_keeps_errors _ _ _ _ _ _ _ _ _ Hrun)
    as (more & H1 & H2 & _ & H4).
  exists more. split; [exact H1|]. split; [exact H2|].
  apply H4; [by eexists|]. repeat constructor.
Defined.

(** ** The commands of the sort loop *)

Section SortCommands.

Variable float_render : Z -> result string.
Variable run : Sort.command -> Z -> process.
Variable listdir : option string -> result (list string).

Local Abbreviation sort_one := (Sort.sort_one float_render run).
Local Abbreviation sort_each := (Sort.sort_each float_render run).
Local Abbreviation space_probe := (Sort.landing_space_bytes float_render run).

Lemma space_probe_cases path minimum w :
  fst (space_probe path minimum w) = Sort.SpaceFalse
  \/ exists free_space human_readable,
       space_probe path minimum w
       = (Sort.SpaceTuple free_space true human_readable,
          Sort.record_command (Sort.Df path) w).
Proof.
  unfold Sort.landing_space_bytes, Sort.call. cbv zeta.
  destruct (negb _); [by left|].
  destruct (search_digits _); [simpl|by left].
  destruct (int _) as [space|]; [simpl|by left].
  destruct (convert_size _ _) as [human_readable|] eqn:Hsize;
    [simpl|by left].
  destruct (_ <=? space) eqn:Hle; [right; eauto|].
  apply Z.leb_gt in Hle. rewrite convert_size_negative in Hsize by lia.
  done.
Qed.

Lemma sort_one_turn landing_path tarball w w' :
  sort_one landing_path tarball w = Ok w' ->
  exists tar added more,
    Sort.path_join landing_path tarball = Ok tar
    /\ Sort.commands w' = Sort.commands w ++ added
    /\ Sort.errors w' = Sort.errors w ++ more
    /\ turn_commands run tar added.
Proof.
  unfold Sort.sort_one.
  destruct (Sort.path_join landing_path tarball) as [tar|];
    [cbn [Py.bind] | done].
  destruct (Sort.unpack3 _) as [[survey r2r_id]|]; [cbn [Py.bind]|done].
  destruct (fetchall _); [cbn [Py.bind]|done].
  destruct (index_first _) as [first|]; [cbn [Py.bind]|done].
  intros Hrun. exists tar.
  assert (forall made w1 (more : list err),
            (made = [] \/ made = [Sort.Mkdir landing_zone]) ->
            Sort.commands w1 = Sort.commands w ++ made ->
            Sort.errors w1 = Sort.errors w ++ more ->
            forall untar : bool,
              (if untar then
                 let '(enough_space, w) := space_probe landing_zone 1024 w1 in
                 let! flag := Sort.space_index1 enough_space in
                 if flag then
                   let '(tar_run, w) :=
                     Sort.call run (Sort.Tar landing_zone tar) w in
                   if 0 <? returncode tar_run then Ok w
                   else
                     let '(rm, w) := Sort.call run (Sort.Rm tar) w in
                     let '(rm_md5, w) :=
                       Sort.call run (Sort.Rm (tar +:+ ".md5")) w in
                     Ok w
                 else Ok w
               else
                 let '(enough_space, w) := space_probe landing_zone 1024 w1 in
                 let! human_readable := Sort.space_index2 enough_space in
                 let! flag := Sort.space_index1 enough_space in
                 if flag then
                   let '(rsync, w) :=
                     Sort.call run (Sort.Rsync tar landing_zone) w in
                   if returncode rsync =? 0 then
                     let '(rm, w) := Sort.call run (Sort.Rm tar) w in
                     Ok w
                   else Ok w
                 else Ok w) = Ok w' ->
              exists added more',
                Sort.commands w' = Sort.commands w ++ added
                /\ Sort.errors w' = Sort.errors w ++ more'
                /\ turn_commands run tar added) as Hmove.
  { intros made w1 more Hmade Hcs Hes untar.
    destruct untar.
    - destruct (space_probe_cases landing_zone 1024 w1)
        as [Hno | (free_space & human_readable & ->)].
      { destruct (space_probe landing_zone 1024 w1) as [v w2].
        simpl in Hno. subst v. done. }
      cbn [Py.bind Sort.space_index1]. unfold Sort.call.
      destruct (0 <? returncode _) eqn:Hrc.
      + intros [= <-]. eexists _, more. simpl. rewrite Hcs, Hes.
        rewrite <- !app_assoc. split; [done|]. split; [done|].
        exists made. split; [done|]. right. left. split; [done|].
        by apply Z.ltb_lt in Hrc.
      + intros [= <-]. eexists _, more. simpl. rewrite Hcs, Hes.
        rewrite <- !app_assoc. split; [done|]. split; [done|].
        exists made. split; [done|]. right. right. left. split; [done|].
        by apply Z.ltb_ge in Hrc.
    - destruct (space_probe_cases landing_zone 1024 w1)
        as [Hno | (free_space & human_readable & ->)].
      { destruct (space_probe landing_zone 1024 w1) as [v w2].
        simpl in Hno. subst v. done. }
      cbn [Py.bind Sort.space_index1 Sort.space_index2]. unfold Sort.call.
      destruct (returncode _ =? 0) eqn:Hrc.
      + intros [= <-]. eexists _, more. simpl. rewrite Hcs, Hes.
        rewrite <- !app_assoc. split; [done|]. split; [done|].
        exists made. split; [done|]. do 4 right. split; [done|].
        by apply Z.eqb_eq in Hrc.
      + intros [= <-]. eexists _, more. simpl. rewrite Hcs, Hes.
        rewrite <- !app_assoc. split; [done|]. split; [done|].
        exists made. split; [done|]. do 3 right. left. split; [done|].
        by apply Z.eqb_neq in Hrc. }
  assert (forall guidance,
            Sort.find_guidance (DATA_TYPE first) (INSTRUMENT_TYPE first)
              (INSTRUMENT_NAME first) = Some guidance ->
            Sort.landing_directory guidance = landing_zone
            /\ Sort.space_check guidance = landing_zone) as Hzone.
  { intros guidance. unfold Sort.find_guidance.
    repeat case_match; intros [= <-]; done. }
  destruct (Sort.find_guidance _ _ _) as [guidance|].
  2:{ injection Hrun as <-. exists [], []. rewrite !app_nil_r.
      split; [done|]. split; [done|]. split; [done|].
      exists []. split; [by left | by left]. }
  destruct (Hzone guidance eq_refl) as [Hdir Hspace].
  destruct guidance as [untar dir check].
  cbn [Sort.landing_directory Sort.space_check Sort.untar] in *.
  subst dir check.
  destruct (DATA_TYPE first).
  - cbn [negb] in Hrun.
    destruct (Hmove [] w [] (or_introl eq_refl)
                ltac:(by rewrite app_nil_r) ltac:(by rewrite app_nil_r)
                untar Hrun) as (added & more & H).
    exists added, more. split; [done | exact H].
  - unfold Sort.call in Hrun at 1.
    destruct (returncode _ =? 0) in Hrun.
    + cbn [negb] in Hrun.
      destruct (Hmove [Sort.Mkdir landing_zone]
                  (Sort.record_command (Sort.Mkdir landing_zone) w) []
                  (or_intror eq_refl) eq_refl
                  ltac:(by rewrite app_nil_r)
                  untar Hrun) as (added & more & H).
      exists added, more. split; [done | exact H].
    + cbn [negb] in Hrun. injection Hrun as <-.
      eexists [Sort.Mkdir landing_zone], [_]. simpl.
      split; [done|]. split; [done|]. split; [done|].
      eexists. split; [by right | by left].
  - unfold Sort.call in Hrun at 1.
    destruct (returncode _ =? 0) in Hrun.
    + cbn [negb] in Hrun.
      destruct (Hmove [Sort.Mkdir landing_zone]
                  (Sort.record_command (Sort.Mkdir landing_zone) w) []
                  (or_intror eq_refl) eq_refl
                  ltac:(by rewrite app_nil_r)
                  untar Hrun) as (added & more & H).
      exists added, more. split; [done | exact H].
    + cbn [negb] in Hrun. injection Hrun as <-.
      eexists [Sort.Mkdir landing_zone], [_]. simpl.
      split; [done|]. split; [done|]. split; [done|].
      eexists. split; [by right | by left].
Qed.

Lemma earned_mono before before' p :
  (forall c, c ∈ before -> c ∈ before') ->
  earned run before p -> earned run before' p.
Proof.
  intros Hsub [(dir & Hin & Hrc) | (dir & tar & Hp & Hin & Hrc)].
  - left. exists dir. auto.
  - right. exists dir, tar. auto.
Qed.

Lemma removals_earned_mono before before' cs :
  (forall c, c ∈ before -> c ∈ before') ->
  removals_earned run before cs -> removals_earned run before' cs.
Proof.
  revert before before'.
  induction cs as [|c cs IH]; intros before before' Hsub; simpl; [done|].
  intros [Hc Hcs]. split.
  - destruct c; try done. by eapply earned_mono.
  - eapply IH; [|exact Hcs]. intros c'. rewrite !elem_of_app.
    intros [H | H]; auto.
Qed.

Lemma removals_earned_app before cs1 cs2 :
  removals_earned run before (cs1 ++ cs2)
  <-> removals_earned run before cs1
      /\ removals_earned run (before ++ cs1) cs2.
Proof.
  revert before. induction cs1 as [|c cs1 IH]; intros before; simpl.
  - rewrite app_nil_r. tauto.
  - rewrite IH, <- app_assoc. simpl. tauto.
Qed.

Lemma removals_earned_split cs before p after :
  removals_earned run [] cs ->
  cs = before ++ Sort.Rm p :: after ->
  earned run before p.
Proof.
  intros Hcs ->. apply removals_earned_app in Hcs as [_ Hcs].
  simpl in Hcs. tauto.
Qed.

Lemma turn_removals_earned tar added :
  turn_commands run tar added -> removals_earned run [] added.
Proof.
  intros (made & Hmade & Hadded).
  assert (removals_earned run [] made) as Hm
    by (destruct Hmade as [-> | ->]; simpl; tauto).
  destruct Hadded as [-> | [[-> Hrc] | [[-> Hrc] | [[-> Hrc] | [-> Hrc]]]]];
    [done | | | | ]; apply removals_earned_app; (split; [done|]);
    simpl; repeat split.
  - right. exists landing_zone, tar. split; [by left|].
    split; [|done]. rewrite !elem_of_app, !elem_of_cons. auto 10.
  - right. exists landing_zone, tar. split; [by right|].
    split; [|done]. rewrite !elem_of_app, !elem_of_cons. auto 10.
  - left. exists landing_zone. split; [|done].
    rewrite !elem_of_app, !elem_of_cons. auto 10.
Qed.

Lemma sort_each_removals landing_path tarballs w w' :
  sort_each landing_path tarballs w = Ok w' ->
  exists added more,
    Sort.commands w' = Sort.commands w ++ added
    /\ Sort.errors w' = Sort.errors w ++ more
    /\ removals_earned run [] added.
Proof.
  revert w. induction tarballs as [|tarball rest IH]; intros w; simpl.
  - intros [= <-]. exists [], []. by rewrite !app_nil_r.
  - destruct (sort_one landing_path tarball w) as [w1|] eqn:Hone;
      [cbn [Py.bind] | done].
    intros Hrest.
    apply sort_one_turn in Hone
      as (tar & added1 & more1 & _ & Hc1 & He1 & Hturn).
    apply IH in Hrest as (added2 & more2 & Hc2 & He2 & Hearned).
    exists (added1 ++ added2), (more1 ++ more2).
    rewrite Hc2, Hc1, He2, He1, !app_assoc.
    split; [done|]. split; [done|].
    apply removals_earned_app. split; [by eapply turn_removals_earned|].
    eapply removals_earned_mono; [|exact Hearned].
    intros c Hc. by apply elem_of_nil in Hc.
Qed.

(** X12. The sort loop removes an archive, or its manifest, only after it
    ran a copy of that archive that exited with 0 or an extraction of it
    that did not exit with a positive code. This holds of the commands of
    each turn of the loop and of the commands of a whole pass that ends;
    the pass keeps the errors recorded before it. *)
Theorem removals_follow_success :
  (forall landing_path tarball w w',
     sort_one landing_path tarball w = Ok w' ->
     exists added,
       Sort.commands w' = Sort.commands w ++ added
       /\ forall before p after,
            added = before ++ Sort.Rm p :: after -> earned run before p)
  /\ (forall landing_path valid w w',
        Sort.sort_landing_zone float_render run listdir landing_path valid w
        = Ok w' ->
        exists added more,
          Sort.commands w' = Sort.commands w ++ added
          /\ Sort.errors w' = Sort.errors w ++ more
          /\ forall before p after,
               added = before ++ Sort.Rm p :: after -> earned run before p).
Proof.
  split.
  - intros landing_path tarball w w' Hone.
    apply sort_one_turn in Hone
      as (tar & added & more & _ & Hc & _ & Hturn).
    exists added. split; [done|]. intros before p after.
    apply removals_earned_split. by eapply turn_removals_earned.
  - intros landing_path valid w w'. unfold Sort.sort_landing_zone.
    destruct (database_connect _); [cbn [Py.bind] | done].
    destruct valid.
    2:{ intros [= <-]. exists [], []. rewrite !app_nil_r.
        split; [done|]. split; [done|]. intros [|? ?] ? ? [=]. }
    destruct (listdir landing_path); [cbn [Py.bind] | done].
    intros (added & more & Hc & He & Hearned)%sort_each_removals.
    exists added, more. split; [done|]. split; [done|].
    intros before p after. by apply removals_earned_split.
Qed.

Lemma space_probe_fst path minimum w1 w2 :
  fst (space_probe path minimum w1) = fst (space_probe path minimum w2).
Proof.
  unfold Sort.landing_space_bytes, Sort.call. cbv zeta.
  repeat case_match; simplify_eq; done.
Qed.

(** X13. What can stop a turn of the sort loop. [sort_one] raises
    [TypeError] only when there is no landing path or the space probe of
    the landing zone hands back the bare [False]; [ValueError] only when
    the archive name does not split into three parts at its underscores;
    [sqlite3.Error] only on a store that cannot be read; and [IndexError]
    only when no row of the store has a fileset id like the second part
    of the name. The probe never hands back a false flag, so the
    branches that report too little space are never taken. *)
Theorem sort_turn_stops :
  (forall landing_path tarball w e,
     sort_one landing_path tarball w = Raise e ->
     (e = TypeError
      /\ (landing_path = None
          \/ space_refused float_render run landing_zone))
     \/ (e = ValueError
         /\ forall survey r2r_id rest,
              split_on "_" tarball <> [survey; r2r_id; rest])
     \/ (e = SqliteError /\ forall rows, Sort.db w <> DbRows rows)
     \/ (e = IndexError
         /\ exists rows survey r2r_id rest,
              Sort.db w = DbRows rows
              /\ split_on "_" tarball = [survey; r2r_id; rest]
              /\ Forall (fun r => sql_like r2r_id (FILESET_ID r) = false)
                   rows))
  /\ (forall path minimum w free_space human_readable,
        fst (space_probe path minimum w)
        <> Sort.SpaceTuple free_space false human_readable).
Proof.
  split.
  2:{ intros path minimum w free_space human_readable H.
      destruct (space_probe_cases path minimum w)
        as [Hno | (fs & hr & Heq)]; rewrite ?Heq in *; simpl in *;
        congruence. }
  intros landing_path tarball w e. unfold Sort.sort_one.
  destruct (Sort.path_join landing_path tarball) as [tar|e0] eqn:Hjoin;
    cbn [Py.bind].
  2:{ destruct landing_path as [a|];
        [unfold Sort.path_join in Hjoin; repeat case_match; done|].
      simpl in Hjoin. injection Hjoin as <-. intros [= <-]. left. auto. }
  destruct (split_on "_" tarball) as [|survey [|r2r_id [|rest [|]]]] eqn:Hsplit;
    cbn [Sort.unpack3 Py.bind];
    try (intros [= <-]; right; left; split; [done|]; by intros ? ? ? [=]).
  destruct (Sort.db w) as [| |rows] eqn:Hdb; cbn [fetchall Py.bind];
    try (intros [= <-]; do 2 right; left; split; [done|]; by intros ? [=]).
  destruct (List.filter _ rows) as [|first results] eqn:Hfilter;
    cbn [index_first Py.bind].
  { intros [= <-]. do 3 right. split; [done|].
    exists rows, survey, r2r_id, rest. split; [done|]. split; [done|].
    apply Forall_forall. intros r Hr.
    destruct (sql_like r2r_id (FILESET_ID r)) eqn:Hlike; [|done].
    assert (In r (List.filter (fun r => sql_like r2r_id (FILESET_ID r)) rows))
      as Hin by (apply filter_In; split; [by apply list_elem_of_In|done]).
    rewrite Hfilter in Hin. done. }
  intros Hrun. left.
  assert (forall w1 (k : Sort.space_value -> Sort.world -> result Sort.world),
            (let '(enough_space, w2) := space_probe landing_zone 1024 w1 in
             k enough_space w2) = Raise e ->
            (forall free_space human_readable w2,
               k (Sort.SpaceTuple free_space true human_readable) w2
               <> Raise e) ->
            (forall w2, k Sort.SpaceFalse w2 = Raise TypeError) ->
            e = TypeError /\ space_refused float_render run landing_zone)
    as Hprobe.
  { intros w1 k Hk Hfine Hfalse.
    destruct (space_probe_cases landing_zone 1024 w1)
      as [Hno | (free_space & human_readable & Heq)].
    - destruct (space_probe landing_zone 1024 w1) as [v w2] eqn:Hp.
      simpl in Hno. subst v. rewrite Hfalse in Hk. split; [congruence|].
      intros w0. by rewrite (space_probe_fst _ _ w0 w1), Hp.
    - rewrite Heq in Hk. by apply Hfine in Hk. }
  destruct (Sort.find_guidance _ _ _) as [guidance|] eqn:Hguide; [|done].
  assert (Sort.landing_directory guidance = landing_zone
          /\ Sort.space_check guidance = landing_zone) as [Hdir Hspace].
  { revert Hguide. unfold Sort.find_guidance.
    repeat case_match; intros [= <-]; done. }
  destruct guidance as [untar dir check].
  cbn [Sort.landing_directory Sort.space_check Sort.untar] in *.
  subst dir check.
  assert (e = TypeError /\ space_refused float_render run landing_zone)
    as [-> Hrefused]; [|by auto].
  destruct untar;
    (destruct (DATA_TYPE first); cbn [negb] in Hrun;
     try (unfold Sort.call in Hrun at 1;
          destruct (returncode _ =? 0) in Hrun; cbn [negb] in Hrun;
          [|done]));
    match type of Hrun with
    | (let '(enough_space, w2) := space_probe landing_zone 1024 ?w1 in
       @?k enough_space w2) = Raise e =>
        apply (Hprobe w1 k Hrun)
    end;
    try done;
    intros free_space human_readable w2; simpl; unfold Sort.call;
    repeat case_match; done.
Qed.

End SortCommands.

(** ** Validation of a batch that passes *)

Section PassingBatch.

Variable run : Sort.command -> Z -> process.
Variable listdir : option string -> result (list string).
Variable gunzip : string -> result unit.
Variable isfile : string -> bool.
Variable read_text : string -> result string.

Local Abbreviation validate_one :=
  (Sort.validate_one run gunzip isfile read_text).
Local Abbreviation validate_each :=
  (Sort.validate_each run gunzip isfile read_text).

Lemma validate_one_accepts tarball_path w :
  archive_unzips_and_passes run gunzip isfile read_text tarball_path ->
  validate_one tarball_path w
  = Ok (Sort.record_command (checksum_of tarball_path) w).
Proof.
  intros [Hgz (Hfile & content & checksum & Hread & Htoken & Hlen & Herr
               & Hsum)].
  unfold Sort.validate_one, Sort.ungzip_tar, checksum_of.
  unfold canonical_tar in *. unfold md5sum_of, first_token in *.
  destruct (endswith ".gz" tarball_path);
    [rewrite Hgz by done|]; cbn [Py.bind];
    unfold Sort.verify_checksum, Sort.call;
    rewrite Hfile, Hread; cbn [Py.bind]; rewrite Htoken; cbn [Py.bind];
    rewrite Hlen, Herr; simpl; rewrite Hsum; simpl;
    by rewrite String.eqb_refl.
Qed.

Lemma validate_each_accepts tarball_paths w :
  Forall (archive_unzips_and_passes run gunzip isfile read_text)
    tarball_paths ->
  validate_each tarball_paths w
  = Ok (with_commands (checksum_of <$> tarball_paths) w).
Proof.
  intros Hall. revert w.
  induction Hall as [|tp rest Htp _ IH]; intros w; simpl.
  - unfold with_commands. rewrite app_nil_r. by destruct w.
  - rewrite (validate_one_accepts tp w Htp). cbn [Py.bind]. rewrite IH.
    unfold with_commands, Sort.record_command. simpl.
    by rewrite <- app_assoc.
Qed.

(** X14. When no error was recorded before and every archive of the
    listing unzips and passes its check (a manifest beside it whose
    32-character token equals the computed checksum), [validate_tarballs]
    hands back [True]; all it has done is run one [md5sum] per archive, in
    listing order. *)
Theorem passing_batch_is_valid (landing_path : option string)
    (names tarball_paths : list string) (w : Sort.world) :
  listdir landing_path = Ok names ->
  mapM (Sort.path_join landing_path) (List.filter is_archive_name names)
  = Ok tarball_paths ->
  Sort.errors w = [] ->
  Forall (archive_unzips_and_passes run gunzip isfile read_text)
    tarball_paths ->
  Sort.validate_tarballs run listdir gunzip isfile read_text landing_path w
  = Ok (true, with_commands (checksum_of <$> tarball_paths) w).
Proof.
  intros Hnames Hpaths Herrors Hall. unfold Sort.validate_tarballs.
  rewrite Hnames. cbn [Py.bind].
  change (fun x => endswith ".tar" x || endswith ".gz" x)
    with is_archive_name.
  rewrite Hpaths. cbn [Py.bind].
  rewrite (validate_each_accepts tarball_paths w Hall). cbn [Py.bind].
  unfold with_commands at 1. cbn [Sort.errors]. by rewrite Herrors.
Qed.

End PassingBatch.

Lemma passing_batch_is_valid_witness :
  Sort.validate_tarballs run_all_match sample_listdir sample_gunzip
    sample_isfile sample_read (Some "<NCEI_LANDING_SPACE>") sample_world
  = Ok (true,
        with_commands
          (checksum_of <$> sample_tars) sample_world).
Proof.
  apply (passing_batch_is_valid run_all_match sample_listdir sample_gunzip
           sample_isfile sample_read (Some "<NCEI_LANDING_SPACE>")
           sample_names sample_tars sample_world).
  - reflexivity.
  - reflexivity.
  - reflexivity.
  - repeat constructor; try done;
      exists (sample_sum +:+ "  archive" +:+ newline), sample_sum;
      repeat split.
Defined.

Lemma removals_follow_success_witness :
  exists added,
    Sort.commands
      (with_commands (route_commands "<NCEI_LANDING_SPACE>/AR01_11111_a.tar")
         sample_world)
    = Sort.commands sample_world ++ added
    /\ forall before p after,
         added = before ++ Sort.Rm p :: after ->
         earned run_all_match before p.
Proof.
  assert (Sort.sort_one no_render run_all_match (Some "<NCEI_LANDING_SPACE>")
            "AR01_11111_a.tar" sample_world
          = Ok (with_commands
                  (route_commands "<NCEI_LANDING_SPACE>/AR01_11111_a.tar")
                  sample_world)) as Hrun by (vm_compute; reflexivity).
  exact (proj1 (removals_follow_success no_render run_all_match
                  sample_listdir) _ _ _ _ Hrun).
Defined.

Lemma sort_turn_stops_witness :
  (ValueError = TypeError
   /\ (Some "<NCEI_LANDING_SPACE>" = None
       \/ space_refused no_render run_all_match landing_zone))
  \/ (ValueError = ValueError
      /\ forall survey r2r_id rest,
           split_on "_" "AR01-11111-a.tar" <> [survey; r2r_id; rest])
  \/ (ValueError = SqliteError
      /\ forall rows, Sort.db sample_world <> DbRows rows)
  \/ (ValueError = IndexError
      /\ exists rows survey r2r_id rest,
           Sort.db sample_world = DbRows rows
           /\ split_on "_" "AR01-11111-a.tar" = [survey; r2r_id; rest]
           /\ Forall (fun r => sql_like r2r_id (FILESET_ID r) = false) rows).
Proof.
  apply (proj1 (sort_turn_stops no_render run_all_match)
           (Some "<NCEI_LANDING_SPACE>") "AR01-11111-a.tar" sample_world
           ValueError).
  reflexivity.
Defined.

(** ** An answer that names no landing path *)

Lemma append_cons c s t : String c s +:+ t = String c (s +:+ t).
Proof. reflexivity. Qed.

Lemma append_length s1 s2 :
  String.length (s1 +:+ s2) = (String.length s1 + String.length s2)%nat.
Proof.
  induction s1 as [|c s1 IH]; [done|].
  rewrite append_cons. simpl. by rewrite IH.
Qed.

Lemma append_assoc s1 s2 s3 : (s1 +:+ s2) +:+ s3 = s1 +:+ (s2 +:+ s3).
Proof.
  induction s1 as [|c s1 IH]; [done|].
  rewrite !append_cons. by rewrite IH.
Qed.

Lemma substring_all s : substring 0 (String.length s) s = s.
Proof. induction s as [|c s IH]; simpl; [done | by rewrite IH]. Qed.

Lemma substring_after pre suf :
  substring (String.length pre) (String.length suf) (pre +:+ suf) = suf.
Proof.
  induction pre as [|c pre IH]; [apply substring_all|].
  rewrite append_cons. simpl. apply IH.
Qed.

Lemma substring_split k s :
  (k <= String.length s)%nat ->
  s = substring 0 k s +:+ substring k (String.length s - k) s.
Proof.
  revert k. induction s as [|c s IH]; intros k Hk; simpl in *.
  - by destruct k.
  - destruct k as [|k]; simpl.
    + by rewrite substring_all.
    + rewrite append_cons. f_equal. apply IH. lia.
Qed.

Lemma endswith_spec suf s :
  endswith suf s = true <-> exists pre, s = pre +:+ suf.
Proof.
  unfold endswith. rewrite andb_true_iff, Nat.leb_le, String.eqb_eq. split.
  - intros [Hle Hsub].
    exists (substring 0 (String.length s - String.length suf) s).
    pose proof (substring_split (String.length s - String.length suf) s)
      as Hs.
    replace (String.length s - (String.length s - String.length suf))%nat
      with (String.length suf) in Hs by lia.
    rewrite Hsub in Hs. apply Hs. lia.
  - intros [pre ->]. rewrite append_length. split; [lia|].
    replace (String.length pre + String.length suf - String.length suf)%nat
      with (String.length pre) by lia.
    apply substring_after.
Qed.

Lemma sorted_name_is_checked x :
  endswith ".tar" x || endswith "tar.gz" x = true -> is_archive_name x = true.
Proof.
  unfold is_archive_name. rewrite !orb_true_iff.
  intros [H | H]; [by left | right].
  apply endswith_spec in H as [pre ->]. apply endswith_spec.
  exists (pre +:+ "tar"). by rewrite append_assoc.
Qed.

Section NoLandingPath.

Variable float_render : Z -> result string.
Variable run : Sort.command -> Z -> process.
Variable listdir : option string -> result (list string).
Variable gunzip : string -> result unit.
Variable isfile : string -> bool.
Variable read_text : string -> result string.
Variable answer1 answer2 : result string.

Local Abbreviation main :=
  (Sort.main float_render run listdir gunzip isfile read_text
     answer1 answer2).

Lemma mapM_join_none names :
  mapM (Sort.path_join None) names
  = match names with [] => Ok [] | _ => Raise TypeError end.
Proof. by destruct names. Qed.

(** X15. When the first prompt is answered with anything but [y] or [n],
    [get_path] hands back [None] and [main] goes on with the working
    directory: it ends in [TypeError] as soon as that directory lists a
    name ending in [.tar] or [.gz], and otherwise ends without running a
    command or recording an error, whatever the store holds. *)
Theorem other_answer_uses_working_directory (choice : string)
    (names : list string) (w : Sort.world) :
  answer1 = Ok choice -> choice <> "y" -> choice <> "n" ->
  listdir None = Ok names ->
  Sort.get_path answer1 answer2 w = Ok (None, w)
  /\ (Exists (fun x => is_archive_name x = true) names ->
      main w = Raise TypeError)
  /\ (Forall (fun x => is_archive_name x = false) names ->
      Sort.db w <> DbMissing -> main w = Ok w).
Proof.
  intros Hanswer Hy Hn Hnames.
  assert (Sort.get_path answer1 answer2 w = Ok (None, w)) as Hpath.
  { unfold Sort.get_path. rewrite Hanswer.
    rewrite (proj2 (String.eqb_neq _ _) Hy).
    by rewrite (proj2 (String.eqb_neq _ _) Hn). }
  split; [done|]. unfold Sort.main. rewrite Hpath. cbn [Py.bind].
  unfold Sort.validate_tarballs. rewrite Hnames. cbn [Py.bind].
  change (fun x => endswith ".tar" x || endswith ".gz" x)
    with is_archive_name.
  rewrite mapM_join_none. split.
  - intros (x & Hin & Hx)%Exists_exists.
    pose proof (elem_of_filter_bool is_archive_name names x Hin Hx) as Hf.
    destruct (List.filter is_archive_name names); [|done].
    by apply elem_of_nil in Hf.
  - intros Hall Hdb.
    assert (forall f : string -> bool,
              (forall x, f x = true -> is_archive_name x = true) ->
              List.filter f names = []) as Hnone.
    { intros f Hf. clear Hnames. induction Hall as [|x l Hx _ IH]; [done|].
      simpl. destruct (f x) eqn:Hfx; [|done].
      apply Hf in Hfx. congruence. }
    rewrite (Hnone is_archive_name) by done. cbn [Py.bind Sort.validate_each].
    assert (database_connect (Sort.db w) = Ok (Sort.db w)) as Hdb'
      by (by destruct (Sort.db w)).
    destruct (0 <? _)%nat; cbn [Py.bind]; unfold Sort.sort_landing_zone;
      rewrite Hdb'; cbn [Py.bind]; [done|].
    rewrite Hnames. cbn [Py.bind].
    by rewrite (Hnone _ sorted_name_is_checked).
Qed.

End NoLandingPath.

Lemma other_answer_uses_working_directory_witness :
  Sort.get_path (Ok "later") (Ok "") sample_world = Ok (None, sample_world)
  /\ (Exists (fun x => is_archive_name x = true) sample_names ->
      Sort.main no_render run_all_match sample_listdir sample_gunzip
        sample_isfile sample_read (Ok "later") (Ok "") sample_world
      = Raise TypeError)
  /\ (Forall (fun x => is_archive_name x = false) sample_names ->
      Sort.db sample_world <> DbMissing ->
      Sort.main no_render run_all_match sample_listdir sample_gunzip
        sample_isfile sample_read (Ok "later") (Ok "") sample_world
      = Ok sample_world).
Proof.
  apply (other_answer_uses_working_directory no_render run_all_match
           sample_listdir sample_gunzip sample_isfile sample_read
           (Ok "later") (Ok "") "later" sample_names sample_world);
    done.
Defined.

(** ** A whole run of the pull script *)

Section WholeRun.

Variable float_render : Z -> result string.
Variable platform_system : string.
Variable sftp_ls : bool -> string -> process.
Variable sftp_get : bool -> string -> string -> string -> result process.
Variable ls_landing : string -> string -> process.
Variable df : string -> Z -> process.
Variable strptime : string -> option (Z * Z * Z).
Variable fileset_api : string -> result Pull.metadata.
Variable insert_rejected : list PackageRecord -> PackageRecord -> bool.
Variable port_num r2r_server_path ngdc_files_path : string.

Local Abbreviation main_code :=
  (Pull.main_code float_render platform_system sftp_ls sftp_get ls_landing
     df strptime fileset_api insert_rejected port_num r2r_server_path
     ngdc_files_path).

Lemma pull_rows type_answer choices rows errors out :
  Pull.pull float_render platform_system sftp_get ls_landing df
    type_answer choices (DbRows rows) errors = Ok out ->
  exists paths,
    fst out
    = DbRows
        (after_copy platform_system sftp_get ls_landing
           "<NCEI Landing Space>" paths <$> rows).
Proof.
  unfold Pull.pull.
  destruct (Pull.landing_space_bytes _ _ _ _ _) as [space_check errors1].
  destruct (Pull.space_index1 space_check) as [flag|]; [cbn [Py.bind]|done].
  destruct (Pull.get_data_type flag type_answer errors1)
    as [data_type_input errors2].
  destruct (Pull.space_index0 space_check) as [free_space|];
    [cbn [Py.bind]|done].
  destruct (Pull.query_sqlite _ _ _ _ _) as [[download_list|]|];
    [cbn [Py.bind] | done | done].
  unfold Pull.copy_packages. cbn [database_connect Py.bind].
  destruct (copy_paths_rows platform_system sftp_get ls_landing
              (download_list ++ (Pull.manifest_of <$> download_list))
              "<NCEI Landing Space>" rows errors2) as [errors' ->].
  intros [= <-]. by eexists.
Qed.

Lemma after_copy_cases landing_path paths r :
  after_copy platform_system sftp_get ls_landing landing_path paths r = r
  \/ after_copy platform_system sftp_get ls_landing landing_path paths r
     = set_pulled r.
Proof. unfold after_copy. destruct (existsb _ _); auto. Qed.

Lemma Forall2_fmap_cases {A} (P : A -> A -> Prop) (f : A -> A) l :
  (forall x, P x (f x)) -> Forall2 P l (f <$> l).
Proof. intros H. induction l; constructor; auto. Qed.

(** X16. A run of the pull script that ends without an exception never
    drops or rewrites a record: the store it leaves holds the rows it
    started with, in their order, followed by newly discovered rows that
    were inserted as not yet pulled, and each of these rows is either
    untouched or differs only by [BEEN_PULLED] being set to ['Y']. *)
Theorem pull_script_keeps_records (type_answer choices : string)
    (rows : list PackageRecord) (out : db_file * list err) :
  main_code type_answer choices (DbRows rows) = Ok out ->
  exists new rows',
    fst out = DbRows rows'
    /\ Forall (fun r => BEEN_PULLED r = Pending) new
    /\ Forall2 (fun r r' => r' = r \/ r' = set_pulled r) (rows ++ new) rows'.
Proof.
  unfold Pull.main_code, Pull.populate.
  destruct (Pull.connect_to_sftp sftp_ls platform_system port_num
              r2r_server_path ngdc_files_path []) as [all_dates errors0].
  destruct all_dates as [all_dates|]; [cbn [Py.bind]|done].
  destruct (Pull.check_date_dirs platform_system sftp_ls strptime all_dates
              ngdc_files_path (DbRows rows) errors0) as [[inventory st]|];
    [cbn [Py.bind]|done].
  unfold Pull.build_sqlite. cbn [database_connect Py.bind].
  destruct inventory as [d|]; [|done].
  destruct (build_dates_rows float_render fileset_api insert_rejected
              d rows (Pull.errors_of st)) as (new & errors1 & -> & Hnew).
  cbn [Py.bind]. intros (paths & Hout)%pull_rows.
  exists new. eexists. split; [exact Hout|]. split; [done|].
  apply Forall2_fmap_cases. intros r.
  apply after_copy_cases.
Qed.

End WholeRun.

Lemma pull_script_keeps_records_witness :
  exists new rows',
    DbRows [set_pulled sample_enriched] = DbRows rows'
    /\ Forall (fun r => BEEN_PULLED r = Pending) new
    /\ Forall2 (fun r r' => r' = r \/ r' = set_pulled r) ([] ++ new) rows'.
Proof.
  assert (Pull.main_code no_render "Linux" remote_first_refused sample_get
            sample_ls_landing roomy_df iso_date sample_metadata accept_all
            "22" "r2r@sftp" "/ngdc" "2" "1" (DbRows [])
          = Ok (DbRows [set_pulled sample_enriched],
                [EMsg "Error in  /ngdc"])) as Hrun
    by (vm_compute; reflexivity).
  exact (pull_script_keeps_records _ _ _ _ _ _ _ _ _ _ _ _ _ _ _ _ Hrun).
Defined.

(** ** The names of manifests and of compressed archives *)

Lemma rsplit1_join c s h t :
  rsplit1 c s = Some (h, t) -> s = h +:+ String c t.
Proof.
  revert h t. induction s as [|a s IH]; intros h t; simpl; [done|].
  destruct (rsplit1 c s) as [[h' t']|].
  - intros [= <- <-]. rewrite append_cons. f_equal. by apply IH.
  - destruct (Ascii.eqb a c) eqn:Hac; [|done].
    apply Ascii.eqb_eq in Hac as ->. by intros [= <- <-].
Qed.

Lemma splitext_join p : fst (splitext p) +:+ snd (splitext p) = p.
Proof.
  unfold splitext.
  assert (forall s, s +:+ "" = s) as Hnil
    by (intros s; induction s as [|a s IH];
        [done | rewrite append_cons; by rewrite IH]).
  destruct (rsplit1 "/" p) as [[h t]|] eqn:Hdir.
  - apply rsplit1_join in Hdir.
    destruct (rsplit1 "." t) as [[stem ext]|] eqn:Hext; [|apply Hnil].
    destruct (all_char "." stem); [apply Hnil|].
    apply rsplit1_join in Hext. simpl. subst p t.
    by rewrite !append_assoc.
  - destruct (rsplit1 "." p) as [[stem ext]|] eqn:Hext; [|apply Hnil].
    destruct (all_char "." stem); [apply Hnil|].
    apply rsplit1_join in Hext. simpl. by subst p.
Qed.

(** X17. The manifest [copy_packages] asks for replaces the archive's
    extension instead of following it: with [ext] the extension
    [os.path.splitext] finds, the archive is [stem + ext] and the manifest
    requested is [stem + ".md5"]. So whenever the archive has an extension,
    the requested manifest is not [archive + ".md5"], which is the name
    [validate_tarballs] looks for beside the archive. *)
Theorem manifest_replaces_extension (file : string) :
  let ext := snd (splitext file) in
  exists stem,
    file = stem +:+ ext
    /\ Pull.manifest_of file = stem +:+ ".md5"
    /\ (ext <> "" -> Pull.manifest_of file <> file +:+ ".md5")
    /\ (ext = "" -> Pull.manifest_of file = file +:+ ".md5").
Proof.
  intros ext. exists (fst (splitext file)).
  pose proof (splitext_join file) as Hjoin. fold ext in Hjoin.
  split; [done|]. split; [done|]. unfold Pull.manifest_of. split.
  - intros Hext Heq. apply (f_equal String.length) in Heq.
    rewrite <- Hjoin in Heq at 2. rewrite !append_length in Heq.
    destruct ext; [done|]. simpl in Heq. lia.
  - intros Hext. rewrite Hext in Hjoin. rewrite <- Hjoin at 2.
    assert (forall s, s +:+ "" = s) as Hnil
      by (intros s; induction s as [|a s IH];
          [done | rewrite append_cons; by rewrite IH]).
    by rewrite Hnil.
Qed.

Lemma manifest_replaces_extension_witness :
  Pull.manifest_of "/ngdc/2022-05-02/KM1910_13579_01.tar"
  <> "/ngdc/2022-05-02/KM1910_13579_01.tar" +:+ ".md5".
Proof.
  destruct (manifest_replaces_extension
              "/ngdc/2022-05-02/KM1910_13579_01.tar")
    as (stem & _ & _ & Hext & _).
  apply Hext. discriminate.
Defined.

Lemma drop_last_snoc s c : drop_last (s +:+ String c "") = s.
Proof.
  induction s as [|a s IH]; [done|].
  rewrite append_cons. cbn [drop_last]. rewrite IH.
  destruct s; [done|]. by rewrite append_cons.
Qed.

Lemma canonical_tar_gz base : canonical_tar (base +:+ ".gz") = base.
Proof.
  unfold canonical_tar.
  rewrite (proj2 (endswith_spec ".gz" (base +:+ ".gz")))
    by (by exists base).
  change ".gz" with ("." +:+ ("g" +:+ "z")).
  rewrite <- !append_assoc. by rewrite !drop_last_snoc.
Qed.

Section Compressed.

Variable run : Sort.command -> Z -> process.
Variable gunzip : string -> result unit.
Variable isfile : string -> bool.
Variable read_text : string -> result string.

(** X18. An archive path that ends in [.gz] is checked under its name
    without that suffix: [validate_tarballs]'s loop body unzips it and then
    looks for the manifest and computes the checksum of the path cut by
    three characters, and an unzip that raises ends the loop with that
    exception. The cut path ends in [.tar] only when the name ended in
    [.tar.gz]. *)
Theorem compressed_archive_is_checked_unzipped (tarball_path : string)
    (w : Sort.world) :
  endswith ".gz" tarball_path = true ->
  exists base,
    tarball_path = base +:+ ".gz"
    /\ canonical_tar tarball_path = base
    /\ (endswith ".tar" base = true <-> endswith ".tar.gz" tarball_path = true)
    /\ Sort.validate_one run gunzip isfile read_text tarball_path w
       = match gunzip tarball_path with
         | Ok _ => Sort.verify_checksum run isfile read_text base w
         | Raise e => Raise e
         end.
Proof.
  intros Hgz. pose proof Hgz as [base ->]%endswith_spec. exists base.
  split; [done|]. split; [apply canonical_tar_gz|]. split.
  - rewrite !endswith_spec. split; intros [pre H].
    + exists pre. subst base. by rewrite append_assoc.
    + exists pre. change ".tar.gz" with (".tar" +:+ ".gz") in H.
      rewrite <- append_assoc in H.
      apply (f_equal canonical_tar) in H.
      by rewrite !canonical_tar_gz in H.
  - unfold Sort.validate_one, Sort.ungzip_tar. rewrite Hgz.
    pose proof (canonical_tar_gz base) as Hcut.
    unfold canonical_tar in Hcut. rewrite Hgz in Hcut. rewrite Hcut.
    by destruct (gunzip _) as [[]|].
Qed.

End Compressed.

Lemma compressed_archive_is_checked_unzipped_witness :
  exists base,
    "<NCEI_LANDING_SPACE>/AR01_11111_a.tar.gz" = base +:+ ".gz"
    /\ canonical_tar "<NCEI_LANDING_SPACE>/AR01_11111_a.tar.gz" = base
    /\ (endswith ".tar" base = true
        <-> endswith ".tar.gz" "<NCEI_LANDING_SPACE>/AR01_11111_a.tar.gz"
            = true)
    /\ Sort.validate_one run_all_match sample_gunzip sample_isfile
         sample_read "<NCEI_LANDING_SPACE>/AR01_11111_a.tar.gz" sample_world
       = match sample_gunzip "<NCEI_LANDING_SPACE>/AR01_11111_a.tar.gz" with
         | Ok _ =>
             Sort.verify_checksum run_all_match sample_isfile sample_read
               base sample_world
         | Raise e => Raise e
         end.
Proof.
  apply (compressed_archive_is_checked_unzipped run_all_match sample_gunzip
           sample_isfile sample_read
           "<NCEI_LANDING_SPACE>/AR01_11111_a.tar.gz" sample_world).
  reflexivity.
Defined.

(** ** The order of the download list *)

Lemma mapM_Forall2 {A B} (f : A -> result B) l ys :
  mapM f l = Ok ys -> Forall2 (fun x y => f x = Ok y) l ys.
Proof.
  revert ys. induction l as [|x l IH]; intros ys; simpl.
  - intros [= <-]. constructor.
  - destruct (f x) as [y|] eqn:Hx; [|done].
    destruct (mapM f l) as [ys'|]; [|done].
    intros [= <-]. constructor; [done | by apply IH].
Qed.

Lemma filter_keeps_all {A} (f : A -> bool) (l : list A) :
  List.length (List.filter f l) = List.length l -> List.filter f l = l.
Proof.
  induction l as [|x l IH]; simpl; [done|].
  pose proof (filter_length_le f l).
  destruct (f x); simpl; intros Hlen; [f_equal; apply IH|]; lia.
Qed.

Lemma nth_error_fmap {A B} (f : A -> B) (l : list A) n y :
  nth_error (f <$> l) n = Some y ->
  exists x, nth_error l n = Some x /\ y = f x.
Proof.
  revert n. induction l as [|x l IH]; intros [|n]; simpl; try done.
  - intros [= <-]. by exists x.
  - apply IH.
Qed.

Lemma dict_get_at {V} (d : list (string * V)) n k v :
  NoDup (fst <$> d) -> nth_error d n = Some (k, v) -> dict_get k d = Some v.
Proof.
  revert n. induction d as [|[k' v'] d IH]; intros [|n]; simpl; try done.
  - intros _ [= -> ->]. by rewrite String.eqb_refl.
  - intros [Hnot Hnd]%NoDup_cons Hn.
    destruct (String.eqb k k') eqn:Hk; [|by eapply IH].
    apply String.eqb_eq in Hk as <-. exfalso. apply Hnot.
    apply list_elem_of_fmap. exists (k, v). split; [done|].
    apply list_elem_of_In. by eapply nth_error_In.
Qed.

Lemma stored_keys_distinct inc d :
  NoDup (fst <$> d) -> NoDup (fst <$> fold_left store_entry inc d).
Proof.
  revert d. induction inc as [|e inc IH]; intros d Hd; simpl; [done|].
  apply IH. unfold store_entry. by apply dict_set_NoDup.
Qed.

Lemma sorted_distinct_ascends l :
  StronglySorted Z.le l -> NoDup l -> Sorted Z.lt l.
Proof.
  induction 1 as [|x l Hl IH Hx]; intros Hnd; [constructor|].
  apply NoDup_cons in Hnd as [Hnot Hnd]. constructor; [by apply IH|].
  destruct l as [|y l]; constructor.
  assert (x <> y) by (intros ->; apply Hnot; left).
  apply Forall_inv in Hx. lia.
Qed.

Section DownloadOrder.

Variable float_render : Z -> result string.

(** X19. The download list follows the displayed list, not the answer:
    its paths are those shown at the numbers the answer stands for, taken
    once each in strictly ascending order. *)
Theorem download_list_in_display_order (rows : list PackageRecord)
    (data_type : option string) (free_space : Z) (choices : string)
    (download_list : list string) :
  Pull.query_sqlite float_render (DbRows rows) data_type free_space choices
  = Ok (Some download_list) ->
  let package_dict :=
    snd (Pull.accumulate free_space
           (List.filter (Pull.pending_like data_type) rows)) in
  exists numbers indices,
    Pull.parse_choices (split_on "," choices) ∅ = Ok numbers
    /\ (forall i, i ∈ indices <-> i ∈ numbers)
    /\ Sorted Z.lt indices
    /\ Forall2 (shown_at package_dict) indices download_list.
Proof.
  intros Hrun package_dict. unfold Pull.query_sqlite in Hrun.
  cbn [database_connect fetchall Py.bind] in Hrun. fold package_dict in Hrun.
  assert (NoDup (fst <$> package_dict)) as Hkeys.
  { unfold package_dict, Pull.accumulate. rewrite accumulate_from.
    apply stored_keys_distinct. constructor. }
  destruct (0 <? List.length package_dict)%nat; [|done].
  unfold Pull.choose in Hrun.
  destruct (Pull.parse_choices _ _) as [numbers|]; [cbn [Py.bind] in Hrun|done].
  destruct (negb _) eqn:Hall; [done|].
  apply negb_false_iff, Nat.eqb_eq in Hall.
  unfold size, set_size in Hall. simpl in Hall.
  apply filter_keeps_all in Hall. rewrite Hall in Hrun.
  assert (Forall (fun i => 1 <= i <= Z.of_nat (List.length package_dict))
            (elements numbers)) as Hrange.
  { rewrite <- Hall. apply Forall_forall. intros i Hi.
    apply list_elem_of_In, filter_In in Hi as [_ Hi].
    unfold Pull.in_range in Hi. lia. }
  set (indices := merge_sort Z.le (elements numbers)) in *.
  assert (indices ≡ₚ elements numbers) as Hperm
    by apply merge_sort_Permutation.
  destruct (mapM _ indices) as [selected|] eqn:Hsel;
    [cbn [Py.bind] in Hrun|done].
  destruct (mapM (Pull.package_lookup package_dict) selected)
    as [entries|] eqn:Hent; [cbn [Py.bind] in Hrun|done].
  destruct (convert_size _ _); [cbn [Py.bind] in Hrun|done].
  destruct (0 <? List.length _)%nat; [|done].
  injection Hrun as <-.
  exists numbers, indices. split; [done|]. split; [|split].
  - intros i. by rewrite Hperm, elem_of_elements.
  - apply sorted_distinct_ascends.
    + apply (StronglySorted_merge_sort Z.le); apply _.
    + rewrite Hperm. apply NoDup_elements.
  - apply mapM_Forall2 in Hsel, Hent.
    apply Forall2_fmap_r.
    assert (Forall (fun i => 1 <= i <= Z.of_nat (List.length package_dict))
              indices) as Hin by (by rewrite Hperm).
    clear Hperm Hrange Hall. revert entries Hent.
    induction Hsel as [|i pkg indices' selected' Hi _ IH];
      intros entries Hent; inversion Hent as [|? entry ? entries' He Hes];
      subst; constructor.
    + apply Forall_inv in Hin. split; [lia|].
      unfold index in Hi. rewrite length_fmap in Hi.
      destruct (i - 1 <? 0) eqn:Hneg; [lia|].
      destruct (_ && _); [|done].
      destruct (nth_error _ _) as [key|] eqn:Hnth; [|done].
      injection Hi as ->.
      apply nth_error_fmap in Hnth as ([key [[hr path] size]] & Hnth & ->).
      unfold Pull.package_lookup in He. simpl in He.
      rewrite (dict_get_at _ _ _ _ Hkeys Hnth) in He. injection He as <-.
      by exists key, hr, size.
    + apply IH; [by apply Forall_inv_tail in Hin | done].
Qed.

End DownloadOrder.

Lemma download_list_in_display_order_witness :
  exists numbers indices,
    Pull.parse_choices (split_on "," "3,1-1,3") ∅ = Ok numbers
    /\ (forall i, i ∈ indices <-> i ∈ numbers)
    /\ Sorted Z.lt indices
    /\ Forall2
         (shown_at
            (snd (Pull.accumulate 10000000000
                    (List.filter (Pull.pending_like (Some "Multibeam"))
                       sample_rows))))
         indices
         ["/ngdc/2022-05-02/AR01_11111_a.tar";
          "/ngdc/2022-05-02/AR03_33333_c.tar"].
Proof.
  assert (Pull.query_sqlite no_render (DbRows sample_rows) (Some "Multibeam")
            10000000000 "3,1-1,3"
          = Ok (Some ["/ngdc/2022-05-02/AR01_11111_a.tar";
                      "/ngdc/2022-05-02/AR03_33333_c.tar"])) as Hrun
    by (vm_compute; reflexivity).
  exact (download_list_in_display_order no_render _ _ _ _ _ Hrun).
Defined.

(** ** Where the code departs from the stated behaviour *)

(** C2. A batch of three archives in which the second archive's checksum
    differs and the third archive's manifest is an empty file: the second
    archive fails validation, yet [validate_tarballs] does not report the
    batch invalid, it ends with the [IndexError] of [read().split()[0]],
    and so does [main]. The same happens when the blank manifest is the
    only defect. A manifest that holds a token of the wrong length is
    handled as the claim says: the verdict is [False]. *)
Theorem blank_manifest_stops_validation :
  archive_fails run_second_differs sample_isfile read_third_blank
    "<NCEI_LANDING_SPACE>/AR02_22222_b.tar"
  /\ Sort.validate_tarballs run_second_differs sample_listdir sample_gunzip
       sample_isfile read_third_blank (Some "<NCEI_LANDING_SPACE>")
       sample_world
     = Raise IndexError
  /\ Sort.main no_render run_second_differs sample_listdir sample_gunzip
       sample_isfile read_third_blank (Ok "y") (Ok "") sample_world
     = Raise IndexError
  /\ Sort.validate_tarballs run_all_match sample_listdir sample_gunzip
       sample_isfile read_third_blank (Some "<NCEI_LANDING_SPACE>")
       sample_world
     = Raise IndexError
  /\ exists w',
       Sort.validate_tarballs run_all_match sample_listdir sample_gunzip
         sample_isfile read_third_short (Some "<NCEI_LANDING_SPACE>")
         sample_world
       = Ok (false, w')
       /\ Sort.errors w' = [EMsg "Fail"; EMsg "Fail"].
Proof.
  split; [|split; [|split; [|split]]].
  - right. right. split; [reflexivity|].
    exists (sample_sum +:+ "  archive" +:+ newline), sample_sum,
      "ffffffffffffffffffffffffffffffff".
    repeat split; discriminate.
  - vm_compute. reflexivity.
  - vm_compute. reflexivity.
  - vm_compute. reflexivity.
  - eexists. split; vm_compute; reflexivity.
Qed.

(** C3. Three pending records of which the first and the third share
    their cruise and instrument, planned with a budget of 10 bytes. The
    loop takes all three (the running totals before them are 0, 1 and 2),
    but the third replaces the first under their common key: the
    displayed list holds the 100-byte archive first and the 1-byte archive
    of the other cruise second, so the sizes of all displayed records but
    the last sum to 100, which is not under the budget, and the first
    record, taken at a running total of 0, is not offered at all. *)
Theorem colliding_keys_break_budget :
  List.filter (Pull.pending_like (Some "Multibeam")) colliding_rows
  = colliding_rows
  /\ fst (Pull.accumulate 10 (take 0 colliding_rows)) = 0
  /\ fst (Pull.accumulate 10 (take 1 colliding_rows)) = 1
  /\ fst (Pull.accumulate 10 (take 2 colliding_rows)) = 2
  /\ Pull.accumulate 10 colliding_rows
     = (102,
        [("AR01 EM122",
          ("100.0 B", "/ngdc/2022-05-02/AR01_33333_01.tar", 100));
         ("AR02 EM122",
          ("1.0 B", "/ngdc/2022-05-02/AR02_22222_01.tar", 1))])
  /\ offer_size (removelast (snd (Pull.accumulate 10 colliding_rows))) = 100
  /\ ~ offer_size (removelast (snd (Pull.accumulate 10 colliding_rows))) < 10
  /\ Pull.query_sqlite no_render (DbRows colliding_rows) (Some "Multibeam")
       10 "1-2"
     = Ok (Some ["/ngdc/2022-05-02/AR01_33333_01.tar";
                 "/ngdc/2022-05-02/AR02_22222_01.tar"])
  /\ Forall
       (fun kv =>
          snd (fst (snd kv)) <> "/ngdc/2022-05-02/AR01_11111_01.tar")
       (snd (Pull.accumulate 10 colliding_rows)).
Proof.
  split; [reflexivity|]. split; [reflexivity|]. split; [reflexivity|].
  split; [reflexivity|]. split; [reflexivity|]. split; [reflexivity|].
  split; [vm_compute; discriminate|]. split; [vm_compute; reflexivity|].
  repeat constructor; discriminate.
Qed.

(** C6. A top-level path that matches nothing: the sftp client exits with
    0 and lists nothing, so [connect_to_sftp] reaches
    [r2r_dates.remove('README')] with an empty list and the run ends with
    [ValueError] before any date directory is looked at. A date directory
    that matches nothing in the same way is passed over, as the claim
    says: the directory after it is listed and its package is found. *)
Theorem missing_root_ends_run :
  fst (Pull.connect_to_sftp remote_root_missing "Linux" "22" "r2r@sftp"
         "/ngdc" [])
  = Raise ValueError
  /\ Pull.populate no_render "Linux" remote_root_missing iso_date
       sample_metadata accept_all "22" "r2r@sftp" "/ngdc" (DbRows []) []
     = Raise ValueError
  /\ Pull.check_date_dirs "Linux" remote_first_missing iso_date
       (Pull.DatesList ["2022-05-01"; "2022-05-02"]) "/ngdc" (DbRows []) []
     = Ok (Pull.InvDict [("2022-05-02", [sample_candidate])],
           {| Pull.date_dir_inventory :=
                [("2022-05-02", [sample_candidate])];
              Pull.new_dir_count := 1;
              Pull.errors_of := [];
              Pull.listed := ["/ngdc/2022-05-01"; "/ngdc/2022-05-02"] |})
  /\ Pull.populate no_render "Linux" remote_first_missing iso_date
       sample_metadata accept_all "22" "r2r@sftp" "/ngdc" (DbRows []) []
     = Ok (DbRows [sample_enriched], []).
Proof.
  split; [reflexivity|]. split; [reflexivity|]. split; [reflexivity|].
  vm_compute. reflexivity.
Qed.

(** C7. With three packages displayed, the answer "1,100-50" holds a
    piece whose two numbers both lie outside the list. That piece reads
    as a range, [range(100, 51)] is empty, so it adds no number and the
    count test passes: the first package is handed back for download. An
    out-of-range index, or the same range written in ascending order,
    invalidates the answer. *)
Theorem descending_range_is_accepted :
  List.length
    (snd (Pull.accumulate 10000000000
            (List.filter (Pull.pending_like (Some "Multibeam")) sample_rows)))
  = 3%nat
  /\ Pull.parse_choice "100-50" = Ok []
  /\ Pull.query_sqlite no_render (DbRows sample_rows) (Some "Multibeam")
       10000000000 "1,100-50"
     = Ok (Some ["/ngdc/2022-05-02/AR01_11111_a.tar"])
  /\ Pull.query_sqlite no_render (DbRows sample_rows) (Some "Multibeam")
       10000000000 "1,100"
     = Ok None
  /\ Pull.query_sqlite no_render (DbRows sample_rows) (Some "Multibeam")
       10000000000 "1,50-100"
     = Ok None.
Proof.
  split; [reflexivity|]. split; [reflexivity|].
  split; [vm_compute; reflexivity|].
  split; vm_compute; reflexivity.
Qed.

(** ** The planner on records with distinct keys *)

Lemma dict_set_fresh {V} k (v : V) d :
  k ∉ fst <$> d -> dict_set k v d = d ++ [(k, v)].
Proof.
  induction d as [|[k' v'] d IH]; [done|].
  rewrite fmap_cons. cbn [fst dict_set]. intros Hnot.
  apply not_elem_of_cons in Hnot as [Hne Hnot].
  rewrite (proj2 (String.eqb_neq k k')) by done.
  by rewrite IH.
Qed.

Lemma stored_distinct inc d :
  NoDup ((fst <$> d) ++ (fst ∘ offered <$> inc)) ->
  fold_left store_entry inc d = d ++ (offered <$> inc).
Proof.
  revert d. induction inc as [|e inc IH]; intros d Hnd.
  - by rewrite app_nil_r.
  - rewrite fmap_cons in Hnd. cbn [fold_left].
    apply NoDup_app in Hnd as (Hd & Hdisj & Hinc).
    apply NoDup_cons in Hinc as [He Hinc].
    assert (fst (offered e) ∉ fst <$> d) as Hfresh.
    { intros Hin. apply (Hdisj _ Hin). left. }
    unfold store_entry at 2.
    change (Pull.package_id e) with (fst (offered e)).
    rewrite dict_set_fresh by done.
    change (d ++ [(fst (offered e),
                   (HUMAN_READABLE e, PACKAGE_PATH e, SIZE_BYTES e))])
      with (d ++ [offered e]).
    rewrite IH.
    + rewrite fmap_cons. by rewrite <- app_assoc.
    + rewrite fmap_app, <- app_assoc. apply NoDup_app.
      split; [done|]. split; [|by constructor].
      intros k Hk [-> | Hin]%elem_of_cons; [done|]. by apply (Hdisj k); [|right].
Qed.

Lemma included_from_sublist B c results :
  sublist (included_from B c results) results.
Proof.
  revert c. induction results as [|e rest IH]; intros c; simpl.
  - constructor.
  - destruct (c <? B); [apply sublist_skip | apply sublist_cons]; apply IH.
Qed.

Lemma offer_size_offered l : offer_size (offered <$> l) = total_size l.
Proof.
  induction l as [|e l IH]; [done|].
  rewrite fmap_cons. unfold offer_size, total_size in *.
  cbn [fold_right offered snd]. by rewrite IH.
Qed.

Lemma removelast_fmap {A B} (f : A -> B) (l : list A) :
  removelast (f <$> l) = f <$> removelast l.
Proof.
  induction l as [|x l IH]; [done|].
  destruct l as [|y l]; [done|].
  change (removelast (x :: y :: l)) with (x :: removelast (y :: l)).
  rewrite !fmap_cons.
  change (removelast (f x :: f y :: (f <$> l)))
    with (f x :: removelast (f y :: (f <$> l))).
  f_equal. rewrite <- IH. by rewrite fmap_cons.
Qed.

Section DistinctKeys.

Variable B : Z.

Lemma accumulate_distinct results :
  NoDup (fst ∘ offered <$> results) ->
  Pull.accumulate B results
  = (total_size (included B results), offered <$> included B results).
Proof.
  intros Hnd. unfold Pull.accumulate. rewrite accumulate_from.
  fold (included B results). f_equal.
  rewrite stored_distinct; [done|]. simpl.
  eapply sublist_NoDup; [exact Hnd|].
  apply fmap_sublist, included_from_sublist.
Qed.

(** X21. When the records handed to the planner's loop have pairwise
    distinct keys ["CRUISE_ID INSTRUMENT_NAME"], the displayed list holds
    one line per record taken, in store order; a record is on it exactly
    when the sizes on the list built from the records before it sum to
    less than the budget; the byte counter is the sum of the sizes on the
    list; and the sizes of all lines but the last sum to less than the
    budget. *)
Theorem distinct_keys_respect_budget (results : list PackageRecord) :
  NoDup (fst ∘ offered <$> results) ->
  let package_dict := snd (Pull.accumulate B results) in
  (exists taken,
     sublist taken results /\ package_dict = offered <$> taken)
  /\ fst (Pull.accumulate B results) = offer_size package_dict
  /\ (forall pre e post,
        results = pre ++ e :: post ->
        (offered e ∈ package_dict
         <-> offer_size (snd (Pull.accumulate B pre)) < B))
  /\ (package_dict <> [] -> offer_size (removelast package_dict) < B).
Proof.
  intros Hnd package_dict. unfold package_dict.
  rewrite (accumulate_distinct results Hnd). cbn [fst snd].
  split; [|split; [|split]].
  - exists (included B results). split; [|done].
    apply included_from_sublist.
  - by rewrite offer_size_offered.
  - intros pre e post ->.
    assert (NoDup (fst ∘ offered <$> pre)) as Hpre.
    { rewrite fmap_app in Hnd. by apply NoDup_app in Hnd as [? _]. }
    rewrite (accumulate_distinct pre Hpre). cbn [snd].
    rewrite offer_size_offered.
    unfold included. rewrite included_from_app. cbn [included_from].
    rewrite Z.add_0_l. fold (included B pre).
    destruct (total_size (included B pre) <? B) eqn:Hc.
    + apply Z.ltb_lt in Hc. split; [done|]. intros _.
      apply list_elem_of_fmap. exists e. split; [done|].
      apply elem_of_app. right. left.
    + apply Z.ltb_ge in Hc. split; [|lia].
      intros (e' & Heq & Hin)%list_elem_of_fmap. exfalso.
      rewrite fmap_app, fmap_cons in Hnd.
      apply NoDup_app in Hnd as (_ & Hdisj & Hrest).
      apply NoDup_cons in Hrest as [Hnot _].
      apply elem_of_app in Hin as [Hin | Hin].
      * apply (Hdisj ((fst ∘ offered) e)); [|left].
        apply list_elem_of_fmap. exists e'.
        split; [unfold compose; by rewrite Heq|].
        eapply elem_of_sublist; [exact Hin|]. apply included_from_sublist.
      * apply Hnot. apply list_elem_of_fmap. exists e'.
        split; [unfold compose; by rewrite Heq|].
        eapply elem_of_sublist; [exact Hin|]. apply included_from_sublist.
  - intros Hne. rewrite removelast_fmap, offer_size_offered.
    assert (included_from B 0 results <> []) as Hinc.
    { intros Hnil. apply Hne. unfold included. by rewrite Hnil. }
    apply all_but_last_under in Hinc. unfold included. lia.
Qed.

End DistinctKeys.

Lemma distinct_keys_respect_budget_witness :
  (exists taken,
     sublist taken sample_rows
     /\ snd (Pull.accumulate 10000000000 sample_rows) = offered <$> taken)
  /\ fst (Pull.accumulate 10000000000 sample_rows)
     = offer_size (snd (Pull.accumulate 10000000000 sample_rows))
  /\ (offered (sample_row "33333" "AR03" "/ngdc/2022-05-02/AR03_33333_c.tar")
      ∈ snd (Pull.accumulate 10000000000 sample_rows)
      <-> offer_size
            (snd (Pull.accumulate 10000000000
                    [sample_row "11111" "AR01"
                       "/ngdc/2022-05-02/AR01_11111_a.tar";
                     sample_row "22222" "AR02"
                       "/ngdc/2022-05-02/AR02_22222_b.tar"]))
          < 10000000000)
  /\ offer_size (removelast (snd (Pull.accumulate 10000000000 sample_rows)))
     < 10000000000.
Proof.
  assert (NoDup (fst ∘ offered <$> sample_rows)) as Hnd.
  { apply NoDup_ListNoDup. vm_compute.
    repeat constructor; simpl; intuition discriminate. }
  destruct (distinct_keys_respect_budget 10000000000 sample_rows Hnd)
    as (Htaken & Hcount & Hin & Hlast).
  split; [exact Htaken|]. split; [exact Hcount|]. split.
  - exact (Hin [sample_row "11111" "AR01" "/ngdc/2022-05-02/AR01_11111_a.tar";
                sample_row "22222" "AR02" "/ngdc/2022-05-02/AR02_22222_b.tar"]
             _ [] eq_refl).
  - apply Hlast. vm_compute. discriminate.
Defined.

(** ** A date directory that matches nothing *)

Section MissingDirectory.

Variable platform_system : string.
Variable sftp_ls : bool -> string -> process.
Variable strptime : string -> option (Z * Z * Z).
Variable file_path : string.

Local Abbreviation compare_dates :=
  (Pull.compare_dates platform_system sftp_ls strptime).

Lemma compare_dates_alike known l1 lA lB :
  (forall st st', alike st st' ->
     same_finding (compare_dates lA file_path known st)
       (compare_dates lB file_path known st')) ->
  forall st st', alike st st' ->
    same_finding (compare_dates (l1 ++ lA) file_path known st)
      (compare_dates (l1 ++ lB) file_path known st').
Proof.
  intros Hrest. induction l1 as [|date l1 IH]; intros st st' Halike;
    [by apply Hrest|].
  destruct st as [inv n errs ls], st' as [inv' n' errs' ls'].
  destruct Halike as (Hinv & Hn & Herrs). simpl in Hinv, Hn, Herrs.
  subst inv' n' errs'.
  rewrite <- !app_comm_cons. cbn [Pull.compare_dates].
  cbn [Pull.date_dir_inventory Pull.new_dir_count Pull.errors_of Pull.listed].
  case_bool_decide; [by apply IH|].
  destruct (strptime date) as [dt|]; [|done].
  destruct (Pull.after_cutoff dt); [|by apply IH].
  destruct (negb (returncode _ =? 0)).
  - destruct (contains "matched no objects" _); [done|]. by apply IH.
  - destruct (0 <? _)%nat; [|by apply IH].
    destruct (Pull.parse_entries _ _ _ _) as [found errors].
    by apply IH.
Qed.

Lemma compare_dates_listed known l st st' :
  alike st st' ->
  same_finding (compare_dates l file_path known st)
    (compare_dates l file_path known st').
Proof.
  intros Halike.
  pose proof (compare_dates_alike known l [] []) as H.
  rewrite !app_nil_r in H. apply H; [|done].
  intros st1 st2 Hst. simpl. split; [f_equal; apply Hst | done].
Qed.

Lemma compare_dates_has_lines known l st d st' :
  compare_dates l file_path known st = Ok (Pull.InvDict d, st') ->
  (forall date, date ∈ fst <$> Pull.date_dir_inventory st ->
     ~ lists_nothing platform_system sftp_ls file_path date) ->
  forall date, date ∈ fst <$> d ->
    ~ lists_nothing platform_system sftp_ls file_path date.
Proof.
  revert st. induction l as [|x l IH]; intros st; cbn [Pull.compare_dates].
  - by intros [= <- <-].
  - case_bool_decide; [apply IH|].
    destruct (strptime x) as [dt|]; [|done].
    destruct (Pull.after_cutoff dt); [|apply IH].
    destruct (negb (returncode _ =? 0)) eqn:Hrc.
    + destruct (contains "matched no objects" _); [done|].
      intros Hrun Hinv. by apply (IH _ Hrun).
    + destruct (0 <? _)%nat eqn:Hlen.
      * destruct (Pull.parse_entries _ _ _ _) as [found errors].
        intros Hrun Hinv. apply (IH _ Hrun). simpl.
        intros date. rewrite dict_set_keys.
        case_bool_decide as Hin; [apply Hinv|].
        intros [Hd | ->%list_elem_of_singleton]%elem_of_app; [by apply Hinv|].
        intros [_ Hnone]. rewrite Hnone in Hlen. done.
      * intros Hrun Hinv. by apply (IH _ Hrun).
Qed.

(** X23. A date directory that matches nothing, answered as the sftp
    client does (exit status 0, nothing listed), does not end discovery
    and yields nothing: for a date that parses, [check_date_dirs] finds
    with it in [date_list] exactly what it finds without it (the same
    result or exception, the same inventory, count and errors), and the
    inventory it hands back has no entry for such a date. *)
Theorem missing_directory_is_passed_over (before after : list string)
    (date : string) (rows : list PackageRecord) (errors : list err) :
  strptime date <> None ->
  lists_nothing platform_system sftp_ls file_path date ->
  same_finding
    (Pull.check_date_dirs platform_system sftp_ls strptime
       (Pull.DatesList (before ++ date :: after)) file_path (DbRows rows)
       errors)
    (Pull.check_date_dirs platform_system sftp_ls strptime
       (Pull.DatesList (before ++ after)) file_path (DbRows rows) errors)
  /\ forall d st,
       Pull.check_date_dirs platform_system sftp_ls strptime
         (Pull.DatesList (before ++ date :: after)) file_path (DbRows rows)
         errors
       = Ok (Pull.InvDict d, st) ->
       date ∉ fst <$> d.
Proof.
  intros Hparses [Hrc Hnone]. unfold Pull.check_date_dirs.
  cbn [database_connect fetchall Py.bind]. split.
  - apply compare_dates_alike; [|done].
    intros st st' Halike. cbn [Pull.compare_dates].
    case_bool_decide; [by apply compare_dates_listed|].
    destruct (strptime date) as [dt|]; [|done].
    destruct (Pull.after_cutoff dt); [|by apply compare_dates_listed].
    rewrite Hrc, Hnone. cbn [negb Z.eqb List.length Nat.ltb Nat.leb].
    apply compare_dates_listed.
    destruct Halike as (H1 & H2 & H3). by split.
  - intros d st Hrun Hin.
    eapply (compare_dates_has_lines _ _ _ _ _ Hrun); [|exact Hin|].
    + simpl. intros x Hx. by apply elem_of_nil in Hx.
    + by split.
Qed.

End MissingDirectory.

Lemma missing_directory_is_passed_over_witness :
  same_finding
    (Pull.check_date_dirs "Linux" remote_first_missing iso_date
       (Pull.DatesList ([] ++ "2022-05-01" :: ["2022-05-02"])) "/ngdc"
       (DbRows []) [])
    (Pull.check_date_dirs "Linux" remote_first_missing iso_date
       (Pull.DatesList ([] ++ ["2022-05-02"])) "/ngdc" (DbRows []) [])
  /\ forall d st,
       Pull.check_date_dirs "Linux" remote_first_missing iso_date
         (Pull.DatesList ([] ++ "2022-05-01" :: ["2022-05-02"])) "/ngdc"
         (DbRows []) []
       = Ok (Pull.InvDict d, st) ->
       "2022-05-01" ∉ fst <$> d.
Proof.
  apply (missing_directory_is_passed_over "Linux" remote_first_missing
           iso_date "/ngdc" [] ["2022-05-02"] "2022-05-01" [] []).
  - discriminate.
  - split; reflexivity.
Defined.
